(** * caddy-geoip2: the request handler and the shared database state

    A shallow embedding of [geoip2.go] (the [geoip2_vars] HTTP handler) and of
    the database state manager ([GeoIP2State]: [loadDatabase], [Lookup],
    [LookupCity], [LookupGlobalCity], [LookupASN], [GetDatabaseInfo]).

    Conventions of the embedding:
    - Go strings are byte strings ([string]); [uint64] is a [Z]; a [float64]
      is carried as its IEEE-754 bit pattern (the code only copies latitude
      and longitude, it never computes with them), so the zero value [0.0]
      is the pattern [0].
    - [caddy.Replacer] is a finite map from variable names to values of any
      type: [gmap string Value].
    - [*maxminddb.Reader] is a pointer: a handle into a heap of reader
      objects, each with its [closed] flag, so that closing an old database
      during a reload is visible to whoever still holds the handle.
    - The functions of Go's standard library the handler calls
      ([net.SplitHostPort], [net.ParseIP], [strings.TrimSpace], the
      non-ASCII path of [strings.ToLower], the order in which [range]
      enumerates a map) are collected in the record [GoLib].
    - Logging calls ([caddy.Log()...]) have no effect on the variables or
      on the databases and are left out; the read/write mutex is left out
      as well: the embedding is the sequential semantics of one call. *)

From stdpp Require Import gmap strings list fin_maps pretty.
From Stdlib Require Import ZArith Ascii String.

Local Open Scope string_scope.
Local Open Scope Z_scope.

(** ** Data model *)

(** Go's [error] values, as far as the handler tells them apart:
    [*net.AddrError] (with its [Err] and [Addr] fields) and every other
    error, which carries a message. *)
Inductive error : Type :=
  | AddrError (Err : string) (Addr : string)
  | errorString (msg : string).

(** [net.IP] is a byte slice. *)
Definition IP : Type := list Byte.byte.

#[global] Instance byte_eq_dec : EqDecision Byte.byte := Byte.byte_eq_dec.
#[global] Instance IP_eq_dec : EqDecision IP := list_eq_dec.

(** [CountryRecord], lines 19-28. *)
Record CountryRecord : Type := mkCountryRecord {
  Country_ISOCode : string;
  Country_IsInEuropeanUnion : bool;
  RegisteredCountry_IsInEuropeanUnion : bool
}.

(** [CityRecord], lines 32-45. [Subdivisions] is the list of the
    subdivisions' [IsoCode]s. *)
Record CityRecord : Type := mkCityRecord {
  City_Names : gmap string string;
  Location_Latitude : Z;
  Location_Longitude : Z;
  Subdivisions : list string
}.

(** [ASNRecord], lines 49-52. *)
Record ASNRecord : Type := mkASNRecord {
  AutonomousSystemNumber : Z;
  AutonomousSystemOrganization : string
}.

(** [IpSafeLevel], lines 72-78. *)
Definition IpSafeLevel : Type := Z.
Definition Wild : IpSafeLevel := 0.
Definition TrustedProxies : IpSafeLevel := 1.
Definition Strict : IpSafeLevel := 100.

(** Variable names, lines 82-91. *)
Definition VarCity : string := "geoip2_city".
Definition VarCountryCode : string := "geoip2_country_code".
Definition VarLatitude : string := "geoip2_latitude".
Definition VarLongitude : string := "geoip2_longitude".
Definition VarSubdivisions : string := "geoip2_subdivisions".
Definition VarIsInEU : string := "geoip2_is_in_eu".
Definition VarASN : string := "geoip2_asn".
Definition VarASOrg : string := "geoip2_asorg".

Definition allVars : list string :=
  [VarCity; VarCountryCode; VarLatitude; VarLongitude;
   VarSubdivisions; VarIsInEU; VarASN; VarASOrg].

(** What [repl.Set] stores: the handler sets strings, a [bool], two
    [float64] and a [uint64]. *)
Inductive Value : Type :=
  | VString (s : string)
  | VBool (b : bool)
  | VFloat64 (bits : Z)
  | VUint64 (n : Z).

(** The four database slots of the state. *)
Inductive Slot : Type := Country | RegionCity | GlobalCity | Network.

#[global] Instance Slot_eq_dec : EqDecision Slot.
Proof. solve_decision. Defined.

#[global] Instance Value_eq_dec : EqDecision Value.
Proof. solve_decision. Defined.

(** *** The databases *)

(** [maxminddb.Metadata], the fields [GetDatabaseInfo] reports. *)
Record Metadata : Type := mkMetadata {
  BuildEpoch : Z;
  DatabaseType : string;
  IPVersion : Z;
  RecordSize : Z;
  NodeCount : Z
}.

(** An opened database. [Reader.Lookup(ip, result)] decodes the entry of
    [ip] into whatever structure [result] points to; the handler passes a
    [CountryRecord], a [CityRecord] or an [ASNRecord], hence the three
    decoders. Each one fails with an [error] or yields the record. *)
Record Reader : Type := mkReader {
  rd_Metadata : Metadata;
  decodeCountry : IP -> error + CountryRecord;
  decodeCity : IP -> error + CityRecord;
  decodeASN : IP -> error + ASNRecord
}.

(** A reader object in memory: its content and whether [Close] was called
    on it. *)
Record ReaderObj : Type := mkReaderObj {
  obj_reader : Reader;
  obj_closed : bool
}.

(** The heap of reader objects; a [*maxminddb.Reader] is an index into it
    and [nil] is [None]. *)
Definition Heap : Type := list ReaderObj.
Definition handle : Type := nat.

(** [GeoIP2State], the fields the code reads or writes (the mutex and the
    [done] channel are left out). *)
Record GeoIP2State : Type := mkGeoIP2State {
  CountryDBHandler : option handle;
  CityDBHandler : option handle;
  GlobalCityDBHandler : option handle;
  ASNDBHandler : option handle;
  CountryDatabasePath : string;
  CityDatabasePath : string;
  GlobalCityDatabasePath : string;
  ASNDatabasePath : string;
  ReloadInterval : Z
}.

(** [GeoIP2], lines 56-69: the mode string and the pointer to the shared
    state ([None] is [nil]). *)
Record GeoIP2 : Type := mkGeoIP2 {
  Enable : string;
  state : option GeoIP2State
}.

(** What the handler reads of an [*http.Request]: [RemoteAddr], the
    headers (canonical name to values) and the [TrustedProxyVarKey]
    variable of the request context. *)
Record Request : Type := mkRequest {
  RemoteAddr : string;
  Header : gmap string (list string);
  TrustedProxyVar : bool
}.

(** [http.Header.Get]: the first value of the key, or the empty string. *)
Definition Header_Get (h : gmap string (list string)) (key : string) : string :=
  match h !! key with
  | Some (v :: _) => v
  | _ => ""
  end.

(** ** The standard-library functions the handler relies on *)

Record GoLib : Type := mkGoLib {
  (** [net.SplitHostPort]: host and port, or an error. *)
  SplitHostPort : string -> error + (string * string);
  (** [net.ParseIP]: [None] is [nil]. *)
  ParseIP : string -> option IP;
  (** [strings.TrimSpace]. *)
  TrimSpace : string -> string;
  (** [strings.Map(unicode.ToLower, s)], which [strings.ToLower] falls back
      to for a string with a byte of 0x80 or more. *)
  unicodeToLower : string -> string;
  (** The sequence of entries a [for ... range] over a Go map yields. Go
      draws the order anew at every [range] statement; a request runs at
      most one, so that one request is served under one enumeration and
      two requests under an enumeration each (see [withRange]). *)
  mapRange : gmap string string -> list (string * string)
}.

(** Go enumerates every entry of a map exactly once, in an order it does
    not specify. *)
Definition range_enumerates (lib : GoLib) : Prop :=
  ∀ m : gmap string string, mapRange lib m ≡ₚ map_to_list m.

(** *** Strings *)

Definition isUpperASCII (c : ascii) : bool :=
  let n := N_of_ascii c in ((65 <=? n) && (n <=? 90))%N.

Definition lowerASCII (c : ascii) : ascii :=
  if isUpperASCII c then ascii_of_N (N_of_ascii c + 32) else c.

Fixpoint isASCII (s : string) : bool :=
  match s with
  | EmptyString => true
  | String c s' => (N_of_ascii c <? 128)%N && isASCII s'
  end.

Fixpoint mapASCII (f : ascii -> ascii) (s : string) : string :=
  match s with
  | EmptyString => EmptyString
  | String c s' => String (f c) (mapASCII f s')
  end.

(** [strings.ToLower]: an ASCII-only string has its letters [A]-[Z]
    lowered byte by byte; any other string goes through the Unicode
    mapping. *)
Definition ToLower (lib : GoLib) (s : string) : string :=
  if isASCII s then mapASCII lowerASCII s else unicodeToLower lib s.

(** [strings.Split(s, sep)] for a non-empty [sep]: [skip] counts the bytes
    of a separator still to be dropped, [cur] is the piece being read. *)
Fixpoint Split_go (sep : string) (skip : nat) (cur : string) (s : string)
  : list string :=
  match s with
  | EmptyString => [cur]
  | String c s' =>
      match skip with
      | S k => Split_go sep k cur s'
      | O =>
          if String.prefix sep s
          then cur :: Split_go sep (Nat.pred (String.length sep)) "" s'
          else Split_go sep O (cur ++ String c "") s'
      end
  end.

Definition Split (s sep : string) : list string := Split_go sep O "" s.


(** ** The handler ([geoip2.go]) *)

(** The state a request threads through the handler: the replacer's
    variables and the log of the database slots that were queried, in
    order. *)
Record Ctx : Type := mkCtx {
  vars : gmap string Value;
  queries : list Slot
}.

Definition M (A : Type) : Type := Ctx -> A * Ctx.

Definition ret {A : Type} (a : A) : M A := fun c => (a, c).

Definition bind {A B : Type} (x : M A) (k : A -> M B) : M B :=
  fun c => let (a, c') := x c in k a c'.

Notation "'do' x <- e ; k" := (bind e (fun x => k))
  (at level 10, x pattern, e at level 100, k at level 200, only parsing).
Notation "e ;; k" := (bind e (fun _ => k))
  (at level 100, k at level 200, right associativity, only parsing).

(** [repl.Set(name, value)]. *)
Definition Set_ (name : string) (v : Value) : M unit :=
  fun c => (tt, mkCtx (<[name := v]> (vars c)) (queries c)).

(** A query of the database bound to [slot] is about to run. *)
Definition query (slot : Slot) : M unit :=
  fun c => (tt, mkCtx (vars c) (queries c ++ [slot])).

(** *** The state's lookups ([Lookup], [LookupCity], [LookupGlobalCity],
    [LookupASN]) *)

(** [Reader.Lookup] of maxminddb on the object behind a handle: a closed
    reader refuses the lookup. *)
Definition Reader_Lookup {A : Type} (decode : Reader -> IP -> error + A)
    (h : Heap) (p : handle) (ip : IP) : error + A :=
  match h !! p with
  | Some o =>
      if obj_closed o
      then inl (errorString "cannot call Lookup on a closed database")
      else decode (obj_reader o) ip
  | None => inl (errorString "invalid memory address or nil pointer dereference")
  end.

(** The four lookups share one shape: refuse when the handler is [nil],
    else query the reader. The handler always passes a [net.IP], so the
    type switch on [ip] takes its first case. *)
Definition State_lookup {A : Type} (slot : Slot) (field : option handle)
    (notLoaded : string) (decode : Reader -> IP -> error + A)
    (h : Heap) (ip : IP) : M (error + A) :=
  match field with
  | None => ret (inl (errorString notLoaded))
  | Some p => query slot ;; ret (Reader_Lookup decode h p ip)
  end.

Definition Lookup (h : Heap) (g : GeoIP2State) (ip : IP)
  : M (error + CountryRecord) :=
  State_lookup Country (CountryDBHandler g) "country database not loaded"
    decodeCountry h ip.

Definition LookupCity (h : Heap) (g : GeoIP2State) (ip : IP)
  : M (error + CityRecord) :=
  State_lookup RegionCity (CityDBHandler g) "city database not loaded"
    decodeCity h ip.

Definition LookupGlobalCity (h : Heap) (g : GeoIP2State) (ip : IP)
  : M (error + CityRecord) :=
  State_lookup GlobalCity (GlobalCityDBHandler g)
    "global city database not loaded" decodeCity h ip.

Definition LookupASN (h : Heap) (g : GeoIP2State) (ip : IP)
  : M (error + ASNRecord) :=
  State_lookup Network (ASNDBHandler g) "ASN database not loaded"
    decodeASN h ip.

(** *** [initializeVariables], lines 129-138 *)
Definition initializeVariables : M unit :=
  Set_ VarCity (VString "") ;;
  Set_ VarCountryCode (VString "") ;;
  Set_ VarLatitude (VString "") ;;
  Set_ VarLongitude (VString "") ;;
  Set_ VarSubdivisions (VString "") ;;
  Set_ VarIsInEU (VString "") ;;
  Set_ VarASN (VString "") ;;
  Set_ VarASOrg (VString "").

(** *** [isEnabled], lines 141-143 *)
Definition isEnabled (m : GeoIP2) : bool :=
  bool_decide (Enable m ≠ "off") && bool_decide (Enable m ≠ "false")
  && bool_decide (Enable m ≠ "0").

(** *** [getSafetyLevel], lines 318-327 *)
Definition getSafetyLevel (lib : GoLib) (m : GeoIP2) : IpSafeLevel :=
  let s := ToLower lib (Enable m) in
  if bool_decide (s = "strict") then Strict
  else if bool_decide (s = "wild") then Wild
  else TrustedProxies.

(** *** [getClientIP], lines 276-315 *)
Definition parseClientIP (lib : GoLib) (ipStr : string) : error + IP :=
  match ParseIP lib ipStr with
  | None => inl (errorString ("invalid IP address: " ++ ipStr))
  | Some parsedIP => inr parsedIP
  end.

Definition getClientIP (lib : GoLib) (m : GeoIP2) (r : Request) : error + IP :=
  let trustedProxy := TrustedProxyVar r in
  let safeLevel := getSafetyLevel lib m in
  let forwardedFor := Header_Get (Header r) "X-Forwarded-For" in
  if (((safeLevel =? TrustedProxies) && trustedProxy) || (safeLevel =? Wild))
     && bool_decide (forwardedFor ≠ "")
  then
    let ips := Split forwardedFor ", " in
    parseClientIP lib (TrimSpace lib (hd "" ips))
  else
    match SplitHostPort lib (RemoteAddr r) with
    | inr (host, _) => parseClientIP lib host
    | inl err =>
        match err with
        | AddrError e _ =>
            if bool_decide (e = "missing port in address")
            then parseClientIP lib (RemoteAddr r)
            else inl err
        | _ => inl err
        end
    end.

(** *** [performLookup], lines 148-272 *)

(** [name, exists := Names[key]; exists && name != ""]. *)
Definition existsNonEmpty (o : option string) : bool :=
  match o with
  | Some name => bool_decide (name ≠ "")
  | None => false
  end.

(** The loop of lines 214-219 over the enumerated entries: the first
    non-empty name is taken and the loop stops; [cityName] is still the
    empty string when there is none. *)
Fixpoint rangeFirstNonEmpty (entries : list (string * string)) : string :=
  match entries with
  | [] => ""
  | (_, name) :: rest =>
      if bool_decide (name ≠ "") then name else rangeFirstNonEmpty rest
  end.

(** Lines 208-220: German, else English, else any name. *)
Definition selectCityName (lib : GoLib) (names : gmap string string) : string :=
  if existsNonEmpty (names !! "de") then default "" (names !! "de")
  else if existsNonEmpty (names !! "en") then default "" (names !! "en")
  else rangeFirstNonEmpty (mapRange lib names).

(** The enumeration without the two preferred locales. *)
Definition remainingLocales (lib : GoLib) (names : gmap string string)
  : list (string * string) :=
  List.filter
    (fun e => negb (bool_decide (e.1 = "de")) && negb (bool_decide (e.1 = "en")))
    (mapRange lib names).

(** [res] is the first non-empty name of [entries], or the empty string
    when they have none. *)
Definition firstNonEmptyIn (entries : list (string * string)) (res : string)
  : Prop :=
  (res = "" ∧ ∀ e, e ∈ entries → e.2 = "")
  ∨ (res ≠ ""
     ∧ ∃ before locale after,
         entries = (before ++ (locale, res) :: after)%list
         ∧ ∀ e, e ∈ before → e.2 = "").

(** Lines 226-229: the first subdivision's code, when it is not empty. *)
Definition selectSubdivision (subdivisions : list string) : string :=
  match subdivisions with
  | isoCode :: _ => if bool_decide (isoCode ≠ "") then isoCode else ""
  | [] => ""
  end.

(** Lines 186-197: which of the state's city lookups is called. *)
Definition cityLookupFunc (h : Heap) (g : GeoIP2State) (isInEU : bool)
  : option (IP -> M (error + CityRecord)) :=
  if isInEU && bool_decide (CityDBHandler g ≠ None) then Some (LookupCity h g)
  else if bool_decide (GlobalCityDBHandler g ≠ None)
       then Some (LookupGlobalCity h g)
       else None.

Definition performLookup (lib : GoLib) (h : Heap) (m : GeoIP2) (r : Request)
  : M unit :=
  match state m with
  | None => ret tt
  | Some g =>
      match getClientIP lib m r with
      | inl _ => ret tt
      | inr clientIP =>
          (* Country database lookup, lines 164-177 *)
          do (countryCode, isInEU) <-
            (if bool_decide (CountryDBHandler g ≠ None) then
               do res <- Lookup h g clientIP;
               match res with
               | inl _ => ret ("", false)
               | inr countryRecord =>
                   ret (Country_ISOCode countryRecord,
                        Country_IsInEuropeanUnion countryRecord
                        || RegisteredCountry_IsInEuropeanUnion countryRecord)
               end
             else ret ("", false));
          (* City database lookup, lines 180-237 *)
          do (cityName, latitude, longitude, subdivision) <-
            (match cityLookupFunc h g isInEU with
             | Some lookup =>
                 do res <- lookup clientIP;
                 match res with
                 | inl _ => ret ("", 0, 0, "")
                 | inr cityRecord =>
                     ret (selectCityName lib (City_Names cityRecord),
                          Location_Latitude cityRecord,
                          Location_Longitude cityRecord,
                          selectSubdivision (Subdivisions cityRecord))
                 end
             | None => ret ("", 0, 0, "")
             end);
          (* ASN database lookup, lines 240-252 *)
          do (asnNumber, asnOrg) <-
            (if bool_decide (ASNDBHandler g ≠ None) then
               do res <- LookupASN h g clientIP;
               match res with
               | inl _ => ret (0, "")
               | inr asnRecord =>
                   ret (AutonomousSystemNumber asnRecord,
                        AutonomousSystemOrganization asnRecord)
               end
             else ret (0, ""));
          (* lines 255-262 *)
          Set_ VarCountryCode (VString countryCode) ;;
          Set_ VarIsInEU (VBool isInEU) ;;
          Set_ VarCity (VString cityName) ;;
          Set_ VarLatitude (VFloat64 latitude) ;;
          Set_ VarLongitude (VFloat64 longitude) ;;
          Set_ VarSubdivisions (VString subdivision) ;;
          Set_ VarASN (VUint64 asnNumber) ;;
          Set_ VarASOrg (VString asnOrg)
      end
  end.

(** *** [ServeHTTP], lines 109-125. [next] is the rest of the handler
    chain; its result is what [ServeHTTP] returns. *)
Definition ServeHTTP (lib : GoLib) (h : Heap) (m : GeoIP2) (r : Request)
    (next : M (option error)) : M (option error) :=
  initializeVariables ;;
  (if isEnabled m then performLookup lib h m r else ret tt) ;;
  next.

(** The variables and the query log a request leaves behind when the rest
    of the chain does nothing. *)
Definition served (lib : GoLib) (h : Heap) (m : GeoIP2) (r : Request)
    (c : Ctx) : Ctx :=
  snd (ServeHTTP lib h m r (ret None) c).

(** *** [Validate], lines 367-380 *)
Definition validModes : list string :=
  ["strict"; "wild"; "trusted_proxies"; "off"; "false"; "0"; ""].

Fixpoint matchesAny (mode : string) (modes : list string) : bool :=
  match modes with
  | [] => false
  | valid :: rest =>
      if bool_decide (mode = valid) then true else matchesAny mode rest
  end.

Definition Validate (lib : GoLib) (g : GeoIP2) : option error :=
  let mode := ToLower lib (Enable g) in
  if matchesAny mode validModes then None
  else Some (errorString ("invalid enable mode '" ++ Enable g
                          ++ "', must be one of: "
                          ++ "[strict wild trusted_proxies off false 0 ]")).

(** ** The database state ([GeoIP2State]) *)

(** [err.Error()]. An [*net.AddrError] names its address only when it has
    one. *)
Definition Error_msg (e : error) : string :=
  match e with
  | AddrError err addr =>
      if bool_decide (addr ≠ "") then "address " ++ addr ++ ": " ++ err
      else err
  | errorString msg => msg
  end.

(** What [os.Stat] answers for a path. *)
Inductive StatResult : Type :=
  | StatNotExist
  | StatFailed (err : error)
  | StatInfo (isRegular : bool) (size : Z).

(** The files the state manager sees: [os.Stat] and [maxminddb.Open]. *)
Record FileSystem : Type := mkFileSystem {
  os_Stat : string -> StatResult;
  maxminddb_Open : string -> error + Reader
}.

(** *** [validateDatabaseFile] *)
Definition validateDatabaseFile (fs : FileSystem) (path : string)
  : option error :=
  match os_Stat fs path with
  | StatNotExist => Some (errorString ("database file not found: " ++ path))
  | StatFailed err =>
      Some (errorString ("cannot access database file " ++ path ++ ": "
                         ++ Error_msg err))
  | StatInfo isRegular size =>
      if negb isRegular
      then Some (errorString ("database path is not a regular file: " ++ path))
      else if size <? 1024 * 1024
           then Some (errorString ("database file appears too small: "
                                   ++ pretty size ++ " bytes"))
           else None
  end.

(** [maxminddb.Open]: a new reader object is allocated on success. *)
Definition openReader (fs : FileSystem) (path : string) (h : Heap)
  : (error + handle) * Heap :=
  match maxminddb_Open fs path with
  | inl err => (inl err, h)
  | inr rd => (inr (List.length h), (h ++ [mkReaderObj rd false])%list)
  end.

(** [if p != nil { p.Close() }]. *)
Definition closeReader (p : option handle) (h : Heap) : Heap :=
  match p with
  | Some i => alter (fun o => mkReaderObj (obj_reader o) true) i h
  | None => h
  end.

(** *** [loadDatabase]: the result is the returned error ([None] is [nil]),
    the heap and the state afterwards. *)
Definition loadDatabase (fs : FileSystem) (h : Heap) (g : GeoIP2State)
  : option error * Heap * GeoIP2State :=
  match validateDatabaseFile fs (CountryDatabasePath g) with
  | Some err =>
      (Some (errorString ("country database validation failed: "
                          ++ Error_msg err)), h, g)
  | None =>
  match validateDatabaseFile fs (CityDatabasePath g) with
  | Some err =>
      (Some (errorString ("city database validation failed: "
                          ++ Error_msg err)), h, g)
  | None =>
  (* a global city database that does not validate is only logged *)
  let asnDBValid :=
    if bool_decide (ASNDatabasePath g ≠ "") then
      match validateDatabaseFile fs (ASNDatabasePath g) with
      | Some _ => false
      | None => true
      end
    else false in
  match openReader fs (CountryDatabasePath g) h with
  | (inl err, _) =>
      (Some (errorString ("failed to open country database "
                          ++ CountryDatabasePath g ++ ": " ++ Error_msg err)),
       h, g)
  | (inr newCountryDB, h1) =>
  match openReader fs (CityDatabasePath g) h1 with
  | (inl err, _) =>
      (Some (errorString ("failed to open city database "
                          ++ CityDatabasePath g ++ ": " ++ Error_msg err)),
       h1, g)
  | (inr newCityDB, h2) =>
  let '(newGlobalCityDB, h3) :=
    match openReader fs (GlobalCityDatabasePath g) h2 with
    | (inl _, _) => (None, h2)
    | (inr p, h3) => (Some p, h3)
    end in
  let '(newASNDB, h4) :=
    if asnDBValid then
      match openReader fs (ASNDatabasePath g) h3 with
      | (inl _, _) => (None, h3)
      | (inr p, h4) => (Some p, h4)
      end
    else (None, h3) in
  (* close the old databases, then install the new ones *)
  let h5 := closeReader (CountryDBHandler g) h4 in
  let h6 := closeReader (CityDBHandler g) h5 in
  let h7 := closeReader (GlobalCityDBHandler g) h6 in
  let h8 := closeReader (ASNDBHandler g) h7 in
  (None, h8,
   mkGeoIP2State (Some newCountryDB) (Some newCityDB) newGlobalCityDB newASNDB
     (CountryDatabasePath g) (CityDatabasePath g) (GlobalCityDatabasePath g)
     (ASNDatabasePath g) (ReloadInterval g))
  end end end end.

(** *** [performScheduledReload]: the error is logged, not returned. *)
Definition performScheduledReload (fs : FileSystem) (h : Heap)
    (g : GeoIP2State) : Heap * GeoIP2State :=
  let '(_, h', g') := loadDatabase fs h g in (h', g').

(** *** [Start]: the first load; the reload timer is left out. *)
Definition Start (fs : FileSystem) (h : Heap) (g : GeoIP2State)
  : option error * Heap * GeoIP2State :=
  match loadDatabase fs h g with
  | (Some err, h', g') =>
      (Some (errorString ("failed to load initial database: "
                          ++ Error_msg err)), h', g')
  | (None, h', g') => (None, h', g')
  end.

(** *** [GetDatabaseInfo] *)
Inductive InfoValue : Type :=
  | IString (s : string)
  | IInt (n : Z)
  | IBool (b : bool).

Definition metadataInfo (pre : string) (h : Heap) (p : option handle)
    (info : gmap string InfoValue) : gmap string InfoValue :=
  match p with
  | Some i =>
      match h !! i with
      | Some o =>
          let metadata := rd_Metadata (obj_reader o) in
          <[pre ++ "_node_count" := IInt (NodeCount metadata)]>
          (<[pre ++ "_record_size" := IInt (RecordSize metadata)]>
          (<[pre ++ "_ip_version" := IInt (IPVersion metadata)]>
          (<[pre ++ "_database_type" := IString (DatabaseType metadata)]>
          (<[pre ++ "_build_epoch" := IInt (BuildEpoch metadata)]> info))))
      | None => info
      end
  | None => info
  end.

Definition GetDatabaseInfo (h : Heap) (g : GeoIP2State)
  : gmap string InfoValue :=
  let info : gmap string InfoValue :=
    <["asn_loaded" := IBool (bool_decide (ASNDBHandler g ≠ None))]>
    (<["global_city_loaded" :=
         IBool (bool_decide (GlobalCityDBHandler g ≠ None))]>
    (<["city_loaded" := IBool (bool_decide (CityDBHandler g ≠ None))]>
    (<["country_loaded" := IBool (bool_decide (CountryDBHandler g ≠ None))]>
    (<["reload_interval" := IInt (ReloadInterval g)]>
    (<["asn_database_path" := IString (ASNDatabasePath g)]>
    (<["global_city_database_path" := IString (GlobalCityDatabasePath g)]>
    (<["city_database_path" := IString (CityDatabasePath g)]>
    (<["country_database_path" := IString (CountryDatabasePath g)]> ∅))))))))
  in
  metadataInfo "global_city" h (GlobalCityDBHandler g)
    (metadataInfo "city" h (CityDBHandler g)
       (metadataInfo "country" h (CountryDBHandler g) info)).

(** ** What a request's lookups amount to

    The outcome of each of the three steps of [performLookup], written as
    plain functions of the heap, the state and the address; the lemma
    [performLookup_run] below shows that [performLookup] computes exactly
    these. *)

(** Is the handler of a slot not [nil]? *)
Definition slotHandler (g : GeoIP2State) (s : Slot) : option handle :=
  match s with
  | Country => CountryDBHandler g
  | RegionCity => CityDBHandler g
  | GlobalCity => GlobalCityDBHandler g
  | Network => ASNDBHandler g
  end.

Definition bound (g : GeoIP2State) (s : Slot) : bool :=
  bool_decide (slotHandler g s ≠ None).

(** A successful lookup in the database bound to [s], decoded by
    [decode]. *)
Definition slotOutcome {A : Type} (decode : Reader -> IP -> error + A)
    (h : Heap) (g : GeoIP2State) (s : Slot) (ip : IP) : option A :=
  match slotHandler g s with
  | Some p =>
      match Reader_Lookup decode h p ip with
      | inr rec => Some rec
      | inl _ => None
      end
  | None => None
  end.

Definition countryOutcome (h : Heap) (g : GeoIP2State) (ip : IP)
  : option CountryRecord :=
  slotOutcome decodeCountry h g Country ip.

(** The EU flag the country step leaves in [isInEU]. *)
Definition euFlag (o : option CountryRecord) : bool :=
  match o with
  | Some rec =>
      Country_IsInEuropeanUnion rec || RegisteredCountry_IsInEuropeanUnion rec
  | None => false
  end.

(** The city slot the routing picks. *)
Definition citySlot (g : GeoIP2State) (isInEU : bool) : option Slot :=
  if isInEU && bound g RegionCity then Some RegionCity
  else if bound g GlobalCity then Some GlobalCity
  else None.

Definition cityOutcome (h : Heap) (g : GeoIP2State) (isInEU : bool) (ip : IP)
  : option CityRecord :=
  match citySlot g isInEU with
  | Some s => slotOutcome decodeCity h g s ip
  | None => None
  end.

Definition asnOutcome (h : Heap) (g : GeoIP2State) (ip : IP)
  : option ASNRecord :=
  slotOutcome decodeASN h g Network ip.

(** The slots one run of the three steps queries, in order. *)
Definition slotsQueried (g : GeoIP2State) (isInEU : bool) : list Slot :=
  ((if bound g Country then [Country] else [])
   ++ match citySlot g isInEU with Some s => [s] | None => [] end
   ++ (if bound g Network then [Network] else []))%list.

(** The variables after [initializeVariables]. *)
Definition initialized (vs : gmap string Value) : gmap string Value :=
  <[VarASOrg := VString ""]> (<[VarASN := VString ""]>
  (<[VarIsInEU := VString ""]> (<[VarSubdivisions := VString ""]>
  (<[VarLongitude := VString ""]> (<[VarLatitude := VString ""]>
  (<[VarCountryCode := VString ""]> (<[VarCity := VString ""]> vs))))))).

(** The variables after lines 255-262, given the outcome of each step. *)
Definition merged (lib : GoLib) (co : option CountryRecord)
    (ci : option CityRecord) (an : option ASNRecord)
    (vs : gmap string Value) : gmap string Value :=
  <[VarASOrg :=
      VString (from_option AutonomousSystemOrganization "" an)]>
  (<[VarASN := VUint64 (from_option AutonomousSystemNumber 0 an)]>
  (<[VarSubdivisions :=
       VString (from_option (fun r => selectSubdivision (Subdivisions r)) "" ci)]>
  (<[VarLongitude := VFloat64 (from_option Location_Longitude 0 ci)]>
  (<[VarLatitude := VFloat64 (from_option Location_Latitude 0 ci)]>
  (<[VarCity :=
       VString (from_option (fun r => selectCityName lib (City_Names r)) "" ci)]>
  (<[VarIsInEU := VBool (euFlag co)]>
  (<[VarCountryCode := VString (from_option Country_ISOCode "" co)]>
     vs))))))).

(** Do the three lookup steps run for this request? They do when lookups
    are enabled, the handler has its state and the client address
    parses. *)
Definition lookupRuns (lib : GoLib) (m : GeoIP2) (r : Request) : bool :=
  isEnabled m
  && match state m with Some _ => true | None => false end
  && match getClientIP lib m r with inr _ => true | inl _ => false end.


(** The EU flag was determined true: the variable holds the boolean
    [true]. *)
Definition determinedEU (c : Ctx) : bool :=
  bool_decide (vars c !! VarIsInEU = Some (VBool true)).

(** The variables that come from the city lookup. *)
Definition cityVars : list string :=
  [VarCity; VarLatitude; VarLongitude; VarSubdivisions].

(** The variables that come from the Country and from the ASN lookup. *)
Definition countryVars : list string := [VarCountryCode; VarIsInEU].
Definition asnVars : list string := [VarASN; VarASOrg].

(** Two runs agree on the variables [ks]. *)
Definition sameVars (ks : list string) (c1 c2 : Ctx) : Prop :=
  ∀ k, k ∈ ks → vars c1 !! k = vars c2 !! k.



(** Two requests that differ at most in their [X-Forwarded-For] header. *)
Definition same_but_forwarded_for (r1 r2 : Request) : Prop :=
  RemoteAddr r1 = RemoteAddr r2
  ∧ TrustedProxyVar r1 = TrustedProxyVar r2
  ∧ ∀ key, key ≠ "X-Forwarded-For" → Header r1 !! key = Header r2 !! key.

(** The database at [path] cannot be opened: its file does not validate,
    or [maxminddb.Open] refuses it. *)
Definition openFails (fs : FileSystem) (path : string) : Prop :=
  validateDatabaseFile fs path ≠ None
  ∨ ∃ err, maxminddb_Open fs path = inl err.

(** The mandatory country database cannot be opened. *)
Definition countryOpenFails (fs : FileSystem) (g : GeoIP2State) : Prop :=
  validateDatabaseFile fs (CountryDatabasePath g) ≠ None
  ∨ ∃ err, maxminddb_Open fs (CountryDatabasePath g) = inl err.

(** The library with another enumeration of maps. *)
Definition withRange (lib : GoLib)
    (rng : gmap string string -> list (string * string)) : GoLib :=
  mkGoLib (SplitHostPort lib) (ParseIP lib) (TrimSpace lib)
    (unicodeToLower lib) rng.

(** The names of the city record a request's lookup finds, if any. *)
Definition cityNamesFound (lib : GoLib) (h : Heap) (m : GeoIP2) (r : Request)
  : option (gmap string string) :=
  if isEnabled m then
    match state m, getClientIP lib m r with
    | Some g, inr ip =>
        City_Names <$> cityOutcome h g (euFlag (countryOutcome h g ip)) ip
    | _, _ => None
    end
  else None.

(** The names leave the selection no choice: a German or an English name
    is there, or all non-empty names are the same. *)
Definition fixedChoice (names : gmap string string) : Prop :=
  existsNonEmpty (names !! "de") || existsNonEmpty (names !! "en") = true
  ∨ (∀ l1 l2 n1 n2, names !! l1 = Some n1 → names !! l2 = Some n2 →
                    n1 ≠ "" → n2 ≠ "" → n1 = n2).

(** ** More of the database state *)

(** *** [strconv.Atoi]

    An optional sign, then one or more decimal digits, and a value that
    fits an [int] of [intSize] bits (32 or 64, by platform). The caller
    only asks whether the error is [nil], so every error is [None]. *)
Definition digitValue (c : ascii) : option Z :=
  let n := N_of_ascii c in
  if ((48 <=? n) && (n <=? 57))%N then Some (Z.of_N n - 48) else None.

Fixpoint digitsValue (acc : Z) (s : string) : option Z :=
  match s with
  | EmptyString => Some acc
  | String c s' =>
      match digitValue c with
      | Some d => digitsValue (acc * 10 + d) s'
      | None => None
      end
  end.

Definition unsignedValue (s : string) : option Z :=
  match s with
  | EmptyString => None
  | _ => digitsValue 0 s
  end.

Definition Atoi (intSize : Z) (s : string) : option Z :=
  match s with
  | EmptyString => None
  | String c s' =>
      if bool_decide (c = "-"%char) then
        match unsignedValue s' with
        | Some un => if un <=? 2 ^ (intSize - 1) then Some (- un) else None
        | None => None
        end
      else if bool_decide (c = "+"%char) then
        match unsignedValue s' with
        | Some un => if un <? 2 ^ (intSize - 1) then Some un else None
        | None => None
        end
      else
        match unsignedValue s with
        | Some un => if un <? 2 ^ (intSize - 1) then Some un else None
        | None => None
        end
  end.

(** *** [parseReloadInterval] *)
Definition parseReloadInterval (intSize : Z) (intervalStr : string)
  : error + Z :=
  if bool_decide (intervalStr = "daily") || bool_decide (intervalStr = "1d")
     || bool_decide (intervalStr = "24h") then inr 24
  else if bool_decide (intervalStr = "weekly")
          || bool_decide (intervalStr = "7d")
          || bool_decide (intervalStr = "168h") then inr 168
  else if bool_decide (intervalStr = "off")
          || bool_decide (intervalStr = "disable")
          || bool_decide (intervalStr = "0") then inr 0
  else
    match Atoi intSize intervalStr with
    | Some hours =>
        if hours <? 0
        then inl (errorString "reload interval cannot be negative")
        else inr hours
    | None =>
        inl (errorString
               "invalid format, use 'daily', 'weekly', 'off', or number of hours")
    end.

(** The words [parseReloadInterval] knows. *)
Definition intervalKeywords : list string :=
  ["daily"; "1d"; "24h"; "weekly"; "7d"; "168h"; "off"; "disable"; "0"].

(** An optional sign followed by decimal digits only, at least one. *)
Fixpoint allDigits (s : string) : bool :=
  match s with
  | EmptyString => true
  | String c s' =>
      match digitValue c with
      | Some _ => allDigits s'
      | None => false
      end
  end.

Definition isNumeral (s : string) : bool :=
  match s with
  | EmptyString => false
  | String c s' =>
      if bool_decide (c = "-"%char) || bool_decide (c = "+"%char)
      then negb (bool_decide (s' = "")) && allDigits s'
      else allDigits s
  end.

(** *** [setDefaults] *)
Definition setDefaults (g : GeoIP2State) : GeoIP2State :=
  let country :=
    if bool_decide (CountryDatabasePath g = "")
    then "/etc/nginx/maxmind-geo-ip/GeoIP-Country/GeoIP2-Country.mmdb"
    else CountryDatabasePath g in
  let city :=
    if bool_decide (CityDatabasePath g = "")
    then "/etc/nginx/maxmind-geo-ip/GeoIP-Country/GeoIP2-City-Europe.mmdb"
    else CityDatabasePath g in
  let globalCity :=
    if bool_decide (GlobalCityDatabasePath g = "")
    then "/etc/nginx/maxmind-geo-ip/GeoLite2-City.mmdb"
    else GlobalCityDatabasePath g in
  mkGeoIP2State (CountryDBHandler g) (CityDBHandler g)
    (GlobalCityDBHandler g) (ASNDBHandler g) country city globalCity
    (ASNDatabasePath g) (ReloadInterval g).

(** *** [Validate] of the state. The databases it opens to test them are
    closed again when it returns (the deferred [Close] calls, last opened
    first); the database types are only logged. *)
Definition State_Validate (fs : FileSystem) (h : Heap) (g : GeoIP2State)
  : option error * Heap :=
  if bool_decide (CountryDatabasePath g = "")
  then (Some (errorString "country_database_path is required"), h)
  else if bool_decide (CityDatabasePath g = "")
  then (Some (errorString "city_database_path is required"), h)
  else if bool_decide (GlobalCityDatabasePath g = "")
  then (Some (errorString "global_city_database_path is required"), h)
  else if ReloadInterval g <? 0
  then (Some (errorString "reload_interval cannot be negative"), h)
  else
  match validateDatabaseFile fs (CountryDatabasePath g) with
  | Some err =>
      (Some (errorString ("country database validation failed: "
                          ++ Error_msg err)), h)
  | None =>
  match validateDatabaseFile fs (CityDatabasePath g) with
  | Some err =>
      (Some (errorString ("city database validation failed: "
                          ++ Error_msg err)), h)
  | None =>
  match validateDatabaseFile fs (GlobalCityDatabasePath g) with
  | Some err =>
      (Some (errorString ("global city database validation failed: "
                          ++ Error_msg err)), h)
  | None =>
  match openReader fs (CountryDatabasePath g) h with
  | (inl err, _) =>
      (Some (errorString ("cannot open country database "
                          ++ CountryDatabasePath g ++ ": " ++ Error_msg err)),
       h)
  | (inr countryDB, h1) =>
  match openReader fs (CityDatabasePath g) h1 with
  | (inl err, _) =>
      (Some (errorString ("cannot open city database "
                          ++ CityDatabasePath g ++ ": " ++ Error_msg err)),
       closeReader (Some countryDB) h1)
  | (inr cityDB, h2) =>
  match openReader fs (GlobalCityDatabasePath g) h2 with
  | (inl err, _) =>
      (Some (errorString ("cannot open global city database "
                          ++ GlobalCityDatabasePath g ++ ": "
                          ++ Error_msg err)),
       closeReader (Some countryDB) (closeReader (Some cityDB) h2))
  | (inr globalCityDB, h3) =>
      (None,
       closeReader (Some countryDB)
         (closeReader (Some cityDB) (closeReader (Some globalCityDB) h3)))
  end end end end end end.

(** *** [Stop] and the reload timer's channel *)

(** The [done] channel: [nil], open, or closed. *)
Inductive Chan : Type := ChanNil | ChanOpen | ChanClosed.

(** A call returns or panics. *)
Inductive Run (A : Type) : Type :=
  | Done (a : A)
  | Panic (msg : string).
Arguments Done {A} a.
Arguments Panic {A} msg.

(** [Start] with the [done] field: [startReloadTimer] makes the channel
    when the interval is positive. *)
Definition StartTimer (fs : FileSystem) (done : Chan) (h : Heap)
    (g : GeoIP2State) : option error * Chan * Heap * GeoIP2State :=
  match Start fs h g with
  | (Some err, h', g') => (Some err, done, h', g')
  | (None, h', g') =>
      (None, if 0 <? ReloadInterval g' then ChanOpen else done, h', g')
  end.

(** [Stop]: closing a channel that is already closed panics; [g.done]
    keeps pointing to the channel. Then every bound database is closed
    and its handler set to [nil]. *)
Definition Stop (done : Chan) (h : Heap) (g : GeoIP2State)
  : Run (Chan * Heap * GeoIP2State) :=
  match done with
  | ChanClosed => Panic "close of closed channel"
  | _ =>
      let done' := match done with ChanNil => ChanNil | _ => ChanClosed end in
      let h1 := closeReader (CountryDBHandler g) h in
      let h2 := closeReader (CityDBHandler g) h1 in
      let h3 := closeReader (GlobalCityDBHandler g) h2 in
      let h4 := closeReader (ASNDBHandler g) h3 in
      Done (done', h4,
            mkGeoIP2State None None None None (CountryDatabasePath g)
              (CityDatabasePath g) (GlobalCityDatabasePath g)
              (ASNDatabasePath g) (ReloadInterval g))
  end.

(** *** The lookups with an address of any type

    [Lookup], [LookupCity], [LookupGlobalCity] and [LookupASN] take the
    address as an [interface{}]: a [net.IP], a string to parse, or
    anything else. *)
Inductive IPArg : Type :=
  | ArgIP (ip : IP)
  | ArgString (v : string)
  | ArgOther (typeName : string).

Definition State_lookup_arg {A : Type} (lib : GoLib) (slot : Slot)
    (field : option handle) (notLoaded : string)
    (decode : Reader -> IP -> error + A) (h : Heap) (arg : IPArg)
  : M (error + A) :=
  match field with
  | None => ret (inl (errorString notLoaded))
  | Some p =>
      match arg with
      | ArgIP v => query slot ;; ret (Reader_Lookup decode h p v)
      | ArgString v =>
          match ParseIP lib v with
          | None => ret (inl (errorString ("invalid IP address: " ++ v)))
          | Some netIP => query slot ;; ret (Reader_Lookup decode h p netIP)
          end
      | ArgOther typeName =>
          ret (inl (errorString ("unsupported IP type: " ++ typeName)))
      end
  end.

(** *** Well-formed states *)

(** The handle points to a reader that is open. *)
Definition handlerOpen (h : Heap) (p : handle) : Prop :=
  ∃ o, h !! p = Some o ∧ obj_closed o = false.

(** Every bound handler points to an open reader. *)
Definition wellFormed (h : Heap) (g : GeoIP2State) : Prop :=
  ∀ s p, slotHandler g s = Some p → handlerOpen h p.

(** The handle points to a reader that is closed. *)
Definition handlerClosed (h : Heap) (p : handle) : Prop :=
  ∃ o, h !! p = Some o ∧ obj_closed o = true.

(** ** More about the client address *)

Fixpoint noComma (s : string) : bool :=
  match s with
  | EmptyString => true
  | String c s' => negb (bool_decide (c = ","%char)) && noComma s'
  end.

(** The request with another [X-Forwarded-For] header. *)
Definition withForwardedFor (r : Request) (v : string) : Request :=
  mkRequest (RemoteAddr r) (<["X-Forwarded-For" := [v]]> (Header r))
    (TrustedProxyVar r).

(** Does the handler take the address from the header? Line 289. *)
Definition trustsForwardedFor (lib : GoLib) (m : GeoIP2) (r : Request) : bool :=
  ((getSafetyLevel lib m =? TrustedProxies) && TrustedProxyVar r)
  || (getSafetyLevel lib m =? Wild).

(** ** What a load amounts to

    The heap and the state a successful [loadDatabase] leaves, written in
    one piece; the lemma [loadDatabase_loaded] below shows that
    [loadDatabase] computes exactly these. *)

(** A reader object after [Close]. *)
Definition closeObj (o : ReaderObj) : ReaderObj :=
  mkReaderObj (obj_reader o) true.

(** Is the handle the handler of some slot? *)
Definition boundTo (g : GeoIP2State) (j : handle) : bool :=
  bool_decide (CountryDBHandler g = Some j)
  || bool_decide (CityDBHandler g = Some j)
  || bool_decide (GlobalCityDBHandler g = Some j)
  || bool_decide (ASNDBHandler g = Some j).

(** The old databases are closed, in the order of the code. *)
Definition closeOld (g : GeoIP2State) (h : Heap) : Heap :=
  closeReader (ASNDBHandler g)
    (closeReader (GlobalCityDBHandler g)
       (closeReader (CityDBHandler g)
          (closeReader (CountryDBHandler g) h))).

(** The ASN database is opened only with a path that validates. *)
Definition asnCandidate (fs : FileSystem) (g : GeoIP2State) : error + Reader :=
  if bool_decide (ASNDatabasePath g ≠ "") then
    match validateDatabaseFile fs (ASNDatabasePath g) with
    | Some err => inl err
    | None => maxminddb_Open fs (ASNDatabasePath g)
    end
  else inl (errorString "no ASN database path").

Definition optionalReader (o : error + Reader) : list ReaderObj :=
  match o with
  | inr rd => [mkReaderObj rd false]
  | inl _ => []
  end.

Definition optionalHandle (o : error + Reader) (p : handle) : option handle :=
  match o with
  | inr _ => Some p
  | inl _ => None
  end.

Definition loadedHeap (fs : FileSystem) (h : Heap) (g : GeoIP2State)
    (country city : Reader) : Heap :=
  closeOld g
    (h ++ [mkReaderObj country false; mkReaderObj city false]
       ++ optionalReader (maxminddb_Open fs (GlobalCityDatabasePath g))
       ++ optionalReader (asnCandidate fs g))%list.

Definition loadedState (fs : FileSystem) (h : Heap) (g : GeoIP2State)
  : GeoIP2State :=
  let n := List.length h in
  let globalCity := maxminddb_Open fs (GlobalCityDatabasePath g) in
  mkGeoIP2State (Some n) (Some (S n))
    (optionalHandle globalCity (S (S n)))
    (optionalHandle (asnCandidate fs g)
       (S (S n) + List.length (optionalReader globalCity))%nat)
    (CountryDatabasePath g) (CityDatabasePath g) (GlobalCityDatabasePath g)
    (ASNDatabasePath g) (ReloadInterval g).

(** A file is fit to be loaded: it validates and opens. *)
Definition loadable (fs : FileSystem) (path : string) : Prop :=
  validateDatabaseFile fs path = None
  ∧ ∃ rd, maxminddb_Open fs path = inr rd.

(** The state with every slot unbound, as [Stop] leaves it. *)
Definition unbound (g : GeoIP2State) : GeoIP2State :=
  mkGeoIP2State None None None None (CountryDatabasePath g)
    (CityDatabasePath g) (GlobalCityDatabasePath g) (ASNDatabasePath g)
    (ReloadInterval g).

(** The reload timer ticks once for each element of [ticks], the file
    system as it is at that moment. *)
Fixpoint reloads (ticks : list FileSystem) (h : Heap) (g : GeoIP2State)
  : Heap * GeoIP2State :=
  match ticks with
  | [] => (h, g)
  | fs :: rest =>
      let '(h', g') := performScheduledReload fs h g in reloads rest h' g'
  end.

(** ** The earlier handler, with a single database

    The repository also holds the handler as it was before the databases
    were split: one database, one record, and the variables set by
    [setGeoIPVariables] only after a successful lookup.
    [initializeVariables], [isEnabled], [getClientIP] and
    [getSafetyLevel] are the same functions as above. *)
(** A handler of the present kind with the given mode and no state. *)
Definition handlerMode (enable : string) : GeoIP2 := mkGeoIP2 enable None.

Module Legacy.

(** [GeoIP2Record]. [Subdivisions] is the list of the [IsoCode]s. *)
Record GeoIP2Record : Type := mkGeoIP2Record {
Country_ISOCode : string;
Country_IsInEuropeanUnion : bool;
City_Names : gmap string string;
Location_Latitude : Z;
Location_Longitude : Z;
Subdivisions : list string;
Traits_AutonomousSystemNumber : Z;
Traits_AutonomousSystemOrganization : string
}.

(** The reader object [DBHandler] points to, as it is when the request
  is served. *)
Record Reader : Type := mkReader {
decode : IP -> error + GeoIP2Record;
closed : bool
}.

Record GeoIP2State : Type := mkGeoIP2State {
DBHandler : option Reader
}.

Record GeoIP2 : Type := mkGeoIP2 {
Enable : string;
state : option GeoIP2State
}.

(** The mode is all that [isEnabled] and [getClientIP] read of the
  handler. *)
Definition mode (m : GeoIP2) := handlerMode (Enable m).

(** [Reader.Lookup] of maxminddb: a closed reader refuses the lookup. An
  address the database does not hold is no error: the lookup succeeds
  and leaves the record at its zero value. *)
Definition Reader_Lookup (rd : Reader) (ip : IP) : error + GeoIP2Record :=
if closed rd
then inl (errorString "cannot call Lookup on a closed database")
else decode rd ip.

(** [Lookup] of the state, called with a [net.IP]: refuse when the
  handler is [nil], else query the reader. The single database holds
  the city records; a query of it is logged as one of [GlobalCity]. *)
Definition Lookup (g : GeoIP2State) (ip : IP) : M (error + GeoIP2Record) :=
match DBHandler g with
| None => ret (inl (errorString "GeoIP2 database not loaded"))
| Some rd => query GlobalCity ;; ret (Reader_Lookup rd ip)
end.

(** The loop of [setGeoIPVariables] over the names: the first non-empty
  one is set and the loop stops. *)
Fixpoint rangeSetCity (entries : list (string * string)) : M unit :=
match entries with
| [] => ret tt
| (_, name) :: rest =>
    if bool_decide (name ≠ "") then Set_ VarCity (VString name)
    else rangeSetCity rest
end.

(** [setGeoIPVariables]. *)
Definition setGeoIPVariables (lib : GoLib) (record : GeoIP2Record) : M unit :=
Set_ VarCountryCode (VString (Country_ISOCode record)) ;;
Set_ VarIsInEU (VBool (Country_IsInEuropeanUnion record)) ;;
Set_ VarLatitude (VFloat64 (Location_Latitude record)) ;;
Set_ VarLongitude (VFloat64 (Location_Longitude record)) ;;
Set_ VarASN (VUint64 (Traits_AutonomousSystemNumber record)) ;;
Set_ VarASOrg (VString (Traits_AutonomousSystemOrganization record)) ;;
(if existsNonEmpty (City_Names record !! "en")
 then Set_ VarCity (VString (default "" (City_Names record !! "en")))
 else rangeSetCity (mapRange lib (City_Names record))) ;;
match Subdivisions record with
| isoCode :: _ =>
    if bool_decide (isoCode ≠ "")
    then Set_ VarSubdivisions (VString isoCode)
    else ret tt
| [] => ret tt
end.

(** [performLookup]. *)
Definition performLookup (lib : GoLib) (m : GeoIP2) (r : Request) : M unit :=
match state m with
| None => ret tt
| Some g =>
    match DBHandler g with
    | None => ret tt
    | Some _ =>
        match getClientIP lib (mode m) r with
        | inl _ => ret tt
        | inr clientIP =>
            do res <- Lookup g clientIP;
            match res with
            | inl _ => ret tt
            | inr record => setGeoIPVariables lib record
            end
        end
    end
end.

(** [ServeHTTP]. *)
Definition ServeHTTP (lib : GoLib) (m : GeoIP2) (r : Request)
  (next : M (option error)) : M (option error) :=
initializeVariables ;;
(if isEnabled (mode m) then performLookup lib m r else ret tt) ;;
next.

Definition served (lib : GoLib) (m : GeoIP2) (r : Request) (c : Ctx) : Ctx :=
snd (ServeHTTP lib m r (ret None) c).

(** What the lookup of a request answers, when the request gets as far
  as the lookup: lookups are enabled, the state and its database are
  there and the client address parses. *)
Definition answer (lib : GoLib) (m : GeoIP2) (r : Request)
: option (error + GeoIP2Record) :=
if isEnabled (mode m) then
  match state m with
  | Some g =>
      match DBHandler g, getClientIP lib (mode m) r with
      | Some rd, inr clientIP => Some (Reader_Lookup rd clientIP)
      | _, _ => None
      end
  | None => None
  end
else None.

(** The record a request finds, if any. *)
Definition found (lib : GoLib) (m : GeoIP2) (r : Request)
: option GeoIP2Record :=
match answer lib m r with
| Some (inr record) => Some record
| _ => None
end.

(** The record of an address the database does not hold. *)
Definition zeroRecord : GeoIP2Record :=
mkGeoIP2Record "" false ∅ 0 0 [] 0 "".

End Legacy.

(** ** A concrete environment

    An instance of [GoLib], a few databases and requests on which the
    definitions above can be run. The library functions are small
    stand-ins that agree with Go's on the inputs used below: host and port
    without brackets, dotted-quad IPv4 addresses, ASCII white space. *)
Module Sample.

(** Split at the last colon. *)
Fixpoint splitLastColon (s : string) : option (string * string) :=
  match s with
  | EmptyString => None
  | String c s' =>
      match splitLastColon s' with
      | Some (host, port) => Some (String c host, port)
      | None => if bool_decide (c = ":"%char) then Some ("", s') else None
      end
  end.

Definition SplitHostPort (hostport : string) : error + (string * string) :=
  match splitLastColon hostport with
  | None => inl (AddrError "missing port in address" hostport)
  | Some (host, port) =>
      match splitLastColon host with
      | Some _ => inl (AddrError "too many colons in address" hostport)
      | None => inr (host, port)
      end
  end.

Definition digit (c : ascii) : option N :=
  let n := N_of_ascii c in
  if ((48 <=? n) && (n <=? 57))%N then Some (n - 48)%N else None.

Fixpoint decimal (acc : N) (s : string) : option N :=
  match s with
  | EmptyString => Some acc
  | String c s' =>
      match digit c with
      | Some d => decimal (acc * 10 + d)%N s'
      | None => None
      end
  end.

Definition octet (s : string) : option Byte.byte :=
  match s with
  | EmptyString => None
  | String c s' =>
      if bool_decide (c = "0"%char) && negb (bool_decide (s' = "")) then None
      else if (3 <? String.length s)%nat then None
      else match decimal 0 s with
           | Some n => Byte.of_N n
           | None => None
           end
  end.

Definition v4InV6Prefix : list Byte.byte :=
  (replicate 10 Byte.x00 ++ [Byte.xff; Byte.xff])%list.

Definition ParseIP (s : string) : option IP :=
  match Split s "." with
  | [a; b; c; d] =>
      match octet a, octet b, octet c, octet d with
      | Some a, Some b, Some c, Some d =>
          Some (v4InV6Prefix ++ [a; b; c; d])%list
      | _, _, _, _ => None
      end
  | _ => None
  end.

Definition isSpace (c : ascii) : bool :=
  let n := N_of_ascii c in ((n =? 32) || ((9 <=? n) && (n <=? 13)))%N.

Fixpoint trimLeft (s : string) : string :=
  match s with
  | String c s' => if isSpace c then trimLeft s' else s
  | EmptyString => EmptyString
  end.

Fixpoint trimRight (s : string) : string :=
  match s with
  | EmptyString => EmptyString
  | String c s' =>
      let t := trimRight s' in
      if bool_decide (t = "") && isSpace c then "" else String c t
  end.

Definition TrimSpace (s : string) : string := trimRight (trimLeft s).

Definition lib : GoLib :=
  mkGoLib SplitHostPort ParseIP TrimSpace (fun s => s) map_to_list.

(** The same library with a map enumeration that runs backwards. *)
Definition libReversed : GoLib :=
  mkGoLib SplitHostPort ParseIP TrimSpace (fun s => s)
    (fun m => reverse (map_to_list m)).

(** Addresses. *)
Definition ipMunich : IP := default [] (ParseIP "81.2.69.142").
Definition ipBoston : IP := default [] (ParseIP "23.4.5.6").

(** Records. *)
Definition germany : CountryRecord := mkCountryRecord "DE" true true.
Definition usa : CountryRecord := mkCountryRecord "US" false false.
(** Located in a non-EU country, registered in an EU one. *)
Definition registeredInEU : CountryRecord := mkCountryRecord "CH" false true.
Definition nowhere : CountryRecord := mkCountryRecord "" false false.

Definition munichNames : gmap string string :=
  <["de" := "München"]> (<["en" := "Munich"]> ∅).

(** Two names, neither German nor English. *)
Definition twoNames : gmap string string :=
  <["fr" := "Munich"]> (<["it" := "Monaco di Baviera"]> ∅).

(** Latitude 48.0 and longitude 11.5 as bit patterns. *)
Definition munich : CityRecord :=
  mkCityRecord munichNames 4631952216750555136 4622663542519103488
    ["BY"; "OBB"].
Definition munichGlobal : CityRecord :=
  mkCityRecord (<["en" := "Munich"]> ∅) 4631952216750555136
    4622663542519103488 ["BY"].
Definition boston : CityRecord :=
  mkCityRecord (<["en" := "Boston"]> ∅) 0 0 ["MA"].
(** A present city entry whose fields are all zero or empty. *)
Definition emptyCity : CityRecord := mkCityRecord ∅ 0 0 [].

Definition telekom : ASNRecord := mkASNRecord 3320 "Deutsche Telekom AG".
Definition emptyASN : ASNRecord := mkASNRecord 0 "".

Definition notFound {A : Type} : error + A :=
  inl (errorString "lookup failed").

Definition meta (kind : string) : Metadata := mkMetadata 1700000000 kind 6 24 1000.

(** Databases. A database decodes the addresses it knows and fails on
    every other one. *)
Definition countryDB : Reader :=
  mkReader (meta "GeoIP2-Country")
    (fun ip => if bool_decide (ip = ipMunich) then inr germany
               else if bool_decide (ip = ipBoston) then inr usa
               else notFound)
    (fun _ => notFound) (fun _ => notFound).

(** A country database in which every lookup fails. *)
Definition brokenCountryDB : Reader :=
  mkReader (meta "GeoIP2-Country")
    (fun _ => notFound) (fun _ => notFound) (fun _ => notFound).

(** A country database that knows every address, with an empty entry. *)
Definition blankCountryDB : Reader :=
  mkReader (meta "GeoIP2-Country")
    (fun _ => inr nowhere) (fun _ => notFound) (fun _ => notFound).

Definition europeCityDB : Reader :=
  mkReader (meta "GeoIP2-City-Europe") (fun _ => notFound)
    (fun ip => if bool_decide (ip = ipMunich) then inr munich else notFound)
    (fun _ => notFound).

Definition globalCityDB : Reader :=
  mkReader (meta "GeoLite2-City") (fun _ => notFound)
    (fun ip => if bool_decide (ip = ipMunich) then inr munichGlobal
               else if bool_decide (ip = ipBoston) then inr boston
               else notFound)
    (fun _ => notFound).

(** A city database in which every lookup fails, and one in which every
    address has an all-zero entry. *)
Definition brokenCityDB : Reader :=
  mkReader (meta "GeoLite2-City")
    (fun _ => notFound) (fun _ => notFound) (fun _ => notFound).
Definition blankCityDB : Reader :=
  mkReader (meta "GeoLite2-City")
    (fun _ => notFound) (fun _ => inr emptyCity) (fun _ => notFound).

Definition asnDB : Reader :=
  mkReader (meta "GeoLite2-ASN") (fun _ => notFound) (fun _ => notFound)
    (fun ip => if bool_decide (ip = ipMunich) then inr telekom else notFound).
Definition blankASNDB : Reader :=
  mkReader (meta "GeoLite2-ASN") (fun _ => notFound) (fun _ => notFound)
    (fun _ => inr emptyASN).

Definition opened (rd : Reader) : ReaderObj := mkReaderObj rd false.

(** A state over the heap [countryDB; europeCityDB; globalCityDB; asnDB]
    with all four slots bound. *)
Definition heap : Heap :=
  [opened countryDB; opened europeCityDB; opened globalCityDB; opened asnDB].

Definition paths (co ci gl an : option handle) : GeoIP2State :=
  mkGeoIP2State co ci gl an "/db/country.mmdb" "/db/city-europe.mmdb"
    "/db/city.mmdb" "/db/asn.mmdb" 24.

Definition full : GeoIP2State :=
  paths (Some 0%nat) (Some 1%nat) (Some 2%nat) (Some 3%nat).

(** The global city database failed to open at the last load. *)
Definition noGlobal : GeoIP2State :=
  paths (Some 0%nat) (Some 1%nat) None (Some 3%nat).


(** The heap of [heap] with a country database whose lookups fail. *)
Definition heapCountryBroken : Heap :=
  [opened brokenCountryDB; opened europeCityDB; opened globalCityDB;
   opened asnDB].

(** Nothing can be found: the country and the global city lookups fail
    and no ASN database is configured. *)
Definition heapAbsent : Heap :=
  [opened brokenCountryDB; opened europeCityDB; opened brokenCityDB].
Definition absent : GeoIP2State :=
  paths (Some 0%nat) (Some 1%nat) (Some 2%nat) None.

(** Everything is found, and every entry is zero or empty. *)
Definition heapBlank : Heap :=
  [opened blankCountryDB; opened europeCityDB; opened blankCityDB;
   opened blankASNDB].
Definition blank : GeoIP2State := full.

Definition handler (mode : string) (g : GeoIP2State) : GeoIP2 :=
  mkGeoIP2 mode (Some g).

Definition request (remote : string) (forwarded : list string) : Request :=
  mkRequest remote
    (match forwarded with
     | [] => ∅
     | _ => {[ "X-Forwarded-For" := forwarded ]}
     end) false.

Definition fromMunich : Request := request "81.2.69.142:4711" [].
Definition fromBoston : Request := request "23.4.5.6:80" [].
Definition malformed : Request := request "" [].

Definition fresh : Ctx := mkCtx ∅ [].

(** A file system in which the country database is missing, and one in
    which it is there but is not a database. *)
Definition okFile : StatResult := StatInfo true (64 * 1024 * 1024).

Definition fsCountryMissing : FileSystem :=
  mkFileSystem
    (fun path => if bool_decide (path = "/db/country.mmdb")
                 then StatNotExist else okFile)
    (fun path => if bool_decide (path = "/db/country.mmdb")
                 then inl (errorString "no such file") else inr globalCityDB).

Definition fsCountryCorrupt : FileSystem :=
  mkFileSystem (fun _ => okFile)
    (fun path => if bool_decide (path = "/db/country.mmdb")
                 then inl (errorString "invalid MaxMind DB file")
                 else inr globalCityDB).

(** A file system in which every database opens, and one in which the
    global city database is missing. *)
Definition databaseAt (path : string) : error + Reader :=
  if bool_decide (path = "/db/country.mmdb") then inr countryDB
  else if bool_decide (path = "/db/city-europe.mmdb") then inr europeCityDB
  else if bool_decide (path = "/db/city.mmdb") then inr globalCityDB
  else if bool_decide (path = "/db/asn.mmdb") then inr asnDB
  else inl (errorString "no such file").

Definition fsAllThere : FileSystem := mkFileSystem (fun _ => okFile) databaseAt.

Definition fsGlobalMissing : FileSystem :=
  mkFileSystem
    (fun path => if bool_decide (path = "/db/city.mmdb")
                 then StatNotExist else okFile)
    (fun path => if bool_decide (path = "/db/city.mmdb")
                 then inl (errorString "no such file") else databaseAt path).

Definition fsCityCorrupt : FileSystem :=
  mkFileSystem (fun _ => okFile)
    (fun path => if bool_decide (path = "/db/city-europe.mmdb")
                 then inl (errorString "invalid MaxMind DB file")
                 else databaseAt path).

(** What a load leaves behind: the error, which readers are closed, and
    the four handlers. *)
Definition summary (res : option error * Heap * GeoIP2State)
  : option error * list bool
    * (option handle * option handle * option handle * option handle) :=
  let '(err, h, g) := res in
  (err, obj_closed <$> h,
   (CountryDBHandler g, CityDBHandler g, GlobalCityDBHandler g,
    ASNDBHandler g)).

(** A replacer that already holds a variable of another handler and a
    stale city. *)
Definition busy : Ctx :=
  mkCtx (<["http.request.host" := VString "example.org"]>
           (<["geoip2_city" := VString "Paris"]> ∅)) [].

(** The same request, relayed by a proxy that Caddy trusts or does not
    trust. *)
Definition relayed (remote forwarded : string) (trusted : bool) : Request :=
  mkRequest remote {[ "X-Forwarded-For" := [forwarded] ]} trusted.

(** The single database of the earlier handler: it knows the address
    from Munich. *)
Definition legacyMunich : Legacy.GeoIP2Record :=
  Legacy.mkGeoIP2Record "DE" true munichNames 4631952216750555136
    4622663542519103488 ["BY"; "OBB"] 3320 "Deutsche Telekom AG".

Definition legacyDB : Legacy.Reader :=
  Legacy.mkReader
    (fun ip => if bool_decide (ip = ipMunich) then inr legacyMunich
               else notFound)
    false.

Definition legacyHandler (mode : string) : Legacy.GeoIP2 :=
  Legacy.mkGeoIP2 mode (Some (Legacy.mkGeoIP2State (Some legacyDB))).

(** The database as [maxminddb] answers: an address it does not hold
    is found with the zero record. *)
Definition legacyZeroDB : Legacy.Reader :=
  Legacy.mkReader
    (fun ip => if bool_decide (ip = ipMunich) then inr legacyMunich
               else inr Legacy.zeroRecord)
    false.

(** A Europe city database that has the city of the address from
    Munich under a French and an Italian name only. *)
Definition munichLocal : CityRecord :=
  mkCityRecord twoNames 4631952216750555136 4622663542519103488 ["BY"].

Definition localCityDB : Reader :=
  mkReader (meta "GeoIP2-City-Europe") (fun _ => notFound)
    (fun ip => if bool_decide (ip = ipMunich) then inr munichLocal
               else notFound)
    (fun _ => notFound).

Definition heapLocal : Heap :=
  [opened countryDB; opened localCityDB; opened globalCityDB; opened asnDB].


(** The enumeration of [libReversed]. *)
Definition reversed (m : gmap string string) : list (string * string) :=
  reverse (map_to_list m).

End Sample.

(** * Properties *)

(** ** The shape of a request's run *)

Section Run.
Context (lib : GoLib) (h : Heap).

(** [ServeHTTP] always reaches the next handler and returns what it
    returns. *)
Lemma ServeHTTP_next m r next c :
  ServeHTTP lib h m r next c = next (served lib h m r c).
Proof.
  unfold served, ServeHTTP, bind, ret.
  destruct (initializeVariables c) as [[] c1].
  match goal with
  | |- context [ (if ?b then ?f else ?g) c1 ] =>
      destruct ((if b then f else g) c1) as [[] c2]
  end.
  reflexivity.
Qed.

Lemma initializeVariables_run c :
  initializeVariables c = (tt, mkCtx (initialized (vars c)) (queries c)).
Proof. reflexivity. Qed.

(** Without a state or without a valid address [performLookup] does
    nothing. *)
Lemma performLookup_skip m r c :
  (match state m with Some _ => true | None => false end
   && match getClientIP lib m r with inr _ => true | inl _ => false end)
  = false →
  performLookup lib h m r c = (tt, c).
Proof.
  unfold performLookup. destruct (state m); [|done].
  by destruct (getClientIP lib m r).
Qed.

Lemma State_lookup_run {A} slot (decode : Reader -> IP -> error + A)
    g msg ip c :
  bound g slot = true →
  State_lookup slot (slotHandler g slot) msg decode h ip c
  = (match slotOutcome decode h g slot ip with
     | Some rec => inr rec
     | None =>
         match slotHandler g slot with
         | Some p => Reader_Lookup decode h p ip
         | None => inl (errorString msg)
         end
     end,
     mkCtx (vars c) (queries c ++ [slot])).
Proof.
  unfold bound, slotOutcome, State_lookup. intros Hb.
  destruct (slotHandler g slot) as [p|]; [|done].
  unfold bind, query, ret; simpl.
  by destruct (Reader_Lookup decode h p ip).
Qed.

(** With a state and a valid address, [performLookup] runs the three
    steps and stores their outcomes. *)
Lemma performLookup_run m g r ip c :
  state m = Some g →
  getClientIP lib m r = inr ip →
  let co := countryOutcome h g ip in
  let ci := cityOutcome h g (euFlag co) ip in
  let an := asnOutcome h g ip in
  performLookup lib h m r c
  = (tt, mkCtx (merged lib co ci an (vars c))
           (queries c ++ slotsQueried g (euFlag co))).
Proof.
  intros Hst Hip. unfold performLookup. rewrite Hst, Hip.
  unfold bind at 1.
  (* the country step *)
  assert (Hco : ∀ c0,
    (if bool_decide (CountryDBHandler g ≠ None)
     then bind (Lookup h g ip) (fun res =>
            match res with
            | inl _ => ret ("", false)
            | inr countryRecord =>
                ret (Country_ISOCode countryRecord,
                     Country_IsInEuropeanUnion countryRecord
                     || RegisteredCountry_IsInEuropeanUnion countryRecord)
            end)
     else ret ("", false)) c0
    = ((from_option Country_ISOCode "" (countryOutcome h g ip),
        euFlag (countryOutcome h g ip)),
       mkCtx (vars c0)
         (queries c0 ++ if bound g Country then [Country] else []))).
  { intros c0. unfold countryOutcome.
    change (bool_decide (CountryDBHandler g ≠ None)) with (bound g Country).
    destruct (bound g Country) eqn:Hb.
    - unfold bind, Lookup.
      change (CountryDBHandler g) with (slotHandler g Country).
      rewrite State_lookup_run by done.
      unfold slotOutcome.
      destruct (slotHandler g Country) as [p|]; [|done].
      by destruct (Reader_Lookup decodeCountry h p ip).
    - unfold ret, slotOutcome. unfold bound in Hb.
      destruct (slotHandler g Country); [done|].
      destruct c0; simpl. by rewrite app_nil_r. }
  rewrite Hco. clear Hco.
  set (co := countryOutcome h g ip). set (eu := euFlag co).
  unfold bind at 1.
  (* the city step *)
  assert (Hci : ∀ c0,
    (match cityLookupFunc h g eu with
     | Some lookup =>
         bind (lookup ip) (fun res =>
           match res with
           | inl _ => ret ("", 0, 0, "")
           | inr cityRecord =>
               ret (selectCityName lib (City_Names cityRecord),
                    Location_Latitude cityRecord,
                    Location_Longitude cityRecord,
                    selectSubdivision (Subdivisions cityRecord))
           end)
     | None => ret ("", 0, 0, "")
     end) c0
    = ((from_option (fun r => selectCityName lib (City_Names r)) ""
          (cityOutcome h g eu ip),
        from_option Location_Latitude 0 (cityOutcome h g eu ip),
        from_option Location_Longitude 0 (cityOutcome h g eu ip),
        from_option (fun r => selectSubdivision (Subdivisions r)) ""
          (cityOutcome h g eu ip)),
       mkCtx (vars c0)
         (queries c0
          ++ match citySlot g eu with Some s => [s] | None => [] end))).
  { intros c0. unfold cityLookupFunc, cityOutcome, citySlot.
    change (bool_decide (CityDBHandler g ≠ None)) with (bound g RegionCity).
    change (bool_decide (GlobalCityDBHandler g ≠ None))
      with (bound g GlobalCity).
    destruct (eu && bound g RegionCity) eqn:Hr.
    - apply andb_true_iff in Hr as [_ Hb].
      unfold bind, LookupCity.
      change (CityDBHandler g) with (slotHandler g RegionCity).
      rewrite State_lookup_run by done.
      unfold slotOutcome.
      destruct (slotHandler g RegionCity) as [p|]; [|done].
      by destruct (Reader_Lookup decodeCity h p ip).
    - destruct (bound g GlobalCity) eqn:Hb.
      + unfold bind, LookupGlobalCity.
        change (GlobalCityDBHandler g) with (slotHandler g GlobalCity).
        rewrite State_lookup_run by done.
        unfold slotOutcome.
        destruct (slotHandler g GlobalCity) as [p|]; [|done].
        by destruct (Reader_Lookup decodeCity h p ip).
      + unfold ret. destruct c0; simpl. by rewrite app_nil_r. }
  rewrite Hci. clear Hci.
  set (ci := cityOutcome h g eu ip).
  unfold bind at 1.
  (* the ASN step *)
  assert (Han : ∀ c0,
    (if bool_decide (ASNDBHandler g ≠ None)
     then bind (LookupASN h g ip) (fun res =>
            match res with
            | inl _ => ret (0, "")
            | inr asnRecord =>
                ret (AutonomousSystemNumber asnRecord,
                     AutonomousSystemOrganization asnRecord)
            end)
     else ret (0, "")) c0
    = ((from_option AutonomousSystemNumber 0 (asnOutcome h g ip),
        from_option AutonomousSystemOrganization "" (asnOutcome h g ip)),
       mkCtx (vars c0)
         (queries c0 ++ if bound g Network then [Network] else []))).
  { intros c0. unfold asnOutcome.
    change (bool_decide (ASNDBHandler g ≠ None)) with (bound g Network).
    destruct (bound g Network) eqn:Hb.
    - unfold bind, LookupASN.
      change (ASNDBHandler g) with (slotHandler g Network).
      rewrite State_lookup_run by done.
      unfold slotOutcome.
      destruct (slotHandler g Network) as [p|]; [|done].
      by destruct (Reader_Lookup decodeASN h p ip).
    - unfold ret, slotOutcome. unfold bound in Hb.
      destruct (slotHandler g Network); [done|].
      destruct c0; simpl. by rewrite app_nil_r. }
  rewrite Han. clear Han.
  simpl. unfold slotsQueried, merged.
  by rewrite <- !app_assoc.
Qed.

End Run.

(** ** Reading the variables back *)

Ltac unfold_vars :=
  unfold VarCity, VarCountryCode, VarLatitude, VarLongitude,
    VarSubdivisions, VarIsInEU, VarASN, VarASOrg in *.

(** Membership in an explicit list. *)
Ltac in_list := rewrite ?elem_of_cons, ?elem_of_nil; intuition congruence.

Ltac read_var :=
  unfold merged, initialized; unfold_vars;
  repeat (rewrite lookup_insert_ne by discriminate);
  try rewrite lookup_insert_eq; try reflexivity.

Section Variables_.
Context (lib : GoLib).
Implicit Types (vs : gmap string Value).

Lemma initialized_lookup vs k :
  k ∈ allVars → initialized vs !! k = Some (VString "").
Proof.
  unfold allVars. rewrite !elem_of_cons, elem_of_nil.
  intros Hk. destruct_or!; try done; subst k; read_var.
Qed.

Lemma merged_CountryCode co ci an vs :
  merged lib co ci an vs !! VarCountryCode
  = Some (VString (from_option Country_ISOCode "" co)).
Proof. read_var. Qed.

Lemma merged_IsInEU co ci an vs :
  merged lib co ci an vs !! VarIsInEU = Some (VBool (euFlag co)).
Proof. read_var. Qed.

Lemma merged_City co ci an vs :
  merged lib co ci an vs !! VarCity
  = Some (VString
            (from_option (fun r => selectCityName lib (City_Names r)) "" ci)).
Proof. read_var. Qed.

Lemma merged_Latitude co ci an vs :
  merged lib co ci an vs !! VarLatitude
  = Some (VFloat64 (from_option Location_Latitude 0 ci)).
Proof. read_var. Qed.

Lemma merged_Longitude co ci an vs :
  merged lib co ci an vs !! VarLongitude
  = Some (VFloat64 (from_option Location_Longitude 0 ci)).
Proof. read_var. Qed.

Lemma merged_Subdivisions co ci an vs :
  merged lib co ci an vs !! VarSubdivisions
  = Some (VString
            (from_option (fun r => selectSubdivision (Subdivisions r)) "" ci)).
Proof. read_var. Qed.

Lemma merged_ASN co ci an vs :
  merged lib co ci an vs !! VarASN
  = Some (VUint64 (from_option AutonomousSystemNumber 0 an)).
Proof. read_var. Qed.

Lemma merged_ASOrg co ci an vs :
  merged lib co ci an vs !! VarASOrg
  = Some (VString (from_option AutonomousSystemOrganization "" an)).
Proof. read_var. Qed.

End Variables_.

Section Served.
Context (lib : GoLib) (h : Heap).

(** No lookup runs: the variables are the empty defaults and no slot is
    queried. *)
Lemma served_skip m r c :
  lookupRuns lib m r = false →
  served lib h m r c = mkCtx (initialized (vars c)) (queries c).
Proof.
  unfold lookupRuns, served, ServeHTTP, bind. intros Hrun.
  rewrite initializeVariables_run.
  destruct (isEnabled m); [|done].
  simpl in Hrun. by rewrite performLookup_skip.
Qed.

(** The lookup runs: the variables are the merged outcomes of the three
    steps. *)
Lemma served_run m g r ip c :
  isEnabled m = true →
  state m = Some g →
  getClientIP lib m r = inr ip →
  let co := countryOutcome h g ip in
  served lib h m r c
  = mkCtx (merged lib co (cityOutcome h g (euFlag co) ip)
             (asnOutcome h g ip) (initialized (vars c)))
      (queries c ++ slotsQueried g (euFlag co)).
Proof.
  intros Hen Hst Hip. unfold served, ServeHTTP, bind.
  rewrite initializeVariables_run, Hen.
  by rewrite (performLookup_run lib h m g r ip _ Hst Hip).
Qed.

Lemma lookupRuns_true m r :
  lookupRuns lib m r = true →
  isEnabled m = true
  ∧ ∃ g ip, state m = Some g ∧ getClientIP lib m r = inr ip.
Proof.
  unfold lookupRuns. intros Hrun.
  apply andb_true_iff in Hrun as [Hrun Hip].
  apply andb_true_iff in Hrun as [Hen Hst].
  split; [done|].
  destruct (state m) as [g|]; [|done].
  destruct (getClientIP lib m r) as [|ip]; [done|].
  by exists g, ip.
Qed.

End Served.

(** ** Routing between the two city databases *)

Section Routing.
Context (lib : GoLib) (h : Heap).




Lemma determinedEU_run co ci an vs qs :
  determinedEU (mkCtx (merged lib co ci an vs) qs) = euFlag co.
Proof.
  unfold determinedEU; simpl. rewrite merged_IsInEU.
  destruct (euFlag co);
    [by rewrite bool_decide_eq_true_2 | by rewrite bool_decide_eq_false_2].
Qed.



End Routing.

(** An address in Germany goes to the Europe city database, one in the
    United States to the global one. *)
Example routing_munich :
  queries (served Sample.lib Sample.heap (Sample.handler "strict" Sample.full)
             Sample.fromMunich Sample.fresh)
  = [Country; RegionCity; Network].
Proof. vm_compute. reflexivity. Qed.

Example routing_boston :
  queries (served Sample.lib Sample.heap (Sample.handler "strict" Sample.full)
             Sample.fromBoston Sample.fresh)
  = [Country; GlobalCity; Network].
Proof. vm_compute. reflexivity. Qed.

(** Without the global city database a German address still has its
    city. *)
Example routing_without_global :
  queries (served Sample.lib Sample.heap
             (Sample.handler "strict" Sample.noGlobal) Sample.fromMunich
             Sample.fresh)
  = [Country; RegionCity; Network].
Proof. vm_compute. reflexivity. Qed.


(** ** The EU flag *)

Section EUFlag.
Context (lib : GoLib) (h : Heap).

Lemma countryOutcome_Some g ip rec :
  countryOutcome h g ip = Some rec ↔
  ∃ p, CountryDBHandler g = Some p
       ∧ Reader_Lookup decodeCountry h p ip = inr rec.
Proof.
  unfold countryOutcome, slotOutcome; simpl.
  destruct (CountryDBHandler g) as [p|].
  - destruct (Reader_Lookup decodeCountry h p ip) as [e|rec'] eqn:Hl.
    + split; [done|]. intros (p' & [= <-] & Hl'). congruence.
    + split.
      * intros [= ->]. by exists p.
      * intros (p' & [= <-] & Hl'). congruence.
  - split; [done|]. by intros (p' & ? & _).
Qed.

(** C2. After a successful Country lookup, the EU flag the handler
    stores is the disjunction of the country's and the registered
    country's EU flags: it is true if and only if at least one of the
    two is. *)
Theorem eu_flag_is_disjunction m g r ip c p rec :
  isEnabled m = true →
  state m = Some g →
  getClientIP lib m r = inr ip →
  CountryDBHandler g = Some p →
  Reader_Lookup decodeCountry h p ip = inr rec →
  vars (served lib h m r c) !! VarIsInEU
  = Some (VBool (Country_IsInEuropeanUnion rec
                 || RegisteredCountry_IsInEuropeanUnion rec))
  ∧ (determinedEU (served lib h m r c) = true ↔
     Country_IsInEuropeanUnion rec = true
     ∨ RegisteredCountry_IsInEuropeanUnion rec = true).
Proof.
  intros Hen Hst Hip Hp Hl.
  assert (Hco : countryOutcome h g ip = Some rec).
  { apply countryOutcome_Some. by exists p. }
  rewrite (served_run lib h m g r ip c Hen Hst Hip); simpl.
  rewrite determinedEU_run, merged_IsInEU, Hco; simpl.
  split; [done|]. apply orb_true_iff.
Qed.

End EUFlag.

(** The address from Munich is in Germany, an EU country; the flag is
    true. *)
Lemma eu_flag_is_disjunction_witness :
  vars (served Sample.lib Sample.heap (Sample.handler "strict" Sample.full)
          Sample.fromMunich Sample.fresh) !! VarIsInEU
  = Some (VBool (Country_IsInEuropeanUnion Sample.germany
                 || RegisteredCountry_IsInEuropeanUnion Sample.germany))
  ∧ (determinedEU
       (served Sample.lib Sample.heap (Sample.handler "strict" Sample.full)
          Sample.fromMunich Sample.fresh) = true ↔
     Country_IsInEuropeanUnion Sample.germany = true
     ∨ RegisteredCountry_IsInEuropeanUnion Sample.germany = true).
Proof.
  apply (eu_flag_is_disjunction Sample.lib Sample.heap
           (Sample.handler "strict" Sample.full) Sample.full
           Sample.fromMunich Sample.ipMunich Sample.fresh 0%nat Sample.germany);
    vm_compute; reflexivity.
Defined.

(** ** Malformed addresses *)

Section Malformed.
Context (lib : GoLib) (h : Heap).

(** An address [net.ParseIP] rejects is an error of [getClientIP]. *)
Lemma parseClientIP_invalid ipStr :
  ParseIP lib ipStr = None →
  parseClientIP lib ipStr
  = inl (errorString ("invalid IP address: " ++ ipStr)).
Proof. unfold parseClientIP. by intros ->. Qed.

(** C4. When the client address is malformed, so that [getClientIP]
    fails, every one of the eight variables keeps its empty default and
    no database slot is queried. *)
Theorem malformed_address_all_absent m r c err :
  getClientIP lib m r = inl err →
  (∀ k, k ∈ allVars → vars (served lib h m r c) !! k = Some (VString ""))
  ∧ vars (served lib h m r c) = initialized (vars c)
  ∧ queries (served lib h m r c) = queries c.
Proof.
  intros Herr.
  assert (Hrun : lookupRuns lib m r = false).
  { unfold lookupRuns. rewrite Herr. apply andb_false_r. }
  rewrite (served_skip lib h m r c Hrun); simpl.
  split_and!; [|done..]. intros k Hk. by apply initialized_lookup.
Qed.

End Malformed.

(** The empty string is not an address. *)
Lemma malformed_address_all_absent_witness :
  getClientIP Sample.lib (Sample.handler "strict" Sample.full) Sample.malformed
  = inl (errorString "invalid IP address: ")
  ∧ (∀ k, k ∈ allVars →
       vars (served Sample.lib Sample.heap
               (Sample.handler "strict" Sample.full) Sample.malformed
               Sample.fresh) !! k = Some (VString ""))
  ∧ queries (served Sample.lib Sample.heap
               (Sample.handler "strict" Sample.full) Sample.malformed
               Sample.fresh) = [].
Proof.
  split; [vm_compute; reflexivity|].
  destruct (malformed_address_all_absent Sample.lib Sample.heap
              (Sample.handler "strict" Sample.full) Sample.malformed
              Sample.fresh (errorString "invalid IP address: "))
    as (Hvars & _ & Hq); [vm_compute; reflexivity|].
  split; [exact Hvars | exact Hq].
Defined.

(** ** Subdivisions *)

Section Subdivision.
Context (lib : GoLib) (h : Heap).

Lemma selectSubdivision_first subdivisions :
  selectSubdivision subdivisions = hd "" subdivisions.
Proof.
  destruct subdivisions as [|isoCode rest]; [done|]. simpl.
  case_bool_decide as Hne; [done|].
  destruct (decide (isoCode = "")) as [->|]; done.
Qed.

(** C7. After a successful city lookup the subdivision variable is the
    code of the first listed subdivision, however many follow; with an
    empty list it stays the empty string. *)
Theorem first_subdivision_only m g r ip c rec :
  isEnabled m = true →
  state m = Some g →
  getClientIP lib m r = inr ip →
  cityOutcome h g (euFlag (countryOutcome h g ip)) ip = Some rec →
  (∀ isoCode rest,
     Subdivisions rec = isoCode :: rest →
     vars (served lib h m r c) !! VarSubdivisions = Some (VString isoCode))
  ∧ (Subdivisions rec = [] →
     vars (served lib h m r c) !! VarSubdivisions = Some (VString "")).
Proof.
  intros Hen Hst Hip Hci.
  rewrite (served_run lib h m g r ip c Hen Hst Hip); simpl.
  rewrite merged_Subdivisions, Hci; simpl.
  rewrite selectSubdivision_first.
  split; [intros isoCode rest Hs | intros Hs]; by rewrite Hs.
Qed.

End Subdivision.

(** Munich lies in two listed subdivisions, [BY] and [OBB]; [BY] is
    reported. *)
Lemma first_subdivision_only_witness :
  Subdivisions Sample.munich = ["BY"; "OBB"]
  ∧ vars (served Sample.lib Sample.heap (Sample.handler "strict" Sample.full)
            Sample.fromMunich Sample.fresh) !! VarSubdivisions
    = Some (VString "BY").
Proof.
  split; [reflexivity|].
  refine (proj1 (first_subdivision_only Sample.lib Sample.heap
                   (Sample.handler "strict" Sample.full) Sample.full
                   Sample.fromMunich Sample.ipMunich Sample.fresh Sample.munich
                   _ _ _ _) "BY" ["OBB"] _);
    vm_compute; reflexivity.
Defined.

(** ** The strict mode *)

Section StrictMode.
Context (lib : GoLib) (h : Heap).

(** [performLookup] reads the request only through [getClientIP]. *)
Lemma performLookup_clientIP m r1 r2 :
  getClientIP lib m r1 = getClientIP lib m r2 →
  performLookup lib h m r1 = performLookup lib h m r2.
Proof. unfold performLookup. by intros ->. Qed.

(** In strict mode the address comes from [RemoteAddr] alone. *)
Lemma getClientIP_strict m r :
  getSafetyLevel lib m = Strict →
  getClientIP lib m r
  = match SplitHostPort lib (RemoteAddr r) with
    | inr (host, _) => parseClientIP lib host
    | inl (AddrError e a) =>
        if bool_decide (e = "missing port in address")
        then parseClientIP lib (RemoteAddr r)
        else inl (AddrError e a)
    | inl err => inl err
    end.
Proof.
  unfold getClientIP. intros ->. simpl.
  destruct (SplitHostPort lib (RemoteAddr r)) as [[]|[]]; done.
Qed.

End StrictMode.

(** In the wild mode, by contrast, the forged header decides. *)
Example wild_follows_forwarded_for :
  getClientIP Sample.lib (Sample.handler "wild" Sample.full)
    (Sample.request "81.2.69.142:4711" ["23.4.5.6, 10.0.0.1"])
  = inr Sample.ipBoston.
Proof. vm_compute. reflexivity. Qed.

(** ** Disabled modes *)

Section Disabled.
Context (lib : GoLib).

Lemma isEnabled_false m :
  isEnabled m = false ↔
  Enable m = "off" ∨ Enable m = "false" ∨ Enable m = "0".
Proof.
  unfold isEnabled.
  rewrite !andb_false_iff, !bool_decide_eq_false.
  destruct (decide (Enable m = "off")), (decide (Enable m = "false")),
    (decide (Enable m = "0")); intuition.
Qed.

Lemma matchesAny_elem_of mode modes :
  matchesAny mode modes = true ↔ mode ∈ modes.
Proof.
  induction modes as [|valid rest IH]; simpl.
  - rewrite elem_of_nil. split; [done|tauto].
  - rewrite elem_of_cons. case_bool_decide; intuition.
Qed.

Lemma Validate_ok g :
  Validate lib g = None ↔ ToLower lib (Enable g) ∈ validModes.
Proof.
  unfold Validate. rewrite <- matchesAny_elem_of.
  destruct (matchesAny _ _); split; done.
Qed.

(** C10. [isEnabled] is false only for the exact strings [off],
    [false] and [0], whereas [Validate] lowers the mode before it checks
    it. So the modes [OFF] and [False] pass validation, as the disable
    modes they lower to, and yet [ServeHTTP] performs the lookup. *)
Theorem uppercase_off_is_not_off :
  (∀ m, isEnabled m = false ↔
        Enable m = "off" ∨ Enable m = "false" ∨ Enable m = "0")
  ∧ (∀ g, Validate lib g = None ↔ ToLower lib (Enable g) ∈ validModes)
  ∧ ToLower lib "OFF" = "off"
  ∧ ToLower lib "False" = "false"
  ∧ ∀ st,
      Validate lib (mkGeoIP2 "OFF" st) = None
      ∧ Validate lib (mkGeoIP2 "False" st) = None
      ∧ isEnabled (mkGeoIP2 "OFF" st) = true
      ∧ isEnabled (mkGeoIP2 "False" st) = true
      ∧ ∀ h r next,
          ServeHTTP lib h (mkGeoIP2 "OFF" st) r next
          = (initializeVariables ;;
             performLookup lib h (mkGeoIP2 "OFF" st) r ;; next)
          ∧ ServeHTTP lib h (mkGeoIP2 "False" st) r next
            = (initializeVariables ;;
               performLookup lib h (mkGeoIP2 "False" st) r ;; next).
Proof.
  split_and!; try done.
  - apply isEnabled_false.
  - apply Validate_ok.
Qed.

End Disabled.

(** With the mode [OFF] the databases are queried; with [off] they are
    not. *)
Example uppercase_off_queries :
  queries (served Sample.lib Sample.heap (Sample.handler "OFF" Sample.full)
             Sample.fromMunich Sample.fresh)
  = [Country; RegionCity; Network]
  ∧ queries (served Sample.lib Sample.heap (Sample.handler "off" Sample.full)
               Sample.fromMunich Sample.fresh)
    = [].
Proof. split; vm_compute; reflexivity. Qed.

(** ** Reloading *)

Section Reload.
Context (fs : FileSystem).

Lemma openReader_fails path h err :
  maxminddb_Open fs path = inl err → openReader fs path h = (inl err, h).
Proof. unfold openReader. by intros ->. Qed.

(** A load in which the country database cannot be opened returns an
    error and touches neither the heap nor the state. *)
Lemma loadDatabase_country_fails h g :
  countryOpenFails fs g → ∃ err, loadDatabase fs h g = (Some err, h, g).
Proof.
  intros Hfail. unfold loadDatabase.
  destruct (validateDatabaseFile fs (CountryDatabasePath g)) as [e|] eqn:Hv;
    [by eexists|].
  destruct Hfail as [Hfail|[err Hopen]]; [done|].
  destruct (validateDatabaseFile fs (CityDatabasePath g)); [by eexists|].
  rewrite (openReader_fails _ h err Hopen). by eexists.
Qed.

End Reload.

(** A reload that succeeds opens four new readers, closes the four old
    ones and installs the new handlers. *)
Example reload_replaces_all :
  Sample.summary (loadDatabase Sample.fsAllThere Sample.heap Sample.full)
  = (None, [true; true; true; true; false; false; false; false],
     (Some 4%nat, Some 5%nat, Some 6%nat, Some 7%nat)).
Proof. vm_compute. reflexivity. Qed.

(** A global city database that is missing is not fatal: its slot is left
    unbound. *)
Example reload_without_global_city :
  Sample.summary (loadDatabase Sample.fsGlobalMissing Sample.heap Sample.full)
  = (None, [true; true; true; true; false; false; false],
     (Some 4%nat, Some 5%nat, None, Some 6%nat)).
Proof. vm_compute. reflexivity. Qed.

(** A Europe city database that does not open is fatal as well; the old
    databases stay in service, and the country reader that was just opened
    stays behind. *)
Example reload_with_corrupt_city :
  Sample.summary (loadDatabase Sample.fsCityCorrupt Sample.heap Sample.full)
  = (Some (errorString
             "failed to open city database /db/city-europe.mmdb: invalid MaxMind DB file"),
     [false; false; false; false; false],
     (Some 0%nat, Some 1%nat, Some 2%nat, Some 3%nat)).
Proof. vm_compute. reflexivity. Qed.

(** The file is there and large enough, but is not a database. *)
Example corrupt_country_database :
  loadDatabase Sample.fsCountryCorrupt Sample.heap Sample.full
  = (Some (errorString
             "failed to open country database /db/country.mmdb: invalid MaxMind DB file"),
     Sample.heap, Sample.full).
Proof. vm_compute. reflexivity. Qed.

(** ** The city name *)

Section CityName.
Context (lib : GoLib).

Lemma rangeFirstNonEmpty_first entries :
  firstNonEmptyIn entries (rangeFirstNonEmpty entries).
Proof.
  induction entries as [|[locale name] rest IH]; simpl.
  - left. split; [done|]. intros e He. by apply elem_of_nil in He.
  - case_bool_decide as Hname.
    + right. split; [done|]. exists [], locale, rest. split; [done|].
      intros e He. by apply elem_of_nil in He.
    + assert (name = "") as -> by (destruct (decide (name = "")); tauto).
      destruct IH as [[Hres Hall]|(Hres & before & l & after & Heq & Hall)].
      * left. split; [done|]. intros e [->|He]%elem_of_cons; auto.
      * right. split; [done|].
        exists ((locale, "") :: before), l, after.
        split; [simpl; by f_equal|].
        intros e [->|He]%elem_of_cons; auto.
Qed.

(** Entries with an empty name do not matter to the loop. *)
Lemma rangeFirstNonEmpty_filter (keep : string * string → bool) entries :
  (∀ e, e ∈ entries → keep e = false → e.2 = "") →
  rangeFirstNonEmpty (List.filter keep entries) = rangeFirstNonEmpty entries.
Proof.
  induction entries as [|[locale name] rest IH]; intros Hdrop; [done|].
  simpl. destruct (keep (locale, name)) eqn:Hk; simpl.
  - case_bool_decide; [done|].
    apply IH. intros e He. apply Hdrop. by right.
  - assert (name = "") as -> by (apply (Hdrop (locale, name)); [by left|done]).
    simpl. apply IH. intros e He. apply Hdrop. by right.
Qed.

Lemma existsNonEmpty_false o name :
  existsNonEmpty o = false → o = Some name → name = "".
Proof.
  intros Hex ->. simpl in Hex. apply bool_decide_eq_false in Hex.
  destruct (decide (name = "")); tauto.
Qed.

Lemma existsNonEmpty_true o :
  existsNonEmpty o = true ↔ ∃ name, o = Some name ∧ name ≠ "".
Proof.
  destruct o as [name|]; simpl.
  - rewrite bool_decide_eq_true. split; [intros ?; by exists name|].
    by intros (? & [= <-] & ?).
  - split; [done|]. by intros (? & ? & _).
Qed.

Context (Hrange : range_enumerates lib).

Lemma mapRange_elem_of names locale name :
  (locale, name) ∈ mapRange lib names ↔ names !! locale = Some name.
Proof. rewrite (Hrange names). apply elem_of_map_to_list. Qed.

Lemma selectCityName_remaining names :
  existsNonEmpty (names !! "de") = false →
  existsNonEmpty (names !! "en") = false →
  selectCityName lib names = rangeFirstNonEmpty (remainingLocales lib names).
Proof.
  intros Hde Hen. unfold selectCityName, remainingLocales.
  rewrite Hde, Hen. symmetry. apply rangeFirstNonEmpty_filter.
  intros [locale name] Hin Hkeep. simpl in *.
  apply mapRange_elem_of in Hin.
  apply andb_false_iff in Hkeep as [Hk|Hk];
    apply negb_false_iff, bool_decide_eq_true in Hk; subst locale;
    eauto using existsNonEmpty_false.
Qed.

(** The selected name is a name of the map, unless it is empty. *)
Lemma selectCityName_in names :
  selectCityName lib names ≠ "" →
  ∃ locale, names !! locale = Some (selectCityName lib names).
Proof.
  unfold selectCityName.
  destruct (existsNonEmpty (names !! "de")) eqn:Hde.
  { apply existsNonEmpty_true in Hde as (name & Hn & _).
    rewrite Hn. by exists "de". }
  destruct (existsNonEmpty (names !! "en")) eqn:Hen.
  { apply existsNonEmpty_true in Hen as (name & Hn & _).
    rewrite Hn. by exists "en". }
  intros Hne.
  destruct (rangeFirstNonEmpty_first (mapRange lib names))
    as [[Hres _]|(_ & before & locale & after & Heq & _)]; [done|].
  exists locale. apply mapRange_elem_of.
  set (res := rangeFirstNonEmpty (mapRange lib names)) in *.
  rewrite Heq. apply elem_of_app. right. by left.
Qed.

(** An empty selection means that the map has no non-empty name. *)
Lemma selectCityName_empty names :
  selectCityName lib names = "" ↔
  ∀ locale name, names !! locale = Some name → name = "".
Proof.
  split.
  - intros Hsel locale name Hn. unfold selectCityName in Hsel.
    destruct (existsNonEmpty (names !! "de")) eqn:Hde.
    { apply existsNonEmpty_true in Hde as (n & Hd & Hne).
      rewrite Hd in Hsel. done. }
    destruct (existsNonEmpty (names !! "en")) eqn:Hen.
    { apply existsNonEmpty_true in Hen as (n & Hd & Hne).
      rewrite Hd in Hsel. done. }
    destruct (rangeFirstNonEmpty_first (mapRange lib names))
      as [[_ Hall]|(Hne & _)]; [|done].
    apply (Hall (locale, name)). by apply mapRange_elem_of.
  - intros Hall. destruct (decide (selectCityName lib names = "")) as [|Hne];
      [done|].
    destruct (selectCityName_in names Hne) as [locale Hl].
    by apply Hall in Hl.
Qed.

End CityName.

(** The result does not depend on the enumeration when German or English
    is there, or when the map holds only one non-empty name. *)
Lemma selectCityName_deterministic lib lib' names :
  range_enumerates lib → range_enumerates lib' →
  existsNonEmpty (names !! "de") || existsNonEmpty (names !! "en") = true
  ∨ (∀ l1 l2 n1 n2, names !! l1 = Some n1 → names !! l2 = Some n2 →
                    n1 ≠ "" → n2 ≠ "" → n1 = n2) →
  selectCityName lib' names = selectCityName lib names.
Proof.
  intros Hr Hr' [Hpref|Hone].
  - unfold selectCityName.
    destruct (existsNonEmpty (names !! "de")); [done|].
    destruct (existsNonEmpty (names !! "en")); done.
  - destruct (decide (selectCityName lib names = "")) as [He|Hne].
    + rewrite He. apply (selectCityName_empty lib' Hr').
      by apply (selectCityName_empty lib Hr).
    + destruct (decide (selectCityName lib' names = "")) as [He'|Hne'].
      * exfalso. apply Hne. apply (selectCityName_empty lib Hr).
        by apply (selectCityName_empty lib' Hr').
      * destruct (selectCityName_in lib Hr names Hne) as [l Hl].
        destruct (selectCityName_in lib' Hr' names Hne') as [l' Hl'].
        eauto.
Qed.

Lemma range_enumerates_sample : range_enumerates Sample.lib.
Proof. intros m. reflexivity. Qed.

Lemma range_enumerates_reversed : range_enumerates Sample.libReversed.
Proof. intros m. simpl. apply reverse_Permutation. Qed.

(** C3 (as amended). The city name is the German name if it is not
    empty, else the English name if it is not empty, else the first
    non-empty name met when the remaining locales are enumerated in the
    order Go's map iteration yields them; when every name is empty, or
    the map is, the city stays the empty string. The names
    [{de: München, en: Munich}] give [München], [{en: Munich}] and
    [{fr: Munich}] give [Munich], and the empty map gives the empty
    string, whatever the enumeration. The selection is independent of
    the enumeration whenever a German or English name is there or all
    non-empty names of the map are equal. *)
Theorem city_name_selection lib :
  range_enumerates lib →
  (∀ names name,
     names !! "de" = Some name → name ≠ "" →
     selectCityName lib names = name)
  ∧ (∀ names name,
       existsNonEmpty (names !! "de") = false →
       names !! "en" = Some name → name ≠ "" →
       selectCityName lib names = name)
  ∧ (∀ names,
       existsNonEmpty (names !! "de") = false →
       existsNonEmpty (names !! "en") = false →
       firstNonEmptyIn (remainingLocales lib names) (selectCityName lib names))
  ∧ (∀ names,
       (∀ locale name, names !! locale = Some name → name = "") →
       selectCityName lib names = "")
  ∧ selectCityName lib (<["de" := "München"]> (<["en" := "Munich"]> ∅))
    = "München"
  ∧ selectCityName lib {["en" := "Munich"]} = "Munich"
  ∧ selectCityName lib {["fr" := "Munich"]} = "Munich"
  ∧ selectCityName lib ∅ = ""
  ∧ (∀ h m g r ip c rec,
       isEnabled m = true → state m = Some g →
       getClientIP lib m r = inr ip →
       cityOutcome h g (euFlag (countryOutcome h g ip)) ip = Some rec →
       vars (served lib h m r c) !! VarCity
       = Some (VString (selectCityName lib (City_Names rec))))
  ∧ (∀ lib' names,
       range_enumerates lib' →
       existsNonEmpty (names !! "de") || existsNonEmpty (names !! "en") = true
       ∨ (∀ l1 l2 n1 n2, names !! l1 = Some n1 → names !! l2 = Some n2 →
                         n1 ≠ "" → n2 ≠ "" → n1 = n2) →
       selectCityName lib' names = selectCityName lib names).
Proof.
  intros Hrange.
  assert (Hde : ∀ names name,
    names !! "de" = Some name → name ≠ "" → selectCityName lib names = name).
  { intros names name Hn Hne. unfold selectCityName. rewrite Hn; simpl.
    by rewrite bool_decide_eq_true_2. }
  assert (Hen : ∀ names name,
    existsNonEmpty (names !! "de") = false →
    names !! "en" = Some name → name ≠ "" → selectCityName lib names = name).
  { intros names name Hd Hn Hne. unfold selectCityName. rewrite Hd, Hn; simpl.
    by rewrite bool_decide_eq_true_2. }
  split_and!.
  - exact Hde.
  - exact Hen.
  - intros names Hd He. rewrite (selectCityName_remaining lib Hrange) by done.
    apply rangeFirstNonEmpty_first.
  - intros names Hall. by apply (selectCityName_empty lib Hrange).
  - apply Hde; [|done]. apply lookup_insert_eq.
  - apply Hen; [|apply lookup_singleton_eq|done].
    by rewrite lookup_singleton_ne.
  - rewrite (selectCityName_deterministic Sample.lib lib {["fr" := "Munich"]}
                  range_enumerates_sample Hrange); [by vm_compute|].
    right. intros l1 l2 n1 n2.
    rewrite !lookup_singleton_Some. by intros [_ <-] [_ <-].
  - apply (selectCityName_empty lib Hrange). by intros locale name.
  - intros h m g r ip c rec Hon Hst Hip Hci.
    rewrite (served_run lib h m g r ip c Hon Hst Hip); simpl.
    by rewrite merged_City, Hci.
  - intros lib' names Hrange'.
    by apply selectCityName_deterministic.
Qed.

(** With the enumeration of the sample library, on the German-English
    map. *)
Lemma city_name_selection_witness :
  range_enumerates Sample.lib
  ∧ selectCityName Sample.lib Sample.munichNames = "München".
Proof.
  split; [intros m; reflexivity|].
  refine (proj1 (city_name_selection Sample.lib _) Sample.munichNames
            "München" _ _).
  - intros m. reflexivity.
  - vm_compute. reflexivity.
  - vm_compute. discriminate.
Defined.

(** C3, the counterexample to determinism: a map with a French and an
    Italian name. Both enumerations below yield every entry exactly once,
    as Go's map iteration does, and they select different names. *)
Lemma city_name_depends_on_enumeration :
  range_enumerates Sample.lib
  ∧ range_enumerates Sample.libReversed
  ∧ selectCityName Sample.lib Sample.twoNames = "Monaco di Baviera"
  ∧ selectCityName Sample.libReversed Sample.twoNames = "Munich"
  ∧ selectCityName Sample.lib Sample.twoNames
    ≠ selectCityName Sample.libReversed Sample.twoNames.
Proof.
  split; [apply range_enumerates_sample|].
  split; [apply range_enumerates_reversed|].
  split; [vm_compute; reflexivity|].
  split; [vm_compute; reflexivity|].
  vm_compute. discriminate.
Qed.

(** ** Absent fields *)

(** C5, the counterexample. In the first run nothing is known about the
    address: the Country and the city lookups fail and no ASN database is
    configured. In the second run every lookup succeeds, with entries
    whose fields are zero or empty. The eight variables are the same. *)
Lemma absent_looks_like_zero :
  countryOutcome Sample.heapAbsent Sample.absent Sample.ipMunich = None
  ∧ cityOutcome Sample.heapAbsent Sample.absent false Sample.ipMunich = None
  ∧ bound Sample.absent Network = false
  ∧ countryOutcome Sample.heapBlank Sample.blank Sample.ipMunich
    = Some Sample.nowhere
  ∧ cityOutcome Sample.heapBlank Sample.blank false Sample.ipMunich
    = Some Sample.emptyCity
  ∧ asnOutcome Sample.heapBlank Sample.blank Sample.ipMunich
    = Some Sample.emptyASN
  ∧ vars (served Sample.lib Sample.heapAbsent
            (Sample.handler "strict" Sample.absent) Sample.fromMunich
            Sample.fresh)
    = vars (served Sample.lib Sample.heapBlank
              (Sample.handler "strict" Sample.blank) Sample.fromMunich
              Sample.fresh).
Proof. repeat split; vm_compute; reflexivity. Qed.

Section Absence.
Context (lib : GoLib) (h : Heap).

(** C5 (as amended). Every request leaves all eight variables set and
    [ServeHTTP] returns what the next handler returns: no error of a
    lookup reaches the caller. When no lookup runs (lookups disabled,
    no state, malformed address) all eight variables hold the empty
    string. When the lookup runs, a string field (country code, city,
    subdivision, AS organization) whose lookup failed or whose database
    is not bound holds the empty string, which is also what a present
    empty value gives: absence is not distinguishable from it. *)
Theorem record_always_returned m r c :
  (∀ next, ServeHTTP lib h m r next c = next (served lib h m r c))
  ∧ (∀ k, k ∈ allVars → is_Some (vars (served lib h m r c) !! k))
  ∧ (lookupRuns lib m r = false →
     ∀ k, k ∈ allVars → vars (served lib h m r c) !! k = Some (VString ""))
  ∧ (∀ g ip,
       lookupRuns lib m r = true → state m = Some g →
       getClientIP lib m r = inr ip →
       ∀ co ci an,
         co = countryOutcome h g ip →
         ci = cityOutcome h g (euFlag co) ip →
         an = asnOutcome h g ip →
         (from_option Country_ISOCode "" co = "" →
          vars (served lib h m r c) !! VarCountryCode = Some (VString ""))
         ∧ (from_option (fun rec => selectCityName lib (City_Names rec)) "" ci
            = "" →
            vars (served lib h m r c) !! VarCity = Some (VString ""))
         ∧ (from_option (fun rec => hd "" (Subdivisions rec)) "" ci = "" →
            vars (served lib h m r c) !! VarSubdivisions
            = Some (VString ""))
         ∧ (from_option AutonomousSystemOrganization "" an = "" →
            vars (served lib h m r c) !! VarASOrg = Some (VString ""))).
Proof.
  split_and!.
  - intros next. apply ServeHTTP_next.
  - intros k Hk. destruct (lookupRuns lib m r) eqn:Hrun.
    + destruct (lookupRuns_true lib m r Hrun) as (Hen & g & ip & Hst & Hip).
      rewrite (served_run lib h m g r ip c Hen Hst Hip); simpl.
      unfold allVars in Hk. rewrite !elem_of_cons, elem_of_nil in Hk.
      destruct_or!; try done; subst k;
        rewrite ?merged_CountryCode, ?merged_IsInEU, ?merged_City,
          ?merged_Latitude, ?merged_Longitude, ?merged_Subdivisions,
          ?merged_ASN, ?merged_ASOrg; by eexists.
    + rewrite (served_skip lib h m r c Hrun); simpl.
      rewrite initialized_lookup by done. by eexists.
  - intros Hrun k Hk. rewrite (served_skip lib h m r c Hrun); simpl.
    by apply initialized_lookup.
  - intros g ip Hrun Hst Hip co ci an -> -> ->.
    destruct (lookupRuns_true lib m r Hrun) as (Hen & _).
    rewrite (served_run lib h m g r ip c Hen Hst Hip); simpl.
    rewrite merged_CountryCode, merged_City, merged_Subdivisions,
      merged_ASOrg.
    split_and!; try by intros ->.
    destruct (cityOutcome _ _ _ _) as [rec|]; simpl; [|done].
    rewrite selectSubdivision_first. by intros ->.
Qed.

End Absence.

(** ** Failures of single lookups *)

(** C6, the counterexample. The two runs have the same state (Country,
    Europe city and ASN bound, the global city database not bound), the
    same request and the same city and ASN databases; in the second run
    the Country lookup fails. The city variables, which come from the
    city database, are lost with it: the address is routed as a non-EU
    one, to the global city slot, which is not bound. *)
Lemma country_failure_loses_city :
  (∀ i, i ≠ 0%nat → Sample.heapCountryBroken !! i = Sample.heap !! i)
  ∧ countryOutcome Sample.heap Sample.noGlobal Sample.ipMunich
    = Some Sample.germany
  ∧ countryOutcome Sample.heapCountryBroken Sample.noGlobal Sample.ipMunich
    = None
  ∧ vars (served Sample.lib Sample.heap
            (Sample.handler "strict" Sample.noGlobal) Sample.fromMunich
            Sample.fresh) !! VarCity = Some (VString "München")
  ∧ vars (served Sample.lib Sample.heapCountryBroken
            (Sample.handler "strict" Sample.noGlobal) Sample.fromMunich
            Sample.fresh) !! VarCity = Some (VString "")
  ∧ queries (served Sample.lib Sample.heap
               (Sample.handler "strict" Sample.noGlobal) Sample.fromMunich
               Sample.fresh) = [Country; RegionCity; Network]
  ∧ queries (served Sample.lib Sample.heapCountryBroken
               (Sample.handler "strict" Sample.noGlobal) Sample.fromMunich
               Sample.fresh) = [Country; Network]
  ∧ ¬ sameVars cityVars
        (served Sample.lib Sample.heapCountryBroken
           (Sample.handler "strict" Sample.noGlobal) Sample.fromMunich
           Sample.fresh)
        (served Sample.lib Sample.heap
           (Sample.handler "strict" Sample.noGlobal) Sample.fromMunich
           Sample.fresh).
Proof.
  split_and!; try (vm_compute; reflexivity).
  - intros [|i] Hi; [done|reflexivity].
  - intros Hsame. specialize (Hsame VarCity).
    assert (Hin : VarCity ∈ cityVars) by (unfold cityVars; in_list).
    apply Hsame in Hin. vm_compute in Hin. discriminate.
Qed.

Section Isolation.
Context (lib : GoLib) (h : Heap).

Lemma slotsQueried_Network g eu :
  Network ∈ slotsQueried g eu ↔ bound g Network = true.
Proof.
  unfold slotsQueried, citySlot. rewrite !elem_of_app.
  destruct (bound g Country), (bound g Network), eu, (bound g RegionCity),
    (bound g GlobalCity); simpl; in_list.
Qed.

(** C6 (as amended). When the lookup runs, the ASN slot is queried if
    and only if it is bound, whatever the EU flag and the outcome of the
    other lookups, and no failure stops the later steps: the slots
    queried are the bound ones among Country, the routed city slot and
    Network. Compared with a run on other databases [h2], the ASN
    variables are the same when the ASN outcome is, the Country
    variables are the same when the Country outcome is, and the city
    variables are the same when the EU flag and the outcome of the
    routed city slot are. A failed Country lookup leaves the EU flag
    false, so that the city step asks the global city slot if bound and
    no city slot otherwise. *)
Theorem lookup_failures_do_not_abort m g r ip c :
  isEnabled m = true →
  state m = Some g →
  getClientIP lib m r = inr ip →
  queries (served lib h m r c)
  = (queries c ++ slotsQueried g (euFlag (countryOutcome h g ip)))%list
  ∧ (Network ∈ slotsQueried g (euFlag (countryOutcome h g ip)) ↔
     bound g Network = true)
  ∧ (∀ h2,
       (asnOutcome h2 g ip = asnOutcome h g ip →
        sameVars asnVars (served lib h2 m r c) (served lib h m r c))
       ∧ (countryOutcome h2 g ip = countryOutcome h g ip →
          sameVars countryVars (served lib h2 m r c) (served lib h m r c))
       ∧ (euFlag (countryOutcome h2 g ip) = euFlag (countryOutcome h g ip) →
          cityOutcome h2 g (euFlag (countryOutcome h g ip)) ip
          = cityOutcome h g (euFlag (countryOutcome h g ip)) ip →
          sameVars cityVars (served lib h2 m r c) (served lib h m r c)))
  ∧ (countryOutcome h g ip = None →
     citySlot g (euFlag (countryOutcome h g ip))
     = if bound g GlobalCity then Some GlobalCity else None).
Proof.
  intros Hen Hst Hip.
  rewrite (served_run lib h m g r ip c Hen Hst Hip); simpl.
  split_and!.
  - done.
  - apply slotsQueried_Network.
  - intros h2.
    rewrite (served_run lib h2 m g r ip c Hen Hst Hip); simpl.
    split_and!.
    + intros Han k Hk. simpl. unfold asnVars in Hk.
      rewrite !elem_of_cons, elem_of_nil in Hk.
      destruct_or!; try done; subst k;
        by rewrite ?merged_ASN, ?merged_ASOrg, Han.
    + intros Hco k Hk. simpl. unfold countryVars in Hk.
      rewrite !elem_of_cons, elem_of_nil in Hk.
      destruct_or!; try done; subst k;
        by rewrite ?merged_CountryCode, ?merged_IsInEU, Hco.
    + intros Heu Hci k Hk. simpl. unfold cityVars in Hk.
      rewrite !elem_of_cons, elem_of_nil in Hk.
      destruct_or!; try done; subst k;
        by rewrite ?merged_City, ?merged_Latitude, ?merged_Longitude,
             ?merged_Subdivisions, Heu, Hci.
  - intros ->. reflexivity.
Qed.

End Isolation.

(** The Country lookup fails and the ASN variables are what they are
    when it succeeds. *)
Lemma lookup_failures_do_not_abort_witness :
  countryOutcome Sample.heapCountryBroken Sample.full Sample.ipMunich = None
  ∧ Network ∈ queries (served Sample.lib Sample.heapCountryBroken
                         (Sample.handler "strict" Sample.full)
                         Sample.fromMunich Sample.fresh)
  ∧ sameVars asnVars
      (served Sample.lib Sample.heap (Sample.handler "strict" Sample.full)
         Sample.fromMunich Sample.fresh)
      (served Sample.lib Sample.heapCountryBroken
         (Sample.handler "strict" Sample.full) Sample.fromMunich Sample.fresh).
Proof.
  split; [vm_compute; reflexivity|].
  destruct (lookup_failures_do_not_abort Sample.lib Sample.heapCountryBroken
              (Sample.handler "strict" Sample.full) Sample.full
              Sample.fromMunich Sample.ipMunich Sample.fresh)
    as (Hq & Hnet & Hsame & _).
  - vm_compute; reflexivity.
  - reflexivity.
  - vm_compute; reflexivity.
  - split.
    + rewrite Hq. simpl. apply Hnet. vm_compute; reflexivity.
    + apply (Hsame Sample.heap). vm_compute; reflexivity.
Defined.

(** * Further properties of the handler *)

(** ** Only the eight variables are touched *)

Section Frame.
Context (lib : GoLib) (h : Heap).

Lemma not_allVars k :
  k ∉ allVars →
  k ≠ VarCity ∧ k ≠ VarCountryCode ∧ k ≠ VarLatitude ∧ k ≠ VarLongitude
  ∧ k ≠ VarSubdivisions ∧ k ≠ VarIsInEU ∧ k ≠ VarASN ∧ k ≠ VarASOrg.
Proof.
  unfold allVars. rewrite !not_elem_of_cons.
  intros (?&?&?&?&?&?&?&?&_). by split_and!.
Qed.

Lemma initialized_other vs k :
  k ∉ allVars → initialized vs !! k = vs !! k.
Proof.
  intros (?&?&?&?&?&?&?&?)%not_allVars.
  unfold initialized. by rewrite !lookup_insert_ne.
Qed.

Lemma merged_other co ci an vs k :
  k ∉ allVars → merged lib co ci an vs !! k = vs !! k.
Proof.
  intros (?&?&?&?&?&?&?&?)%not_allVars.
  unfold merged. by rewrite !lookup_insert_ne.
Qed.

Lemma merged_own co ci an vs vs' k :
  k ∈ allVars →
  merged lib co ci an vs !! k = merged lib co ci an vs' !! k.
Proof.
  unfold allVars. rewrite !elem_of_cons, elem_of_nil.
  intros Hk. destruct_or!; try done; subst k;
    by rewrite ?merged_CountryCode, ?merged_IsInEU, ?merged_City,
         ?merged_Latitude, ?merged_Longitude, ?merged_Subdivisions,
         ?merged_ASN, ?merged_ASOrg.
Qed.

Lemma served_other m r c k :
  k ∉ allVars →
  vars (served lib h m r c) !! k = vars c !! k.
Proof.
  intros Hk. destruct (lookupRuns lib m r) eqn:Hrun.
  - destruct (lookupRuns_true lib m r Hrun) as (Hen & g & ip & Hst & Hip).
    rewrite (served_run lib h m g r ip c Hen Hst Hip); simpl.
    by rewrite merged_other, initialized_other.
  - rewrite (served_skip lib h m r c Hrun); simpl.
    by apply initialized_other.
Qed.

(** The handler reads and writes its own eight variables only: every
    other variable of the replacer is left as it was. *)
Theorem other_variables_untouched m r c k :
  k ∉ allVars →
  vars (served lib h m r c) !! k = vars c !! k.
Proof. apply served_other. Qed.

End Frame.

Lemma other_variables_untouched_witness :
  ("http.request.host" ∉ allVars)
  ∧ vars (served Sample.lib Sample.heap (Sample.handler "strict" Sample.full)
            Sample.fromMunich Sample.busy) !! "http.request.host"
    = Some (VString "example.org").
Proof.
  assert (Hk : "http.request.host" ∉ allVars).
  { unfold allVars. rewrite !not_elem_of_cons. split_and!; try done.
    apply not_elem_of_nil. }
  split; [exact Hk|].
  rewrite (other_variables_untouched Sample.lib Sample.heap
             (Sample.handler "strict" Sample.full) Sample.fromMunich
             Sample.busy "http.request.host" Hk).
  vm_compute. reflexivity.
Defined.

(** ** Handlers that do not look anything up *)

Section NoLookup.
Context (lib : GoLib) (h : Heap).

(** A handler whose mode is [off], [false] or [0], or that has no
    state, queries no database and leaves the eight variables empty,
    whatever the request. *)
Theorem disabled_handler_queries_nothing m r c :
  isEnabled m = false ∨ state m = None →
  vars (served lib h m r c) = initialized (vars c)
  ∧ queries (served lib h m r c) = queries c
  ∧ ∀ k, k ∈ allVars → vars (served lib h m r c) !! k = Some (VString "").
Proof.
  intros Hoff.
  assert (Hrun : lookupRuns lib m r = false).
  { unfold lookupRuns. destruct Hoff as [->| ->]; [done|].
    by rewrite andb_false_r. }
  rewrite (served_skip lib h m r c Hrun); simpl.
  split_and!; [done..|]. intros k Hk. by apply initialized_lookup.
Qed.

(** The values a successful lookup yields are stored as they are: the
    country code, the coordinates, the AS number and organization. *)
Theorem found_values_stored_verbatim m g r ip c :
  isEnabled m = true →
  state m = Some g →
  getClientIP lib m r = inr ip →
  (∀ rec, countryOutcome h g ip = Some rec →
     vars (served lib h m r c) !! VarCountryCode
     = Some (VString (Country_ISOCode rec)))
  ∧ (∀ rec,
       cityOutcome h g (euFlag (countryOutcome h g ip)) ip = Some rec →
       vars (served lib h m r c) !! VarLatitude
       = Some (VFloat64 (Location_Latitude rec))
       ∧ vars (served lib h m r c) !! VarLongitude
         = Some (VFloat64 (Location_Longitude rec)))
  ∧ (∀ rec, asnOutcome h g ip = Some rec →
       vars (served lib h m r c) !! VarASN
       = Some (VUint64 (AutonomousSystemNumber rec))
       ∧ vars (served lib h m r c) !! VarASOrg
         = Some (VString (AutonomousSystemOrganization rec))).
Proof.
  intros Hen Hst Hip.
  rewrite (served_run lib h m g r ip c Hen Hst Hip); simpl.
  rewrite merged_CountryCode, merged_Latitude, merged_Longitude,
    merged_ASN, merged_ASOrg.
  split_and!; intros rec ->; done.
Qed.

End NoLookup.

Lemma disabled_handler_queries_nothing_witness :
  isEnabled (Sample.handler "off" Sample.full) = false
  ∧ queries (served Sample.lib Sample.heap (Sample.handler "off" Sample.full)
               Sample.fromMunich Sample.fresh) = []
  ∧ vars (served Sample.lib Sample.heap (Sample.handler "off" Sample.full)
            Sample.fromMunich Sample.fresh) !! VarCountryCode
    = Some (VString "").
Proof.
  split; [reflexivity|].
  destruct (disabled_handler_queries_nothing Sample.lib Sample.heap
              (Sample.handler "off" Sample.full) Sample.fromMunich
              Sample.fresh) as (_ & Hq & Hv); [by left|].
  split; [exact Hq|]. apply Hv. unfold allVars. in_list.
Defined.

Lemma found_values_stored_verbatim_witness :
  vars (served Sample.lib Sample.heap (Sample.handler "strict" Sample.full)
          Sample.fromMunich Sample.fresh) !! VarASN
  = Some (VUint64 3320)
  ∧ vars (served Sample.lib Sample.heap (Sample.handler "strict" Sample.full)
            Sample.fromMunich Sample.fresh) !! VarASOrg
    = Some (VString "Deutsche Telekom AG").
Proof.
  refine (proj2 (proj2 (found_values_stored_verbatim Sample.lib Sample.heap
                          (Sample.handler "strict" Sample.full) Sample.full
                          Sample.fromMunich Sample.ipMunich Sample.fresh
                          _ _ _)) Sample.telekom _);
    vm_compute; reflexivity.
Defined.

(** ** The client address and the [X-Forwarded-For] header *)

Section ForwardedFor.
Context (lib : GoLib) (h : Heap).

(** Whenever the header is not trusted, or is empty, the address comes
    from [RemoteAddr] alone. *)
Lemma getClientIP_remote m r :
  trustsForwardedFor lib m r = false
  ∨ Header_Get (Header r) "X-Forwarded-For" = "" →
  getClientIP lib m r
  = match SplitHostPort lib (RemoteAddr r) with
    | inr (host, _) => parseClientIP lib host
    | inl (AddrError e a) =>
        if bool_decide (e = "missing port in address")
        then parseClientIP lib (RemoteAddr r)
        else inl (AddrError e a)
    | inl err => inl err
    end.
Proof.
  unfold getClientIP, trustsForwardedFor. intros Hno.
  assert ((((getSafetyLevel lib m =? TrustedProxies) && TrustedProxyVar r)
           || (getSafetyLevel lib m =? Wild))
          && bool_decide (Header_Get (Header r) "X-Forwarded-For" ≠ "")
          = false) as ->.
  { destruct Hno as [->| ->]; [done|].
    rewrite bool_decide_eq_false_2 by tauto. apply andb_false_r. }
  destruct (SplitHostPort lib (RemoteAddr r)) as [[]|[]]; done.
Qed.

Lemma string_app_cons a (s t : string) :
  String a s ++ t = String a (s ++ t).
Proof. reflexivity. Qed.

Lemma string_app_nil_r (s : string) : s ++ "" = s.
Proof.
  induction s as [|a s IH]; [done|]. by rewrite string_app_cons, IH.
Qed.

Lemma string_app_assoc (s1 s2 s3 : string) :
  (s1 ++ s2) ++ s3 = s1 ++ (s2 ++ s3).
Proof.
  induction s1 as [|a s1 IH]; [done|]. by rewrite !string_app_cons, IH.
Qed.

Lemma Split_go_step sep cur c s :
  Split_go sep 0 cur (String c s)
  = if String.prefix sep (String c s)
    then cur :: Split_go sep (Nat.pred (String.length sep)) "" s
    else Split_go sep 0 (cur ++ String c "") s.
Proof. reflexivity. Qed.

Lemma prefix_other_head a b (s1 s2 : string) :
  a ≠ b → String.prefix (String a s1) (String b s2) = false.
Proof.
  intros Hne. cbn [String.prefix].
  destruct (ascii_dec a b) as [Heq|_]; [by destruct Hne|done].
Qed.

Lemma prefix_comma_space rest :
  String.prefix ", " (String "," (String " " rest)) = true.
Proof. by destruct rest. Qed.

(** The first piece of a chain is what precedes the first [", "]. *)
Lemma Split_go_first first rest cur :
  noComma first = true →
  hd "" (Split_go ", " 0 cur (first ++ ", " ++ rest)) = cur ++ first.
Proof.
  revert cur. induction first as [|a first IH]; intros cur Hno.
  - change ("" ++ ", " ++ rest) with (String "," (String " " rest)).
    rewrite Split_go_step, prefix_comma_space. simpl.
    by rewrite string_app_nil_r.
  - simpl in Hno. apply andb_true_iff in Hno as [Ha Hno].
    apply negb_true_iff, bool_decide_eq_false in Ha.
    rewrite string_app_cons, Split_go_step.
    rewrite prefix_other_head by congruence.
    rewrite IH by done. by rewrite string_app_assoc.
Qed.

Lemma Split_go_single first cur :
  noComma first = true → Split_go ", " 0 cur first = [cur ++ first].
Proof.
  revert cur. induction first as [|a first IH]; intros cur Hno.
  - simpl. by rewrite string_app_nil_r.
  - simpl in Hno. apply andb_true_iff in Hno as [Ha Hno].
    apply negb_true_iff, bool_decide_eq_false in Ha.
    rewrite Split_go_step.
    rewrite prefix_other_head by congruence.
    rewrite IH by done. by rewrite string_app_assoc.
Qed.

Lemma Header_Get_withForwardedFor r v :
  Header_Get (Header (withForwardedFor r v)) "X-Forwarded-For" = v.
Proof. unfold Header_Get, withForwardedFor; simpl. by rewrite lookup_insert_eq. Qed.

(** When the header is trusted (the wild mode, or the default mode
    behind a trusted proxy), the client address is the first entry of
    the chain, trimmed: the entries after the first [", "] and
    [RemoteAddr] play no part. *)
Theorem forwarded_for_first_entry m r first rest :
  trustsForwardedFor lib m r = true →
  noComma first = true →
  getClientIP lib m (withForwardedFor r (first ++ ", " ++ rest))
  = parseClientIP lib (TrimSpace lib first)
  ∧ (first ≠ "" →
     getClientIP lib m (withForwardedFor r first)
     = parseClientIP lib (TrimSpace lib first)).
Proof.
  intros Htrust Hno. unfold trustsForwardedFor in Htrust.
  split; [|intros Hne]; unfold getClientIP;
    rewrite Header_Get_withForwardedFor; simpl TrustedProxyVar;
    rewrite Htrust; simpl.
  - rewrite bool_decide_eq_true_2 by (by destruct first).
    unfold Split. by rewrite Split_go_first.
  - rewrite bool_decide_eq_true_2 by done.
    unfold Split. by rewrite Split_go_single.
Qed.

End ForwardedFor.

(** Behind a trusted proxy the first entry of the chain counts. *)
Lemma forwarded_for_first_entry_witness :
  trustsForwardedFor Sample.lib (Sample.handler "" Sample.full)
    (Sample.relayed "10.0.0.1:443" "" true) = true
  ∧ getClientIP Sample.lib (Sample.handler "" Sample.full)
      (withForwardedFor (Sample.relayed "10.0.0.1:443" "" true)
         ("23.4.5.6" ++ ", " ++ "81.2.69.142, 10.0.0.2"))
    = inr Sample.ipBoston.
Proof.
  split; [vm_compute; reflexivity|].
  rewrite (proj1 (forwarded_for_first_entry Sample.lib
                    (Sample.handler "" Sample.full)
                    (Sample.relayed "10.0.0.1:443" "" true)
                    "23.4.5.6" "81.2.69.142, 10.0.0.2"
                    eq_refl eq_refl)).
  vm_compute. reflexivity.
Defined.

(** * Further properties of the database state *)

(** ** The reload interval *)

Section Interval.
Context (intSize : Z).

Lemma digitValue_range c d : digitValue c = Some d → 0 ≤ d ≤ 9.
Proof.
  unfold digitValue.
  destruct ((48 <=? N_of_ascii c)%N && (N_of_ascii c <=? 57)%N) eqn:Hc;
    [|done].
  apply andb_true_iff in Hc as [H1%N.leb_le H2%N.leb_le].
  intros [= <-]. lia.
Qed.

Lemma digitsValue_allDigits acc s n :
  digitsValue acc s = Some n → allDigits s = true.
Proof.
  revert acc. induction s as [|c s IH]; intros acc; simpl; [done|].
  destruct (digitValue c); [apply IH|done].
Qed.

Lemma digitsValue_nonneg acc s n :
  0 ≤ acc → digitsValue acc s = Some n → 0 ≤ n.
Proof.
  revert acc. induction s as [|c s IH]; intros acc Hacc; simpl.
  - intros [= <-]. done.
  - destruct (digitValue c) as [d|] eqn:Hd; [|done].
    apply digitValue_range in Hd. apply IH. lia.
Qed.

(** What [Atoi] accepts is a numeral. *)
Lemma Atoi_isNumeral s n : Atoi intSize s = Some n → isNumeral s = true.
Proof.
  unfold Atoi, isNumeral. destruct s as [|c s]; [done|].
  assert (Hun : ∀ t un, unsignedValue t = Some un →
                        negb (bool_decide (t = "")) && allDigits t = true).
  { intros [|c' t] un; [done|]. intros Hv.
    apply digitsValue_allDigits in Hv. by rewrite Hv. }
  destruct (bool_decide (c = "-"%char)); cbn [orb].
  { destruct (unsignedValue s) as [un|] eqn:Hv; [|done]. intros _; eauto. }
  destruct (bool_decide (c = "+"%char)); cbn [orb].
  { destruct (unsignedValue s) as [un|] eqn:Hv; [|done]. intros _; eauto. }
  destruct (unsignedValue (String c s)) as [un|] eqn:Hv; [|done]. intros _.
  by apply digitsValue_allDigits in Hv.
Qed.

(** An interval that [parseReloadInterval] accepts is never negative,
    so that the check of [Validate] on the interval cannot fail for a
    value that comes from the Caddyfile. *)
Theorem parsed_interval_not_negative intervalStr hours :
  parseReloadInterval intSize intervalStr = inr hours →
  0 ≤ hours
  ∧ ∀ g, ReloadInterval g = hours → (ReloadInterval g <? 0) = false.
Proof.
  intros Hparse.
  assert (Hpos : 0 ≤ hours).
  { unfold parseReloadInterval in Hparse.
    repeat (case_match; simplify_eq; try lia). }
  split; [done|]. intros g ->. by apply Z.ltb_ge.
Qed.

(** [parseReloadInterval] accepts its nine keywords and numerals, and
    nothing else: a number with a unit such as [12h] or [2d] is
    refused, although the logs print the interval as [24h]. *)
Theorem parsed_interval_is_keyword_or_numeral intervalStr hours :
  parseReloadInterval intSize intervalStr = inr hours →
  intervalStr ∈ intervalKeywords ∨ isNumeral intervalStr = true.
Proof.
  unfold parseReloadInterval, intervalKeywords.
  repeat (case_bool_decide as Hk;
          [subst intervalStr; intros _; left; in_list | clear Hk]).
  simpl. destruct (Atoi intSize intervalStr) as [n|] eqn:Ha; [|done].
  intros _. right. by apply (Atoi_isNumeral _ n).
Qed.

End Interval.

Lemma parsed_interval_not_negative_witness :
  parseReloadInterval 64 "48" = inr 48
  ∧ parseReloadInterval 64 "-5"
    = inl (errorString "reload interval cannot be negative")
  ∧ 0 ≤ 48.
Proof.
  split; [vm_compute; reflexivity|]. split; [vm_compute; reflexivity|].
  apply (parsed_interval_not_negative 64 "48" 48). vm_compute; reflexivity.
Defined.

Lemma parsed_interval_is_keyword_or_numeral_witness :
  parseReloadInterval 64 "weekly" = inr 168
  ∧ parseReloadInterval 64 "12h"
    = inl (errorString
             "invalid format, use 'daily', 'weekly', 'off', or number of hours")
  ∧ ("weekly" ∈ intervalKeywords ∨ isNumeral "weekly" = true).
Proof.
  split; [vm_compute; reflexivity|]. split; [vm_compute; reflexivity|].
  apply (parsed_interval_is_keyword_or_numeral 64 "weekly" 168).
  vm_compute; reflexivity.
Defined.

(** ** The default paths *)

(** [setDefaults] fills in the three mandatory paths that are empty and
    keeps those that are set, so that none is empty afterwards; the ASN
    path, which has no default, the interval and the handlers are left
    alone, and a second call changes nothing. *)
Theorem setDefaults_fills_mandatory_paths g :
  CountryDatabasePath (setDefaults g) ≠ ""
  ∧ CityDatabasePath (setDefaults g) ≠ ""
  ∧ GlobalCityDatabasePath (setDefaults g) ≠ ""
  ∧ (CountryDatabasePath g ≠ "" →
     CountryDatabasePath (setDefaults g) = CountryDatabasePath g)
  ∧ (CityDatabasePath g ≠ "" →
     CityDatabasePath (setDefaults g) = CityDatabasePath g)
  ∧ (GlobalCityDatabasePath g ≠ "" →
     GlobalCityDatabasePath (setDefaults g) = GlobalCityDatabasePath g)
  ∧ ASNDatabasePath (setDefaults g) = ASNDatabasePath g
  ∧ ReloadInterval (setDefaults g) = ReloadInterval g
  ∧ (∀ s, slotHandler (setDefaults g) s = slotHandler g s)
  ∧ setDefaults (setDefaults g) = setDefaults g.
Proof.
  unfold setDefaults; simpl. split_and!.
  - by case_bool_decide.
  - by case_bool_decide.
  - by case_bool_decide.
  - intros Hne. by rewrite bool_decide_eq_false_2.
  - intros Hne. by rewrite bool_decide_eq_false_2.
  - intros Hne. by rewrite bool_decide_eq_false_2.
  - done.
  - done.
  - by intros [].
  - f_equal; repeat case_bool_decide; simplify_eq; done.
Qed.

(** ** Loading and reloading *)

Section Heap.

Lemma closeReader_lookup p h j :
  closeReader p h !! j
  = if decide (p = Some j) then closeObj <$> h !! j else h !! j.
Proof.
  destruct p as [i|]; unfold closeReader, Heap, handle in *.
  - rewrite list_lookup_alter.
    destruct (decide (i = j)), (decide (Some i = Some j)); simplify_eq; done.
  - by destruct (decide (None = Some j)).
Qed.

Lemma closeReader_length p h :
  List.length (closeReader p h) = List.length h.
Proof.
  destruct p; unfold closeReader, Heap, handle in *;
    [apply length_alter|done].
Qed.

Lemma boundTo_spec g j :
  boundTo g j = true ↔ ∃ s, slotHandler g s = Some j.
Proof.
  unfold boundTo. rewrite !orb_true_iff, !bool_decide_eq_true. split.
  - intros [[[?|?]|?]|?];
      [by exists Country|by exists RegionCity|by exists GlobalCity
      |by exists Network].
  - intros [[] Hs]; simpl in Hs; tauto.
Qed.

(** Closing the old databases closes just them. *)
Lemma closeOld_lookup g h j :
  closeOld g h !! j
  = if boundTo g j then closeObj <$> h !! j else h !! j.
Proof.
  unfold closeOld, boundTo. rewrite !closeReader_lookup.
  destruct (h !! j) as [o|];
    repeat case_decide; repeat case_bool_decide; simplify_eq; done.
Qed.

Lemma closeOld_length g h : List.length (closeOld g h) = List.length h.
Proof. unfold closeOld. by rewrite !closeReader_length. Qed.

Lemma wellFormed_lt h g s p :
  wellFormed h g → slotHandler g s = Some p → (p < List.length h)%nat.
Proof.
  intros Hwf Hs. destruct (Hwf s p Hs) as (o & Ho & _).
  by apply lookup_lt_Some in Ho.
Qed.

End Heap.

(** The reader at a position that is known up to arithmetic. *)
Ltac at_index n :=
  match goal with
  | |- context [ _ !! ?i ] => replace i with n by (simpl; lia)
  end;
  simpl; by eexists.

Section Load.
Context (fs : FileSystem).

Lemma openReader_opens path h rd :
  maxminddb_Open fs path = inr rd →
  openReader fs path h
  = (inr (List.length h), (h ++ [mkReaderObj rd false])%list).
Proof. unfold openReader. by intros ->. Qed.

(** The load, in one piece. *)
Lemma loadDatabase_loaded h g country city :
  validateDatabaseFile fs (CountryDatabasePath g) = None →
  validateDatabaseFile fs (CityDatabasePath g) = None →
  maxminddb_Open fs (CountryDatabasePath g) = inr country →
  maxminddb_Open fs (CityDatabasePath g) = inr city →
  loadDatabase fs h g
  = (None, loadedHeap fs h g country city, loadedState fs h g).
Proof.
  intros Hv1 Hv2 Ho1 Ho2.
  unfold loadDatabase, loadedHeap, loadedState, asnCandidate.
  rewrite Hv1, Hv2.
  rewrite (openReader_opens _ h country Ho1).
  rewrite (openReader_opens _ _ city Ho2).
  unfold openReader.
  destruct (maxminddb_Open fs (GlobalCityDatabasePath g)) as [e|gl];
    case_bool_decide; simpl;
    try destruct (validateDatabaseFile fs (ASNDatabasePath g));
    try destruct (maxminddb_Open fs (ASNDatabasePath g)); simpl;
    rewrite ?length_app; simpl; rewrite <- ?app_assoc; simpl;
    unfold closeOld;
    repeat f_equal; lia.
Qed.

Lemma loadDatabase_ok_iff h g :
  (loadDatabase fs h g).1.1 = None ↔
  loadable fs (CountryDatabasePath g) ∧ loadable fs (CityDatabasePath g).
Proof.
  split.
  - unfold loadDatabase, loadable, openReader.
    destruct (validateDatabaseFile fs (CountryDatabasePath g)); [done|].
    destruct (validateDatabaseFile fs (CityDatabasePath g)); [done|].
    destruct (maxminddb_Open fs (CountryDatabasePath g)) as [|rd1]; [done|].
    destruct (maxminddb_Open fs (CityDatabasePath g)) as [|rd2]; [done|].
    intros _. split; (split; [done|by eexists]).
  - intros [[Hv1 [rd1 Ho1]] [Hv2 [rd2 Ho2]]].
    by rewrite (loadDatabase_loaded h g rd1 rd2).
Qed.

(** A load succeeds exactly when the Country and the Europe city file
    each validate (a regular file of at least 1 MiB) and open as a
    database; the global city and the ASN file never make it fail. *)
Theorem load_succeeds_iff h g :
  (loadDatabase fs h g).1.1 = None ↔
  (validateDatabaseFile fs (CountryDatabasePath g) = None
   ∧ ∃ rd, maxminddb_Open fs (CountryDatabasePath g) = inr rd)
  ∧ (validateDatabaseFile fs (CityDatabasePath g) = None
     ∧ ∃ rd, maxminddb_Open fs (CityDatabasePath g) = inr rd).
Proof. apply loadDatabase_ok_iff. Qed.

Lemma validateDatabaseFile_ok path :
  validateDatabaseFile fs path = None ↔
  ∃ size, os_Stat fs path = StatInfo true size ∧ 1048576 ≤ size.
Proof.
  unfold validateDatabaseFile.
  destruct (os_Stat fs path) as [| |isRegular size].
  - split; [done|]. by intros (? & ? & _).
  - split; [done|]. by intros (? & ? & _).
  - destruct isRegular; simpl.
    + destruct (size <? 1024 * 1024) eqn:Hs.
      * apply Z.ltb_lt in Hs. split; [done|].
        intros (? & [= <-] & ?). lia.
      * apply Z.ltb_ge in Hs. split; [|done].
        intros _. exists size. split; [done|lia].
    + split; [done|]. by intros (? & [= ?] & _).
Qed.

Lemma loadDatabase_success h g h' g' :
  loadDatabase fs h g = (None, h', g') →
  ∃ country city,
    maxminddb_Open fs (CountryDatabasePath g) = inr country
    ∧ maxminddb_Open fs (CityDatabasePath g) = inr city
    ∧ h' = loadedHeap fs h g country city
    ∧ g' = loadedState fs h g.
Proof.
  intros Hload.
  assert (Hok : (loadDatabase fs h g).1.1 = None) by by rewrite Hload.
  apply loadDatabase_ok_iff in Hok as [[Hv1 [rd1 Ho1]] [Hv2 [rd2 Ho2]]].
  rewrite (loadDatabase_loaded h g rd1 rd2) in Hload by done.
  exists rd1, rd2. by simplify_eq.
Qed.

(** The new readers sit behind the old heap. *)
Lemma loadedHeap_new h g country city j :
  wellFormed h g →
  (List.length h ≤ j)%nat →
  loadedHeap fs h g country city !! j
  = ([mkReaderObj country false; mkReaderObj city false]
       ++ optionalReader (maxminddb_Open fs (GlobalCityDatabasePath g))
       ++ optionalReader (asnCandidate fs g))%list !! (j - List.length h)%nat.
Proof.
  intros Hwf Hj. unfold loadedHeap. rewrite closeOld_lookup.
  destruct (boundTo g j) eqn:Hb.
  - apply boundTo_spec in Hb as [s Hs].
    apply (wellFormed_lt h g s j Hwf) in Hs. lia.
  - unfold Heap, handle in *. by rewrite lookup_app_r by done.
Qed.

Lemma loadedHeap_old h g country city j :
  (j < List.length h)%nat →
  loadedHeap fs h g country city !! j
  = if boundTo g j then closeObj <$> h !! j else h !! j.
Proof.
  intros Hj. unfold loadedHeap. rewrite closeOld_lookup.
  unfold Heap, handle in *. by rewrite lookup_app_l by done.
Qed.

Lemma loadDatabase_wellFormed h g :
  wellFormed h g →
  wellFormed (loadDatabase fs h g).1.2 (loadDatabase fs h g).2
  ∧ ((loadDatabase fs h g).1.1 = None →
     bound (loadDatabase fs h g).2 Country = true
     ∧ bound (loadDatabase fs h g).2 RegionCity = true).
Proof.
  intros Hwf.
  destruct (loadDatabase fs h g) as [[[err|] h'] g'] eqn:Hload; simpl.
  - split; [|done].
    (* a failed load leaves the handlers and appends at most one reader *)
    assert (g' = g ∧ ∃ added, h' = (h ++ added)%list) as [-> [added ->]].
    { unfold loadDatabase, openReader in Hload.
      repeat (case_match; simplify_eq);
        (split; [done|]);
        first [by exists []; rewrite app_nil_r | by eexists]. }
    intros s p Hs. destruct (Hwf s p Hs) as (o & Ho & Hopen).
    exists o. split; [|done]. by apply lookup_app_l_Some.
  - apply loadDatabase_success in Hload
      as (country & city & Ho1 & Ho2 & -> & ->).
    split; [|done].
    intros s p Hs. unfold handlerOpen.
    rewrite loadedHeap_new; [|done|].
    + unfold loadedState in Hs.
      destruct s; simpl in Hs; simplify_eq.
      * at_index 0%nat.
      * at_index 1%nat.
      * destruct (maxminddb_Open fs (GlobalCityDatabasePath g)) as [|gl];
          simpl in *; simplify_eq.
        at_index 2%nat.
      * destruct (asnCandidate fs g) as [|an]; simpl in *; simplify_eq.
        destruct (maxminddb_Open fs (GlobalCityDatabasePath g)) as [|gl];
          simpl.
        -- at_index 2%nat.
        -- at_index 3%nat.
    + unfold loadedState in Hs.
      destruct s; simpl in Hs.
      * simplify_eq. lia.
      * simplify_eq. lia.
      * destruct (maxminddb_Open fs (GlobalCityDatabasePath g));
          simpl in Hs; simplify_eq. lia.
      * destruct (asnCandidate fs g); simpl in Hs; simplify_eq. lia.
Qed.

(** Whatever a load does, every bound handler points to an open reader
    afterwards if it did before: a lookup never meets a closed
    database. After a successful load the Country and the Europe city
    slot are bound. *)
Theorem load_keeps_handlers_open h g :
  wellFormed h g →
  wellFormed (loadDatabase fs h g).1.2 (loadDatabase fs h g).2
  ∧ ((loadDatabase fs h g).1.1 = None →
     bound (loadDatabase fs h g).2 Country = true
     ∧ bound (loadDatabase fs h g).2 RegionCity = true).
Proof. apply loadDatabase_wellFormed. Qed.

(** A load never unbinds the Country or the Europe city slot. *)
Lemma loadDatabase_keeps_bound h g s :
  s = Country ∨ s = RegionCity →
  bound g s = true → bound (loadDatabase fs h g).2 s = true.
Proof.
  intros Hs Hb.
  destruct (loadDatabase fs h g) as [[[err|] h'] g'] eqn:Hload; simpl.
  - assert (g' = g) as ->; [|done].
    unfold loadDatabase, openReader in Hload.
    repeat (case_match; simplify_eq); done.
  - apply loadDatabase_success in Hload as (? & ? & _ & _ & _ & ->).
    by destruct Hs as [-> | ->].
Qed.

Lemma slotOutcome_at {A} (decode : Reader → IP → error + A) h g s p o ip :
  slotHandler g s = Some p → h !! p = Some o → obj_closed o = false →
  slotOutcome decode h g s ip
  = match decode (obj_reader o) ip with
    | inr rec => Some rec
    | inl _ => None
    end.
Proof.
  intros Hs Ho Hopen. unfold slotOutcome, Reader_Lookup.
  by rewrite Hs, Ho, Hopen.
Qed.

(** After a successful load the lookups are answered by the databases
    that were just opened, and the paths and the interval are what
    they were. *)
Theorem reload_answers_from_new_databases h g h' g' :
  wellFormed h g →
  loadDatabase fs h g = (None, h', g') →
  ∃ country city,
    maxminddb_Open fs (CountryDatabasePath g) = inr country
    ∧ maxminddb_Open fs (CityDatabasePath g) = inr city
    ∧ (∀ ip,
         countryOutcome h' g' ip
         = match decodeCountry country ip with
           | inr rec => Some rec
           | inl _ => None
           end
         ∧ slotOutcome decodeCity h' g' RegionCity ip
           = match decodeCity city ip with
             | inr rec => Some rec
             | inl _ => None
             end)
    ∧ CountryDatabasePath g' = CountryDatabasePath g
    ∧ CityDatabasePath g' = CityDatabasePath g
    ∧ GlobalCityDatabasePath g' = GlobalCityDatabasePath g
    ∧ ASNDatabasePath g' = ASNDatabasePath g
    ∧ ReloadInterval g' = ReloadInterval g.
Proof.
  intros Hwf Hload.
  apply loadDatabase_success in Hload
    as (country & city & Ho1 & Ho2 & -> & ->).
  exists country, city. split_and!; try done.
  intros ip. split.
  - apply (slotOutcome_at _ _ _ Country (List.length h)
             (mkReaderObj country false)); [done| |done].
    rewrite loadedHeap_new by done. by rewrite Nat.sub_diag.
  - apply (slotOutcome_at _ _ _ RegionCity (S (List.length h))
             (mkReaderObj city false)); [done| |done].
    rewrite loadedHeap_new by (done || lia).
    by replace (S (List.length h) - List.length h)%nat with 1%nat by lia.
Qed.

Lemma loadDatabase_optional h g h' g' :
  loadDatabase fs h g = (None, h', g') →
  (bound g' GlobalCity = true ↔
   ∃ rd, maxminddb_Open fs (GlobalCityDatabasePath g) = inr rd)
  ∧ (bound g' Network = true ↔
     ASNDatabasePath g ≠ ""
     ∧ validateDatabaseFile fs (ASNDatabasePath g) = None
     ∧ ∃ rd, maxminddb_Open fs (ASNDatabasePath g) = inr rd).
Proof.
  intros Hload.
  apply loadDatabase_success in Hload as (country & city & _ & _ & _ & ->).
  unfold bound, loadedState, asnCandidate; simpl.
  rewrite !bool_decide_eq_true. split.
  - destruct (maxminddb_Open fs (GlobalCityDatabasePath g)) as [e|rd]; simpl.
    + split; [done|]. by intros [? ?].
    + split; [by eexists|done].
  - case_bool_decide as Hpath; simpl.
    + destruct (validateDatabaseFile fs (ASNDatabasePath g)); simpl.
      { split; [done|]. by intros (_ & ? & _). }
      destruct (maxminddb_Open fs (ASNDatabasePath g)) as [e|rd]; simpl.
      * split; [done|]. by intros (_ & _ & ? & ?).
      * split; [|done]. intros _. split_and!; [done..|by eexists].
    + split; [done|]. intros (? & _). tauto.
Qed.

(** The two optional databases are treated differently. The global
    city database is bound whenever it opens, even when its file did
    not validate; the ASN database is bound only when its path is set,
    its file validates and it opens. *)
Theorem optional_slots_after_load h g h' g' :
  loadDatabase fs h g = (None, h', g') →
  (bound g' GlobalCity = true ↔
   ∃ rd, maxminddb_Open fs (GlobalCityDatabasePath g) = inr rd)
  ∧ (bound g' Network = true ↔
     ASNDatabasePath g ≠ ""
     ∧ validateDatabaseFile fs (ASNDatabasePath g) = None
     ∧ ∃ rd, maxminddb_Open fs (ASNDatabasePath g) = inr rd).
Proof. apply loadDatabase_optional. Qed.

(** A successful load closes every reader that was bound before it and
    leaves any other reader as it was. *)
Theorem reload_closes_old_readers h g h' g' :
  wellFormed h g →
  loadDatabase fs h g = (None, h', g') →
  (∀ s p, slotHandler g s = Some p → handlerClosed h' p)
  ∧ (∀ j o, h !! j = Some o → boundTo g j = false → h' !! j = Some o).
Proof.
  intros Hwf Hload.
  apply loadDatabase_success in Hload
    as (country & city & Ho1 & Ho2 & -> & ->).
  split.
  - intros s p Hs. destruct (Hwf s p Hs) as (o & Ho & _).
    exists (closeObj o). split; [|done].
    rewrite loadedHeap_old by (by apply lookup_lt_Some in Ho).
    assert (boundTo g p = true) as -> by (apply boundTo_spec; eauto).
    unfold Heap, handle in *. by rewrite Ho.
  - intros j o Ho Hfree.
    rewrite loadedHeap_old by (by apply lookup_lt_Some in Ho).
    by rewrite Hfree.
Qed.

(** When the Europe city database fails to open after the Country
    database was opened, the load fails with the state unchanged, and
    the reader just opened for the Country database stays behind, open
    and with no handler that refers to it. *)
Theorem failed_city_open_leaves_reader_open h g country err :
  wellFormed h g →
  validateDatabaseFile fs (CountryDatabasePath g) = None →
  validateDatabaseFile fs (CityDatabasePath g) = None →
  maxminddb_Open fs (CountryDatabasePath g) = inr country →
  maxminddb_Open fs (CityDatabasePath g) = inl err →
  ∃ e,
    loadDatabase fs h g
    = (Some e, (h ++ [mkReaderObj country false])%list, g)
    ∧ boundTo g (List.length h) = false.
Proof.
  intros Hwf Hv1 Hv2 Ho1 Ho2. unfold loadDatabase.
  rewrite Hv1, Hv2, (openReader_opens _ h country Ho1).
  rewrite (openReader_fails fs _ _ err Ho2).
  eexists. split; [done|].
  destruct (boundTo g (List.length h)) eqn:Hb; [|done].
  apply boundTo_spec in Hb as [s Hs].
  apply (wellFormed_lt h g s _ Hwf) in Hs. lia.
Qed.

End Load.

Lemma wellFormed_sample : wellFormed Sample.heap Sample.full.
Proof.
  intros s p Hs.
  destruct s; simpl in Hs; simplify_eq; by eexists.
Qed.

Lemma load_keeps_handlers_open_witness :
  wellFormed Sample.heap Sample.full
  ∧ wellFormed (loadDatabase Sample.fsAllThere Sample.heap Sample.full).1.2
      (loadDatabase Sample.fsAllThere Sample.heap Sample.full).2.
Proof.
  split; [apply wellFormed_sample|].
  apply (load_keeps_handlers_open Sample.fsAllThere Sample.heap Sample.full).
  apply wellFormed_sample.
Defined.

Lemma load_result_eta (res : option error * Heap * GeoIP2State) :
  res.1.1 = None → res = (None, res.1.2, res.2).
Proof. destruct res as [[err h] g]; simpl. by intros ->. Qed.

(** The country database whose lookups fail is replaced by one that
    knows the address from Munich. *)
Lemma reload_answers_from_new_databases_witness :
  countryOutcome Sample.heapCountryBroken Sample.full Sample.ipMunich = None
  ∧ countryOutcome
      (loadDatabase Sample.fsAllThere Sample.heapCountryBroken Sample.full).1.2
      (loadDatabase Sample.fsAllThere Sample.heapCountryBroken Sample.full).2
      Sample.ipMunich
    = Some Sample.germany.
Proof.
  split; [by vm_compute|].
  assert (Hwf : wellFormed Sample.heapCountryBroken Sample.full).
  { intros s p Hs. destruct s; simpl in Hs; simplify_eq; by eexists. }
  destruct (reload_answers_from_new_databases Sample.fsAllThere
              Sample.heapCountryBroken Sample.full _ _ Hwf
              (load_result_eta
                 (loadDatabase Sample.fsAllThere Sample.heapCountryBroken
                    Sample.full) eq_refl))
    as (country & city & Ho1 & _ & Hanswer & _).
  rewrite (proj1 (Hanswer Sample.ipMunich)).
  vm_compute in Ho1. injection Ho1 as <-.
  vm_compute. reflexivity.
Defined.

(** The global city file is missing: the load succeeds and leaves the
    slot unbound. *)
Lemma optional_slots_after_load_witness :
  (loadDatabase Sample.fsGlobalMissing Sample.heap Sample.full).1.1 = None
  ∧ bound (loadDatabase Sample.fsGlobalMissing Sample.heap Sample.full).2
      GlobalCity = false
  ∧ (bound (loadDatabase Sample.fsGlobalMissing Sample.heap Sample.full).2
       GlobalCity = true ↔
     ∃ rd, maxminddb_Open Sample.fsGlobalMissing
             (GlobalCityDatabasePath Sample.full) = inr rd).
Proof.
  split; [by vm_compute|]. split; [by vm_compute|].
  apply (optional_slots_after_load Sample.fsGlobalMissing Sample.heap
           Sample.full _ _
           (load_result_eta
              (loadDatabase Sample.fsGlobalMissing Sample.heap Sample.full)
              eq_refl)).
Defined.

Lemma reload_closes_old_readers_witness :
  handlerOpen Sample.heap 0%nat
  ∧ handlerClosed
      (loadDatabase Sample.fsAllThere Sample.heap Sample.full).1.2 0%nat.
Proof.
  split; [by eexists|].
  apply (proj1 (reload_closes_old_readers Sample.fsAllThere Sample.heap
                  Sample.full _ _ wellFormed_sample
                  (load_result_eta
                     (loadDatabase Sample.fsAllThere Sample.heap Sample.full)
                     eq_refl)) Country).
  reflexivity.
Defined.

Lemma failed_city_open_leaves_reader_open_witness :
  ∃ e,
    loadDatabase Sample.fsCityCorrupt Sample.heap Sample.full
    = (Some e, (Sample.heap ++ [mkReaderObj Sample.countryDB false])%list,
       Sample.full)
    ∧ boundTo Sample.full (List.length Sample.heap) = false.
Proof.
  apply (failed_city_open_leaves_reader_open Sample.fsCityCorrupt Sample.heap
           Sample.full Sample.countryDB
           (errorString "invalid MaxMind DB file") wellFormed_sample);
    vm_compute; reflexivity.
Defined.

(** ** Validation of the configuration *)

Section StateValidate.
Context (fs : FileSystem).

Lemma closeReader_new h added i :
  closeReader (Some (List.length h + i)%nat) (h ++ added)%list
  = (h ++ closeReader (Some i) added)%list.
Proof. unfold closeReader, Heap, handle in *. apply alter_app_r. Qed.

Lemma closeReader_first h added :
  closeReader (Some (List.length h)) (h ++ added)%list
  = (h ++ closeReader (Some 0%nat) added)%list.
Proof. by rewrite <- (closeReader_new h added 0), Nat.add_0_r. Qed.

(** [Validate] leaves no database open: whether it accepts the
    configuration or not, the heap afterwards is the heap before
    followed by the readers it opened, every one of them closed. *)
Theorem validate_closes_what_it_opens h g :
  ∃ added,
    (State_Validate fs h g).2 = (h ++ added)%list
    ∧ ∀ o, o ∈ added → obj_closed o = true.
Proof.
  unfold State_Validate, openReader.
  assert (Hnone : ∃ added : list ReaderObj,
            h = (h ++ added)%list ∧ ∀ o, o ∈ added → obj_closed o = true).
  { exists []. split; [by rewrite app_nil_r|]. by intros o ?%elem_of_nil. }
  repeat (case_match; simplify_eq; try exact Hnone).
  - (* the city database does not open *)
    rewrite closeReader_first. eexists. split; [done|].
    simpl. intros o ->%list_elem_of_singleton. done.
  - (* the global city database does not open *)
    rewrite length_app, <- app_assoc.
    rewrite closeReader_new, closeReader_first. eexists. split; [done|].
    simpl. by intros o [->| ->%list_elem_of_singleton]%elem_of_cons.
  - (* all three open *)
    rewrite !length_app, <- !app_assoc, <- Nat.add_assoc.
    rewrite !closeReader_new, closeReader_first. eexists. split; [done|].
    simpl.
    by intros o [->|[->| ->%list_elem_of_singleton]%elem_of_cons]%elem_of_cons.
Qed.

Lemma State_Validate_ok h g :
  (State_Validate fs h g).1 = None →
  CountryDatabasePath g ≠ "" ∧ CityDatabasePath g ≠ ""
  ∧ GlobalCityDatabasePath g ≠ "" ∧ 0 ≤ ReloadInterval g
  ∧ loadable fs (CountryDatabasePath g)
  ∧ loadable fs (CityDatabasePath g)
  ∧ loadable fs (GlobalCityDatabasePath g).
Proof.
  unfold State_Validate, loadable, openReader.
  repeat case_bool_decide; try done.
  destruct (ReloadInterval g <? 0) eqn:Hi; [done|]. apply Z.ltb_ge in Hi.
  destruct (validateDatabaseFile fs (CountryDatabasePath g)); [done|].
  destruct (validateDatabaseFile fs (CityDatabasePath g)); [done|].
  destruct (validateDatabaseFile fs (GlobalCityDatabasePath g)); [done|].
  destruct (maxminddb_Open fs (CountryDatabasePath g)); [done|].
  destruct (maxminddb_Open fs (CityDatabasePath g)); [done|].
  destruct (maxminddb_Open fs (GlobalCityDatabasePath g)); [done|].
  intros _. split_and!; try done; by eexists.
Qed.

(** A configuration that [Validate] accepts loads, on the same files:
    [loadDatabase] succeeds, from any heap, and binds the Country, the
    Europe city and the global city slot. *)
Theorem validated_configuration_loads h g h0 :
  (State_Validate fs h g).1 = None →
  (loadDatabase fs h0 g).1.1 = None
  ∧ bound (loadDatabase fs h0 g).2 Country = true
  ∧ bound (loadDatabase fs h0 g).2 RegionCity = true
  ∧ bound (loadDatabase fs h0 g).2 GlobalCity = true.
Proof.
  intros (_ & _ & _ & _ & Hco & Hci & [_ Hgl])%State_Validate_ok.
  assert (Hok : (loadDatabase fs h0 g).1.1 = None)
    by by apply loadDatabase_ok_iff.
  pose proof (load_result_eta _ Hok) as Hload.
  destruct (loadDatabase_success fs h0 g _ _ Hload)
    as (country & city & _ & _ & _ & Hg).
  split_and!; [done|by rewrite Hg..|].
  by apply (loadDatabase_optional fs h0 g _ _ Hload).
Qed.

(** After [setDefaults], [Validate] never complains about a missing
    path. *)
Lemma State_Validate_after_setDefaults h g msg :
  (State_Validate fs h (setDefaults g)).1 = Some (errorString msg) →
  msg ≠ "country_database_path is required"
  ∧ msg ≠ "city_database_path is required"
  ∧ msg ≠ "global_city_database_path is required".
Proof.
  unfold State_Validate.
  rewrite !bool_decide_eq_false_2
    by (unfold setDefaults; simpl; by case_bool_decide).
  repeat case_match; simpl; intros [= <-]; split_and!; discriminate.
Qed.

End StateValidate.

Lemma validated_configuration_loads_witness :
  (State_Validate Sample.fsAllThere [] Sample.full).1 = None
  ∧ (loadDatabase Sample.fsAllThere Sample.heap Sample.full).1.1 = None
  ∧ bound (loadDatabase Sample.fsAllThere Sample.heap Sample.full).2
      GlobalCity = true.
Proof.
  split; [by vm_compute|].
  destruct (validated_configuration_loads Sample.fsAllThere [] Sample.full
              Sample.heap) as (Hok & _ & _ & Hgl); [by vm_compute|].
  split; [exact Hok | exact Hgl].
Defined.

(** ** Stopping *)

Section Stopping.

Lemma closeOld_unbound g h : closeOld (unbound g) h = h.
Proof. reflexivity. Qed.

Lemma bound_unbound g s : bound (unbound g) s = false.
Proof. by destruct s. Qed.

Lemma slotsQueried_unbound g eu : slotsQueried (unbound g) eu = [].
Proof.
  unfold slotsQueried, citySlot. rewrite !bound_unbound.
  by rewrite andb_false_r.
Qed.

(** [Stop] closes every database that was bound, leaves the other
    readers alone and unbinds the four slots; a request that is served
    afterwards queries nothing. *)
Theorem stop_closes_and_unbinds done h g :
  done ≠ ChanClosed →
  wellFormed h g →
  ∃ done',
    Stop done h g = Done (done', closeOld g h, unbound g)
    ∧ (∀ s, slotHandler (unbound g) s = None)
    ∧ (∀ s p, slotHandler g s = Some p → handlerClosed (closeOld g h) p)
    ∧ (∀ j o, h !! j = Some o → boundTo g j = false →
              closeOld g h !! j = Some o)
    ∧ ∀ lib mode r c,
        queries (served lib (closeOld g h) (mkGeoIP2 mode (Some (unbound g)))
                   r c)
        = queries c.
Proof.
  intros Hdone Hwf.
  exists (match done with ChanNil => ChanNil | _ => ChanClosed end).
  split_and!.
  - by destruct done.
  - by intros [].
  - intros s p Hs. destruct (Hwf s p Hs) as (o & Ho & _).
    exists (closeObj o). split; [|done].
    rewrite closeOld_lookup.
    assert (boundTo g p = true) as -> by (apply boundTo_spec; eauto).
    unfold Heap, handle in *. by rewrite Ho.
  - intros j o Ho Hfree. by rewrite closeOld_lookup, Hfree.
  - intros lib mode r c.
    destruct (lookupRuns lib (mkGeoIP2 mode (Some (unbound g))) r) eqn:Hrun.
    + destruct (lookupRuns_true _ _ _ Hrun) as (Hen & g' & ip & Hst & Hip).
      rewrite (served_run lib _ _ g' r ip c Hen Hst Hip); simpl.
      simpl in Hst. injection Hst as <-.
      rewrite slotsQueried_unbound. apply app_nil_r.
    + by rewrite (served_skip lib _ _ r c Hrun).
Qed.

(** Without a reload timer a second [Stop] does nothing more. With a
    timer, which [Start] makes whenever the interval is positive, the
    first [Stop] closes the [done] channel and a second [Stop] closes
    it again, which panics. *)
Theorem stop_twice h g :
  Stop ChanNil h g = Done (ChanNil, closeOld g h, unbound g)
  ∧ Stop ChanNil (closeOld g h) (unbound g)
    = Done (ChanNil, closeOld g h, unbound g)
  ∧ Stop ChanOpen h g = Done (ChanClosed, closeOld g h, unbound g)
  ∧ Stop ChanClosed (closeOld g h) (unbound g)
    = Panic "close of closed channel"
  ∧ ∀ fs done h' g' done',
      StartTimer fs done h g = (None, done', h', g') →
      0 < ReloadInterval g →
      done' = ChanOpen.
Proof.
  split_and!; try done.
  intros fs done h' g' done' Hstart Hpos. unfold StartTimer, Start in Hstart.
  destruct (loadDatabase fs h g) as [[[err|] h1] g1] eqn:Hload; [done|].
  destruct (loadDatabase_success fs h g h1 g1 Hload)
    as (_ & _ & _ & _ & _ & Hg).
  injection Hstart as <- _ _.
  assert (ReloadInterval g1 = ReloadInterval g) as -> by by rewrite Hg.
  by apply Z.ltb_lt in Hpos as ->.
Qed.

End Stopping.

Lemma stop_closes_and_unbinds_witness :
  handlerOpen Sample.heap 3%nat
  ∧ handlerClosed (closeOld Sample.full Sample.heap) 3%nat
  ∧ queries (served Sample.lib (closeOld Sample.full Sample.heap)
               (Sample.handler "strict" (unbound Sample.full))
               Sample.fromMunich Sample.fresh) = [].
Proof.
  split; [by eexists|].
  destruct (stop_closes_and_unbinds ChanOpen Sample.heap Sample.full)
    as (done' & _ & _ & Hclosed & _ & Hq); [done|apply wellFormed_sample|].
  split.
  - by apply (Hclosed Network).
  - apply (Hq Sample.lib "strict" Sample.fromMunich Sample.fresh).
Defined.

(** ** The status report *)

Section Status.

Lemma metadataInfo_unbound pre h info :
  metadataInfo pre h None info = info.
Proof. reflexivity. Qed.

(** [GetDatabaseInfo] reports for each slot whether it is bound, and
    for the Country, the Europe city and the global city slot the type
    and the build time of the database when it is; for the ASN slot it
    reports no metadata at all, bound or not. *)
Theorem status_reports_bound_slots h g :
  GetDatabaseInfo h g !! "country_loaded" = Some (IBool (bound g Country))
  ∧ GetDatabaseInfo h g !! "city_loaded" = Some (IBool (bound g RegionCity))
  ∧ GetDatabaseInfo h g !! "global_city_loaded"
    = Some (IBool (bound g GlobalCity))
  ∧ GetDatabaseInfo h g !! "asn_loaded" = Some (IBool (bound g Network))
  ∧ (∀ p o, CountryDBHandler g = Some p → h !! p = Some o →
       GetDatabaseInfo h g !! "country_database_type"
       = Some (IString (DatabaseType (rd_Metadata (obj_reader o))))
       ∧ GetDatabaseInfo h g !! "country_build_epoch"
         = Some (IInt (BuildEpoch (rd_Metadata (obj_reader o)))))
  ∧ (CountryDBHandler g = None →
     GetDatabaseInfo h g !! "country_database_type" = None
     ∧ GetDatabaseInfo h g !! "country_build_epoch" = None)
  ∧ GetDatabaseInfo h g !! "asn_database_type" = None
  ∧ GetDatabaseInfo h g !! "asn_build_epoch" = None.
Proof.
  unfold GetDatabaseInfo, metadataInfo, bound. simpl slotHandler.
  split_and!.
  1-4, 7-8:
    destruct (GlobalCityDBHandler g) as [p3|]; [destruct (h !! p3)|];
    (destruct (CityDBHandler g) as [p2|]; [destruct (h !! p2)|]);
    (destruct (CountryDBHandler g) as [p1|]; [destruct (h !! p1)|]);
    vm_compute; reflexivity.
  - intros p o Hp Ho.
    destruct (GlobalCityDBHandler g) as [p3|]; [destruct (h !! p3)|];
    (destruct (CityDBHandler g) as [p2|]; [destruct (h !! p2)|]);
    rewrite Hp; unfold Heap, handle in *; rewrite Ho;
    split; vm_compute; reflexivity.
  - intros ->.
    destruct (GlobalCityDBHandler g) as [p3|]; [destruct (h !! p3)|];
    (destruct (CityDBHandler g) as [p2|]; [destruct (h !! p2)|]);
    split; vm_compute; reflexivity.
Qed.

End Status.

(** ** Addresses given as strings *)

Section LookupArgument.
Context {A : Type} (lib : GoLib) (slot : Slot) (notLoaded : string)
  (decode : Reader → IP → error + A) (h : Heap).

(** The lookups of the state take the address as a [net.IP] or as a
    string. A string that parses is looked up like its address; one
    that does not parse, or an argument of another type, is an error
    and the database is not queried; and when the slot is not bound,
    that is the error, whatever the argument. *)
Theorem lookup_argument_kinds field p c :
  (∀ ip,
     State_lookup_arg lib slot field notLoaded decode h (ArgIP ip)
     = State_lookup slot field notLoaded decode h ip)
  ∧ (∀ v ip, ParseIP lib v = Some ip →
       State_lookup_arg lib slot field notLoaded decode h (ArgString v)
       = State_lookup slot field notLoaded decode h ip)
  ∧ (∀ v, ParseIP lib v = None →
       State_lookup_arg lib slot (Some p) notLoaded decode h (ArgString v) c
       = (inl (errorString ("invalid IP address: " ++ v)), c))
  ∧ (∀ typeName,
       State_lookup_arg lib slot (Some p) notLoaded decode h
         (ArgOther typeName) c
       = (inl (errorString ("unsupported IP type: " ++ typeName)), c))
  ∧ (∀ arg,
       State_lookup_arg lib slot None notLoaded decode h arg c
       = (inl (errorString notLoaded), c)).
Proof.
  split_and!.
  - intros ip. by destruct field.
  - intros v ip Hv. unfold State_lookup_arg, State_lookup.
    destruct field; [|done]. by rewrite Hv.
  - intros v Hv. unfold State_lookup_arg. by rewrite Hv.
  - done.
  - done.
Qed.

End LookupArgument.

(** * The earlier handler *)

Section LegacyHandler.
Context (lib : GoLib).

Lemma legacy_rangeSetCity entries c :
  Legacy.rangeSetCity entries c
  = (tt,
     if bool_decide (rangeFirstNonEmpty entries ≠ "")
     then mkCtx (<[VarCity := VString (rangeFirstNonEmpty entries)]> (vars c))
            (queries c)
     else c).
Proof.
  induction entries as [|[locale name] rest IH]; simpl.
  - by destruct c.
  - destruct (bool_decide (name ≠ "")) eqn:Hname; simpl.
    + by rewrite Hname.
    + apply IH.
Qed.

(** What a request leaves behind, by the answer of its lookup. *)
Lemma legacy_served_answer m r c :
  Legacy.served lib m r c
  = match Legacy.answer lib m r with
    | None => mkCtx (initialized (vars c)) (queries c)
    | Some (inl _) =>
        mkCtx (initialized (vars c)) (queries c ++ [GlobalCity])
    | Some (inr record) =>
        snd (Legacy.setGeoIPVariables lib record
               (mkCtx (initialized (vars c)) (queries c ++ [GlobalCity])))
    end.
Proof.
  unfold Legacy.answer, Legacy.served, Legacy.ServeHTTP,
    Legacy.performLookup, Legacy.Lookup, bind.
  rewrite initializeVariables_run.
  destruct (isEnabled (Legacy.mode m)); [|done].
  destruct (Legacy.state m) as [g|]; [|done].
  destruct (Legacy.DBHandler g) as [rd|]; [|done].
  destruct (getClientIP lib (Legacy.mode m) r) as [|ip]; [done|].
  unfold query, ret; simpl.
  destruct (Legacy.Reader_Lookup rd ip) as [|rec]; [done|].
  by destruct (Legacy.setGeoIPVariables lib rec _).
Qed.

Lemma legacy_served_found m r c record :
  Legacy.found lib m r = Some record →
  Legacy.served lib m r c
  = snd (Legacy.setGeoIPVariables lib record
           (mkCtx (initialized (vars c)) (queries c ++ [GlobalCity]))).
Proof.
  unfold Legacy.found. rewrite legacy_served_answer.
  destruct (Legacy.answer lib m r) as [[|rec]|]; try done.
  by intros [= ->].
Qed.

(** In the earlier handler no variable is set before the lookup has
    succeeded. A request that does not get as far as the lookup
    (lookups disabled, no state or database, malformed address) queries
    nothing, and one whose lookup returns an error has queried the
    database once; either way every one of the eight variables keeps
    the empty string. *)
Theorem legacy_failed_lookup_keeps_defaults m r c :
  Legacy.found lib m r = None →
  vars (Legacy.served lib m r c) = initialized (vars c)
  ∧ (∀ k, k ∈ allVars →
       vars (Legacy.served lib m r c) !! k = Some (VString ""))
  ∧ (Legacy.answer lib m r = None →
     queries (Legacy.served lib m r c) = queries c)
  ∧ (∀ err, Legacy.answer lib m r = Some (inl err) →
       queries (Legacy.served lib m r c)
       = (queries c ++ [GlobalCity])%list).
Proof.
  unfold Legacy.found. intros Hnone. rewrite legacy_served_answer.
  destruct (Legacy.answer lib m r) as [[err|rec]|]; [|done|]; simpl.
  - split_and!; [done| |done|done].
    intros k Hk. by apply initialized_lookup.
  - split_and!; [done| |done|done].
    intros k Hk. by apply initialized_lookup.
Qed.

(** In the earlier handler a record that is found sets the country
    code, the EU flag of the country alone, the coordinates and the AS
    fields as they are; the city is the English name if it is not
    empty, else the first non-empty name of the enumeration, German
    having no precedence; the subdivision is the first listed code. *)
Theorem legacy_found_record_sets_variables m r c record :
  Legacy.found lib m r = Some record →
  vars (Legacy.served lib m r c) !! VarCountryCode
  = Some (VString (Legacy.Country_ISOCode record))
  ∧ vars (Legacy.served lib m r c) !! VarIsInEU
    = Some (VBool (Legacy.Country_IsInEuropeanUnion record))
  ∧ vars (Legacy.served lib m r c) !! VarLatitude
    = Some (VFloat64 (Legacy.Location_Latitude record))
  ∧ vars (Legacy.served lib m r c) !! VarLongitude
    = Some (VFloat64 (Legacy.Location_Longitude record))
  ∧ vars (Legacy.served lib m r c) !! VarASN
    = Some (VUint64 (Legacy.Traits_AutonomousSystemNumber record))
  ∧ vars (Legacy.served lib m r c) !! VarASOrg
    = Some (VString (Legacy.Traits_AutonomousSystemOrganization record))
  ∧ vars (Legacy.served lib m r c) !! VarCity
    = Some (VString
              (if existsNonEmpty (Legacy.City_Names record !! "en")
               then default "" (Legacy.City_Names record !! "en")
               else rangeFirstNonEmpty
                      (mapRange lib (Legacy.City_Names record))))
  ∧ vars (Legacy.served lib m r c) !! VarSubdivisions
    = Some (VString (hd "" (Legacy.Subdivisions record))).
Proof.
  intros Hfound. rewrite (legacy_served_found m r c record Hfound).
  unfold Legacy.setGeoIPVariables, bind.
  assert (Hcity : ∀ c0,
    (if existsNonEmpty (Legacy.City_Names record !! "en")
     then Set_ VarCity
            (VString (default "" (Legacy.City_Names record !! "en")))
     else Legacy.rangeSetCity (mapRange lib (Legacy.City_Names record))) c0
    = (tt,
       if existsNonEmpty (Legacy.City_Names record !! "en")
          || bool_decide (rangeFirstNonEmpty
                            (mapRange lib (Legacy.City_Names record)) ≠ "")
       then mkCtx (<[VarCity :=
                       VString
                         (if existsNonEmpty
                               (Legacy.City_Names record !! "en")
                          then default "" (Legacy.City_Names record !! "en")
                          else rangeFirstNonEmpty
                                 (mapRange lib (Legacy.City_Names record)))]>
                     (vars c0)) (queries c0)
       else c0)).
  { intros c0.
    destruct (existsNonEmpty (Legacy.City_Names record !! "en")); [done|].
    apply legacy_rangeSetCity. }
  simpl. rewrite Hcity. clear Hcity.
  set (city := if existsNonEmpty (Legacy.City_Names record !! "en")
               then default "" (Legacy.City_Names record !! "en")
               else rangeFirstNonEmpty
                      (mapRange lib (Legacy.City_Names record))).
  assert (Hempty :
    existsNonEmpty (Legacy.City_Names record !! "en")
    || bool_decide (rangeFirstNonEmpty
                      (mapRange lib (Legacy.City_Names record)) ≠ "")
    = false → city = "").
  { subst city. intros [-> Hr]%orb_false_iff.
    apply bool_decide_eq_false in Hr.
    by destruct (decide (rangeFirstNonEmpty
                           (mapRange lib (Legacy.City_Names record)) = "")). }
  destruct (existsNonEmpty (Legacy.City_Names record !! "en")
            || bool_decide (rangeFirstNonEmpty
                              (mapRange lib (Legacy.City_Names record)) ≠ ""));
    [clear Hempty | rewrite (Hempty eq_refl)];
    (destruct (Legacy.Subdivisions record) as [|isoCode rest];
     [|destruct (decide (isoCode = "")) as [->|Hne];
       [rewrite bool_decide_eq_false_2 by tauto
       |rewrite bool_decide_eq_true_2 by done]]);
    simpl; unfold initialized; unfold_vars;
    split_and!;
    repeat (rewrite lookup_insert_ne by discriminate);
    by rewrite lookup_insert_eq.
Qed.

End LegacyHandler.

(** The database fails on the address from Boston: it was queried, and
    the latitude is still the empty string. *)
Lemma legacy_failed_lookup_keeps_defaults_witness :
  Legacy.found Sample.lib (Sample.legacyHandler "strict") Sample.fromBoston
  = None
  ∧ vars (Legacy.served Sample.lib (Sample.legacyHandler "strict")
            Sample.fromBoston Sample.fresh) !! VarLatitude
    = Some (VString "")
  ∧ queries (Legacy.served Sample.lib (Sample.legacyHandler "strict")
               Sample.fromBoston Sample.fresh)
    = [GlobalCity].
Proof.
  split; [by vm_compute|].
  destruct (legacy_failed_lookup_keeps_defaults Sample.lib
              (Sample.legacyHandler "strict") Sample.fromBoston Sample.fresh)
    as (_ & Hvars & _ & Hq); [by vm_compute|].
  split.
  - apply Hvars. unfold allVars. in_list.
  - apply (Hq (errorString "lookup failed")). by vm_compute.
Defined.

(** An address the database does not hold is no failed lookup: the zero
    record is found, and the EU flag, the coordinates and the AS number
    are [false] and zero instead of the empty string. *)
Example legacy_unknown_address_is_found :
  Legacy.found Sample.lib
    (Legacy.mkGeoIP2 "strict"
       (Some (Legacy.mkGeoIP2State (Some Sample.legacyZeroDB))))
    Sample.fromBoston
  = Some Legacy.zeroRecord
  ∧ (λ k, vars (Legacy.served Sample.lib
                  (Legacy.mkGeoIP2 "strict"
                     (Some (Legacy.mkGeoIP2State (Some Sample.legacyZeroDB))))
                  Sample.fromBoston Sample.fresh) !! k) <$> allVars
    = [Some (VString ""); Some (VString ""); Some (VFloat64 0);
       Some (VFloat64 0); Some (VString ""); Some (VBool false);
       Some (VUint64 0); Some (VString "")].
Proof. split; vm_compute; reflexivity. Qed.

(** The names of Munich hold a German and an English one; the earlier
    handler reports the English one. *)
Lemma legacy_found_record_sets_variables_witness :
  Legacy.found Sample.lib (Sample.legacyHandler "strict") Sample.fromMunich
  = Some Sample.legacyMunich
  ∧ vars (Legacy.served Sample.lib (Sample.legacyHandler "strict")
            Sample.fromMunich Sample.fresh) !! VarCity
    = Some (VString "Munich").
Proof.
  split; [by vm_compute|].
  destruct (legacy_found_record_sets_variables Sample.lib
              (Sample.legacyHandler "strict") Sample.fromMunich Sample.fresh
              Sample.legacyMunich) as (_ & _ & _ & _ & _ & _ & Hcity & _);
    [by vm_compute|].
  rewrite Hcity. vm_compute. reflexivity.
Defined.

(** * Across reloads and requests *)

Lemma performScheduledReload_load fs h g :
  performScheduledReload fs h g
  = ((loadDatabase fs h g).1.2, (loadDatabase fs h g).2).
Proof.
  unfold performScheduledReload. by destruct (loadDatabase fs h g) as [[? ?] ?].
Qed.

(** Once the Country and the Europe city database are bound, as they are
    after a successful [Start], no sequence of scheduled reloads, failing
    or not, unbinds them or leaves a bound handler on a closed reader:
    every later request whose lookup runs queries the Country
    database. *)
Theorem mandatory_databases_survive_reloads ticks h g :
  wellFormed h g →
  bound g Country = true →
  bound g RegionCity = true →
  wellFormed (reloads ticks h g).1 (reloads ticks h g).2
  ∧ bound (reloads ticks h g).2 Country = true
  ∧ bound (reloads ticks h g).2 RegionCity = true
  ∧ ∀ lib mode r c,
      lookupRuns lib (mkGeoIP2 mode (Some (reloads ticks h g).2)) r = true →
      Country ∈ queries (served lib (reloads ticks h g).1
                           (mkGeoIP2 mode (Some (reloads ticks h g).2)) r c).
Proof.
  revert h g. induction ticks as [|fs rest IH]; intros h g Hwf Hco Hci.
  - simpl. split_and!; [done..|].
    intros lib mode r c Hrun.
    destruct (lookupRuns_true _ _ _ Hrun) as (Hen & g' & ip & Hst & Hip).
    rewrite (served_run lib h _ g' r ip c Hen Hst Hip); simpl.
    simpl in Hst. injection Hst as <-.
    unfold slotsQueried. rewrite Hco.
    apply elem_of_app. right. by left.
  - simpl. rewrite performScheduledReload_load.
    apply IH.
    + by apply loadDatabase_wellFormed.
    + apply loadDatabase_keeps_bound; [by left|done].
    + apply loadDatabase_keeps_bound; [by right|done].
Qed.

(** A reload that works, one during which the country file is missing,
    and one during which the Europe city file is corrupt. *)
Lemma mandatory_databases_survive_reloads_witness :
  wellFormed Sample.heap Sample.full
  ∧ bound (reloads [Sample.fsAllThere; Sample.fsCountryMissing;
                    Sample.fsCityCorrupt] Sample.heap Sample.full).2
      Country = true
  ∧ Country ∈ queries
      (served Sample.lib
         (reloads [Sample.fsAllThere; Sample.fsCountryMissing;
                   Sample.fsCityCorrupt] Sample.heap Sample.full).1
         (mkGeoIP2 "strict"
            (Some (reloads [Sample.fsAllThere; Sample.fsCountryMissing;
                            Sample.fsCityCorrupt] Sample.heap Sample.full).2))
         Sample.fromMunich Sample.fresh).
Proof.
  split; [apply wellFormed_sample|].
  destruct (mandatory_databases_survive_reloads
              [Sample.fsAllThere; Sample.fsCountryMissing; Sample.fsCityCorrupt]
              Sample.heap Sample.full wellFormed_sample eq_refl eq_refl)
    as (_ & Hco & _ & Hq).
  split; [exact Hco|].
  apply Hq. vm_compute. reflexivity.
Defined.

(** A request queries each database at most once, at most three of them,
    and in the order Country, city, ASN. *)
Theorem databases_queried_in_order lib h m r c :
  ∃ qs,
    queries (served lib h m r c) = (queries c ++ qs)%list
    ∧ qs `sublist_of` [Country; RegionCity; GlobalCity; Network]
    ∧ NoDup qs
    ∧ (List.length qs ≤ 3)%nat.
Proof.
  destruct (lookupRuns lib m r) eqn:Hrun.
  - destruct (lookupRuns_true lib m r Hrun) as (Hen & g & ip & Hst & Hip).
    rewrite (served_run lib h m g r ip c Hen Hst Hip); simpl.
    eexists. split; [done|].
    unfold slotsQueried, citySlot.
    destruct (bound g Country), (bound g Network),
      (euFlag (countryOutcome h g ip)), (bound g RegionCity),
      (bound g GlobalCity); simpl;
      (split_and!;
       [repeat first [apply sublist_nil_l | apply sublist_skip
                     | apply sublist_cons]
       |apply (bool_decide_unpack _); by vm_compute
       |lia]).
  - rewrite (served_skip lib h m r c Hrun); simpl.
    exists []. rewrite app_nil_r. split_and!; [done| | |simpl; lia].
    + apply sublist_nil_l.
    + constructor.
Qed.

(** * Two requests, an enumeration each

    Go draws the order of a map's entries anew at every [range]. A
    comparison of two requests therefore serves the first under the
    enumeration of [lib] and the second under any other enumeration
    [rng]. Nothing but the city name depends on it. *)

Section Enumerations.
Context (lib : GoLib) (h : Heap).
Implicit Types rng : gmap string string → list (string * string).

Lemma getClientIP_withRange rng m r :
  getClientIP (withRange lib rng) m r = getClientIP lib m r.
Proof. reflexivity. Qed.

Lemma lookupRuns_withRange rng m r :
  lookupRuns (withRange lib rng) m r = lookupRuns lib m r.
Proof. reflexivity. Qed.

Lemma lookupRuns_clientIP m r1 r2 :
  getClientIP lib m r1 = getClientIP lib m r2 →
  lookupRuns lib m r1 = lookupRuns lib m r2.
Proof. unfold lookupRuns. by intros ->. Qed.

(** Seven of the eight variables do not depend on the library at all,
    nor on what the variables held before. *)
Lemma merged_but_city lib' co ci an vs vs' k :
  k ∈ allVars → k ≠ VarCity →
  merged lib co ci an vs !! k = merged lib' co ci an vs' !! k.
Proof.
  unfold allVars. rewrite !elem_of_cons, elem_of_nil.
  intros Hk Hcity. destruct_or!; try done; subst k;
    by rewrite ?merged_CountryCode, ?merged_IsInEU, ?merged_Latitude,
         ?merged_Longitude, ?merged_Subdivisions, ?merged_ASN,
         ?merged_ASOrg.
Qed.

(** Two requests with the same client address, the second served under
    the enumeration [rng] and from another replacer: the same slots are
    queried, every variable but the city is the same, and the city is
    the same when the two enumerations select the same name of the
    record that is found. *)
Lemma served_enumerations rng m r1 r2 c1 c2 :
  getClientIP lib m r1 = getClientIP lib m r2 →
  (∀ k, k ∉ allVars → vars c1 !! k = vars c2 !! k) →
  (∃ qs,
     queries (served lib h m r1 c1) = (queries c1 ++ qs)%list
     ∧ queries (served (withRange lib rng) h m r2 c2)
       = (queries c2 ++ qs)%list)
  ∧ (∀ k, k ≠ VarCity →
       vars (served lib h m r1 c1) !! k
       = vars (served (withRange lib rng) h m r2 c2) !! k)
  ∧ ((∀ names, cityNamesFound lib h m r1 = Some names →
        selectCityName (withRange lib rng) names
        = selectCityName lib names) →
     vars (served lib h m r1 c1)
     = vars (served (withRange lib rng) h m r2 c2)).
Proof.
  intros Hip Hrest.
  assert (Hruns : lookupRuns (withRange lib rng) m r2 = lookupRuns lib m r1).
  { rewrite lookupRuns_withRange. symmetry. by apply lookupRuns_clientIP. }
  destruct (lookupRuns lib m r1) eqn:Hrun.
  - destruct (lookupRuns_true lib m r1 Hrun) as (Hen & g & ip & Hst & Hip1).
    assert (Hip2 : getClientIP (withRange lib rng) m r2 = inr ip).
    { by rewrite getClientIP_withRange, <- Hip. }
    rewrite (served_run lib h m g r1 ip c1 Hen Hst Hip1).
    rewrite (served_run (withRange lib rng) h m g r2 ip c2 Hen Hst Hip2).
    simpl.
    set (co := countryOutcome h g ip).
    set (ci := cityOutcome h g (euFlag co) ip).
    assert (Hbut : ∀ k, k ≠ VarCity →
      merged lib co ci (asnOutcome h g ip) (initialized (vars c1)) !! k
      = merged (withRange lib rng) co ci (asnOutcome h g ip)
          (initialized (vars c2)) !! k).
    { intros k Hk. destruct (decide (k ∈ allVars)) as [Hin|Hout].
      - by apply merged_but_city.
      - rewrite !merged_other, !initialized_other by done. by apply Hrest. }
    split_and!.
    + by eexists.
    + exact Hbut.
    + intros Hsel. apply map_eq. intros k.
      destruct (decide (k = VarCity)) as [->|Hk]; [|by apply Hbut].
      rewrite !merged_City. do 2 f_equal.
      destruct ci as [rec|] eqn:Hci; [|done]. simpl. symmetry.
      apply Hsel. unfold cityNamesFound.
      rewrite Hen, Hst, Hip1. fold co. subst ci. by rewrite Hci.
  - rewrite (served_skip lib h m r1 c1 Hrun).
    rewrite (served_skip (withRange lib rng) h m r2 c2 Hruns). simpl.
    assert (Hinit : ∀ k,
      initialized (vars c1) !! k = initialized (vars c2) !! k).
    { intros k. destruct (decide (k ∈ allVars)) as [Hin|Hout].
      - by rewrite !initialized_lookup.
      - rewrite !initialized_other by done. by apply Hrest. }
    split_and!.
    + exists []. by rewrite !app_nil_r.
    + intros k _. apply Hinit.
    + intros _. apply map_eq, Hinit.
Qed.

(** The names that leave no choice are selected alike by every
    enumeration. *)
Lemma fixedChoice_selected rng names :
  range_enumerates lib → range_enumerates (withRange lib rng) →
  fixedChoice names →
  selectCityName (withRange lib rng) names = selectCityName lib names.
Proof. intros Hr Hr' Hfixed. by apply selectCityName_deterministic. Qed.

(** One enumeration for both requests. *)
Lemma withRange_same :
  ∀ names,
    selectCityName (withRange lib (mapRange lib)) names
    = selectCityName lib names.
Proof. reflexivity. Qed.

End Enumerations.

Lemma withRange_id lib : withRange lib (mapRange lib) = lib.
Proof. by destruct lib. Qed.

Lemma Ctx_eq (c1 c2 : Ctx) :
  vars c1 = vars c2 → queries c1 = queries c2 → c1 = c2.
Proof. destruct c1, c2; simpl. by intros -> ->. Qed.

Section SameAddress.
Context (lib : GoLib) (h : Heap).
Implicit Types rng : gmap string string → list (string * string).

(** Two requests with the same client address, served from the same
    replacer. Under one enumeration they leave the same behind; under
    an enumeration each they query the same slots and agree on every
    variable but the city, and on the city as well when the names of
    the record that is found leave no choice. *)
Lemma same_address_served rng m r1 r2 c :
  getClientIP lib m r1 = getClientIP lib m r2 →
  (served lib h m r1 c = served lib h m r2 c
   ∧ ∀ next, ServeHTTP lib h m r1 next c = ServeHTTP lib h m r2 next c)
  ∧ queries (served lib h m r1 c)
    = queries (served (withRange lib rng) h m r2 c)
  ∧ (∀ k, k ≠ VarCity →
       vars (served lib h m r1 c) !! k
       = vars (served (withRange lib rng) h m r2 c) !! k)
  ∧ (range_enumerates lib → range_enumerates (withRange lib rng) →
     (∀ names, cityNamesFound lib h m r1 = Some names → fixedChoice names) →
     served lib h m r1 c = served (withRange lib rng) h m r2 c
     ∧ ∀ next,
         ServeHTTP lib h m r1 next c
         = ServeHTTP (withRange lib rng) h m r2 next c).
Proof.
  intros Hip.
  assert (Hsame : served lib h m r1 c = served lib h m r2 c).
  { unfold served, ServeHTTP.
    by rewrite (performLookup_clientIP lib h m r1 r2 Hip). }
  destruct (served_enumerations lib h rng m r1 r2 c c Hip)
    as ((qs & Hq1 & Hq2) & Hbut & Hall); [done|].
  assert (Hq : queries (served lib h m r1 c)
               = queries (served (withRange lib rng) h m r2 c))
    by by rewrite Hq1, Hq2.
  split_and!.
  - done.
  - intros next. by rewrite !ServeHTTP_next, Hsame.
  - done.
  - done.
  - intros Hr Hr' Hfixed.
    assert (Heach : served lib h m r1 c
                    = served (withRange lib rng) h m r2 c).
    { apply Ctx_eq; [|done]. apply Hall. intros names Hnames.
      apply fixedChoice_selected; auto. }
    split; [done|]. intros next. by rewrite !ServeHTTP_next, Heach.
Qed.

(** C9 (as amended). In strict mode the [X-Forwarded-For] header has no
    influence: two requests that differ at most in that header get the
    same client address, computed from [RemoteAddr] alone, query the same
    databases and leave the same seven variables other than the city.
    The city is the same as well whenever both requests meet the same
    enumeration of the names, or the names of the city record leave no
    choice (a German or English name, or one distinct non-empty name);
    otherwise the city depends on the order in which each request
    happens to enumerate the names, as it does for two requests that do
    not differ at all. *)
Theorem strict_ignores_forwarded_for rng m r1 r2 c :
  getSafetyLevel lib m = Strict →
  same_but_forwarded_for r1 r2 →
  (getClientIP lib m r1 = getClientIP (withRange lib rng) m r2
   ∧ getClientIP lib m r1
     = match SplitHostPort lib (RemoteAddr r1) with
       | inr (host, _) => parseClientIP lib host
       | inl (AddrError e a) =>
           if bool_decide (e = "missing port in address")
           then parseClientIP lib (RemoteAddr r1)
           else inl (AddrError e a)
       | inl err => inl err
       end)
  ∧ (served lib h m r1 c = served lib h m r2 c
     ∧ (∀ k, k ∈ allVars →
          vars (served lib h m r1 c) !! k = vars (served lib h m r2 c) !! k)
     ∧ ∀ next, ServeHTTP lib h m r1 next c = ServeHTTP lib h m r2 next c)
  ∧ queries (served lib h m r1 c)
    = queries (served (withRange lib rng) h m r2 c)
  ∧ (∀ k, k ≠ VarCity →
       vars (served lib h m r1 c) !! k
       = vars (served (withRange lib rng) h m r2 c) !! k)
  ∧ (range_enumerates lib → range_enumerates (withRange lib rng) →
     (∀ names, cityNamesFound lib h m r1 = Some names → fixedChoice names) →
     served lib h m r1 c = served (withRange lib rng) h m r2 c
     ∧ ∀ next,
         ServeHTTP lib h m r1 next c
         = ServeHTTP (withRange lib rng) h m r2 next c).
Proof.
  intros Hstrict (Hremote & _ & _).
  assert (Hip : getClientIP lib m r1 = getClientIP lib m r2).
  { rewrite !getClientIP_strict by done. by rewrite Hremote. }
  destruct (same_address_served rng m r1 r2 c Hip)
    as ((Hsame & Hnext) & Hq & Hbut & Heach).
  split_and!; try done.
  - by apply getClientIP_strict.
  - intros k _. by rewrite Hsame.
Qed.

(** In the default mode a peer that is not a trusted proxy cannot set
    the client address: the [X-Forwarded-For] header it sends has no
    influence on the address, on the databases that are queried nor on
    the variables. Two requests that differ in that header only leave
    the same behind under one enumeration of the city names; under an
    enumeration each they agree on every variable but the city, and on
    the city too when the names of the record leave no choice. *)
Theorem untrusted_peer_cannot_forward rng m r1 r2 c :
  getSafetyLevel lib m = TrustedProxies →
  TrustedProxyVar r1 = false →
  same_but_forwarded_for r1 r2 →
  getClientIP lib m r1 = getClientIP (withRange lib rng) m r2
  ∧ served lib h m r1 c = served lib h m r2 c
  ∧ queries (served lib h m r1 c)
    = queries (served (withRange lib rng) h m r2 c)
  ∧ (∀ k, k ≠ VarCity →
       vars (served lib h m r1 c) !! k
       = vars (served (withRange lib rng) h m r2 c) !! k)
  ∧ (range_enumerates lib → range_enumerates (withRange lib rng) →
     (∀ names, cityNamesFound lib h m r1 = Some names → fixedChoice names) →
     served lib h m r1 c = served (withRange lib rng) h m r2 c).
Proof.
  intros Hlevel Huntrusted (Hremote & Htrusted & _).
  assert (Hip : getClientIP lib m r1 = getClientIP lib m r2).
  { rewrite !getClientIP_remote.
    - by rewrite Hremote.
    - left. unfold trustsForwardedFor.
      by rewrite Hlevel, <- Htrusted, Huntrusted.
    - left. unfold trustsForwardedFor. by rewrite Hlevel, Huntrusted. }
  destruct (same_address_served rng m r1 r2 c Hip)
    as ((Hsame & _) & Hq & Hbut & Heach).
  split_and!; try done.
  intros Hr Hr' Hfixed. by apply Heach.
Qed.

(** What the eight variables held before the request does not matter.
    Two replacers that agree on all other variables hold the same
    variables after the request when it meets the same enumeration of
    the city names in both; under an enumeration each they agree on
    every variable but the city, and on the city too when the names of
    the record leave no choice. A value left by an earlier request
    never survives. *)
Theorem previous_values_overwritten rng m r c1 c2 :
  (∀ k, k ∉ allVars → vars c1 !! k = vars c2 !! k) →
  vars (served lib h m r c1) = vars (served lib h m r c2)
  ∧ (∀ k, k ≠ VarCity →
       vars (served lib h m r c1) !! k
       = vars (served (withRange lib rng) h m r c2) !! k)
  ∧ (range_enumerates lib → range_enumerates (withRange lib rng) →
     (∀ names, cityNamesFound lib h m r = Some names → fixedChoice names) →
     vars (served lib h m r c1)
     = vars (served (withRange lib rng) h m r c2)).
Proof.
  intros Hrest.
  destruct (served_enumerations lib h rng m r r c1 c2 eq_refl Hrest)
    as (_ & Hbut & Hall).
  destruct (served_enumerations lib h (mapRange lib) m r r c1 c2 eq_refl
              Hrest) as (_ & _ & Hone).
  rewrite withRange_id in Hone.
  split_and!; [by apply Hone|done|].
  intros Hr Hr' Hfixed. apply Hall. intros names Hnames.
  apply fixedChoice_selected; auto.
Qed.

End SameAddress.

Lemma range_enumerates_withRange_reversed :
  range_enumerates (withRange Sample.lib Sample.reversed).
Proof. apply range_enumerates_reversed. Qed.

Lemma same_but_forged remote forged :
  same_but_forwarded_for (Sample.request remote [])
    (Sample.request remote [forged]).
Proof.
  split; [reflexivity|]. split; [reflexivity|].
  intros key Hkey. simpl.
  rewrite lookup_empty. symmetry. by apply lookup_singleton_ne.
Qed.

(** The city record of the address from Munich in [Sample.heap] has a
    German name. *)
Lemma munich_fixedChoice m r :
  cityNamesFound Sample.lib Sample.heap m r = Some Sample.munichNames →
  ∀ names,
    cityNamesFound Sample.lib Sample.heap m r = Some names → fixedChoice names.
Proof.
  intros -> names [= <-]. left. vm_compute. reflexivity.
Qed.

(** A request from Munich, with and without a forged header that names an
    address in Boston, the second one served under the enumeration that
    runs backwards. *)
Lemma strict_ignores_forwarded_for_witness :
  getSafetyLevel Sample.lib (Sample.handler "strict" Sample.full) = Strict
  ∧ Header_Get (Header (Sample.request "81.2.69.142:4711" ["23.4.5.6"]))
      "X-Forwarded-For" = "23.4.5.6"
  ∧ getClientIP Sample.lib (Sample.handler "strict" Sample.full)
      (Sample.request "81.2.69.142:4711" [])
    = getClientIP (withRange Sample.lib Sample.reversed)
        (Sample.handler "strict" Sample.full)
        (Sample.request "81.2.69.142:4711" ["23.4.5.6"])
  ∧ served Sample.lib Sample.heap (Sample.handler "strict" Sample.full)
      (Sample.request "81.2.69.142:4711" []) Sample.fresh
    = served (withRange Sample.lib Sample.reversed) Sample.heap
        (Sample.handler "strict" Sample.full)
        (Sample.request "81.2.69.142:4711" ["23.4.5.6"]) Sample.fresh.
Proof.
  split; [vm_compute; reflexivity|].
  split; [vm_compute; reflexivity|].
  destruct (strict_ignores_forwarded_for Sample.lib Sample.heap
              Sample.reversed (Sample.handler "strict" Sample.full)
              (Sample.request "81.2.69.142:4711" [])
              (Sample.request "81.2.69.142:4711" ["23.4.5.6"]) Sample.fresh)
    as ((Hip & _) & _ & _ & _ & Heach).
  - vm_compute; reflexivity.
  - apply same_but_forged.
  - split; [exact Hip|].
    apply Heach.
    + apply range_enumerates_sample.
    + apply range_enumerates_withRange_reversed.
    + apply munich_fixedChoice. vm_compute. reflexivity.
Defined.

(** C9, the counterexample. The Europe city database has the city of the
    address under a French and an Italian name only. The two requests
    differ in the [X-Forwarded-For] header alone and the mode is strict;
    the first meets one enumeration of the names, the second another,
    and [geoip2_city] differs. *)
Lemma strict_city_varies_with_enumeration :
  getSafetyLevel Sample.lib (Sample.handler "strict" Sample.full) = Strict
  ∧ same_but_forwarded_for (Sample.request "81.2.69.142:4711" [])
      (Sample.request "81.2.69.142:4711" ["23.4.5.6"])
  ∧ range_enumerates Sample.lib
  ∧ range_enumerates (withRange Sample.lib Sample.reversed)
  ∧ vars (served Sample.lib Sample.heapLocal
            (Sample.handler "strict" Sample.full)
            (Sample.request "81.2.69.142:4711" []) Sample.fresh) !! VarCity
    = Some (VString "Monaco di Baviera")
  ∧ vars (served (withRange Sample.lib Sample.reversed) Sample.heapLocal
            (Sample.handler "strict" Sample.full)
            (Sample.request "81.2.69.142:4711" ["23.4.5.6"]) Sample.fresh)
      !! VarCity
    = Some (VString "Munich")
  ∧ ¬ (∀ k, k ∈ allVars →
         vars (served Sample.lib Sample.heapLocal
                 (Sample.handler "strict" Sample.full)
                 (Sample.request "81.2.69.142:4711" []) Sample.fresh) !! k
         = vars (served (withRange Sample.lib Sample.reversed)
                   Sample.heapLocal (Sample.handler "strict" Sample.full)
                   (Sample.request "81.2.69.142:4711" ["23.4.5.6"])
                   Sample.fresh) !! k).
Proof.
  split; [vm_compute; reflexivity|].
  split; [apply same_but_forged|].
  split; [apply range_enumerates_sample|].
  split; [apply range_enumerates_withRange_reversed|].
  split; [vm_compute; reflexivity|].
  split; [vm_compute; reflexivity|].
  intros Hall. specialize (Hall VarCity).
  assert (Hin : VarCity ∈ allVars) by (unfold allVars; in_list).
  specialize (Hall Hin). vm_compute in Hall. discriminate.
Qed.

(** A peer that is not a trusted proxy names an address in Boston. *)
Lemma untrusted_peer_cannot_forward_witness :
  getClientIP Sample.lib (Sample.handler "trusted_proxies" Sample.full)
    (Sample.relayed "81.2.69.142:4711" "23.4.5.6" false)
  = inr Sample.ipMunich
  ∧ served Sample.lib Sample.heap
      (Sample.handler "trusted_proxies" Sample.full)
      (Sample.request "81.2.69.142:4711" []) Sample.fresh
    = served (withRange Sample.lib Sample.reversed) Sample.heap
        (Sample.handler "trusted_proxies" Sample.full)
        (Sample.relayed "81.2.69.142:4711" "23.4.5.6" false) Sample.fresh.
Proof.
  split; [vm_compute; reflexivity|].
  refine (proj2 (proj2 (proj2 (proj2
            (untrusted_peer_cannot_forward Sample.lib Sample.heap
               Sample.reversed
               (Sample.handler "trusted_proxies" Sample.full)
               (Sample.request "81.2.69.142:4711" [])
               (Sample.relayed "81.2.69.142:4711" "23.4.5.6" false)
               Sample.fresh _ _ _)))) _ _ _).
  - vm_compute; reflexivity.
  - reflexivity.
  - apply same_but_forged.
  - apply range_enumerates_sample.
  - apply range_enumerates_withRange_reversed.
  - apply munich_fixedChoice. vm_compute. reflexivity.
Defined.

(** The stale city [Paris] is gone, whatever the enumeration. *)
Lemma previous_values_overwritten_witness :
  vars Sample.busy !! VarCity = Some (VString "Paris")
  ∧ vars (served Sample.lib Sample.heap (Sample.handler "strict" Sample.full)
            Sample.fromMunich
            (mkCtx {[ "http.request.host" := VString "example.org" ]} []))
    = vars (served (withRange Sample.lib Sample.reversed) Sample.heap
              (Sample.handler "strict" Sample.full) Sample.fromMunich
              Sample.busy).
Proof.
  split; [vm_compute; reflexivity|].
  refine (proj2 (proj2
            (previous_values_overwritten Sample.lib Sample.heap
               Sample.reversed (Sample.handler "strict" Sample.full)
               Sample.fromMunich _ Sample.busy _)) _ _ _).
  - intros k Hk. simpl.
    apply not_allVars in Hk as (Hcity & _).
    unfold VarCity in Hcity.
    destruct (decide (k = "http.request.host")) as [->|Hne].
    + vm_compute. reflexivity.
    + rewrite lookup_singleton_ne by done.
      rewrite lookup_insert_ne by done.
      rewrite lookup_insert_ne by done. by rewrite lookup_empty.
  - apply range_enumerates_sample.
  - apply range_enumerates_withRange_reversed.
  - apply munich_fixedChoice. vm_compute. reflexivity.
Defined.

(** * Loads that fail *)

Section LoadFailures.
Context (fs : FileSystem).

(** Readers that are appended behind a well-formed heap are not seen
    by the lookups nor by the status report. *)
Lemma slotOutcome_app {A} (decode : Reader → IP → error + A)
    h added g s ip :
  wellFormed h g →
  slotOutcome decode (h ++ added)%list g s ip = slotOutcome decode h g s ip.
Proof.
  intros Hwf. unfold slotOutcome, Reader_Lookup.
  destruct (slotHandler g s) as [p|] eqn:Hs; [|done].
  destruct (Hwf s p Hs) as (o & Ho & _).
  unfold Heap, handle in *.
  by rewrite (lookup_app_l_Some _ _ _ _ Ho), Ho.
Qed.

Lemma served_app lib h added mode g r c :
  wellFormed h g →
  served lib (h ++ added)%list (mkGeoIP2 mode (Some g)) r c
  = served lib h (mkGeoIP2 mode (Some g)) r c.
Proof.
  intros Hwf. set (m := mkGeoIP2 mode (Some g)).
  destruct (lookupRuns lib m r) eqn:Hrun.
  - destruct (lookupRuns_true lib m r Hrun) as (Hen & g' & ip & Hst & Hip).
    injection Hst as <-.
    rewrite !(served_run lib _ m g r ip c Hen eq_refl Hip). simpl.
    unfold countryOutcome, cityOutcome, asnOutcome.
    rewrite !slotOutcome_app by done.
    destruct (citySlot g _); by rewrite ?slotOutcome_app.
  - by rewrite !(served_skip lib _ m r c Hrun).
Qed.

Lemma metadataInfo_app pre h added g s info :
  wellFormed h g →
  metadataInfo pre (h ++ added)%list (slotHandler g s) info
  = metadataInfo pre h (slotHandler g s) info.
Proof.
  intros Hwf. unfold metadataInfo.
  destruct (slotHandler g s) as [p|] eqn:Hs; [|done].
  destruct (Hwf s p Hs) as (o & Ho & _).
  unfold Heap, handle in *.
  by rewrite (lookup_app_l_Some _ _ _ _ Ho), Ho.
Qed.

Lemma GetDatabaseInfo_app h added g :
  wellFormed h g →
  GetDatabaseInfo (h ++ added)%list g = GetDatabaseInfo h g.
Proof.
  intros Hwf. unfold GetDatabaseInfo.
  change (GlobalCityDBHandler g) with (slotHandler g GlobalCity).
  change (CityDBHandler g) with (slotHandler g RegionCity).
  change (CountryDBHandler g) with (slotHandler g Country).
  by rewrite !metadataInfo_app.
Qed.

(** A load that fails installs nothing; at most it leaves a reader
    behind the heap. *)
Lemma loadDatabase_failed h g err h' g' :
  loadDatabase fs h g = (Some err, h', g') →
  g' = g ∧ ∃ added, h' = (h ++ added)%list.
Proof.
  intros Hload. unfold loadDatabase, openReader in Hload.
  repeat (case_match; simplify_eq);
    (split; [done|]);
    first [by exists []; rewrite app_nil_r | by eexists].
Qed.

Lemma openFails_not_loadable path :
  openFails fs path → ¬ loadable fs path.
Proof.
  intros [Hv|[err Ho]] [Hv' [rd Ho']]; [done|]. congruence.
Qed.

(** C8 (as amended). A load or reload in which the Country database
    fails validation or fails to open returns an error and leaves the
    set of databases as it was: no reader is opened or closed and no
    handler is replaced, so that the status report and every later
    request are what they were before the attempt. The Europe city
    database is mandatory in the same way: its failure is fatal to the
    load, no handler is replaced, and the status report and every later
    request are what they were (the bound handlers pointing to open
    readers, as they do after any sequence of loads: a reader that the
    failed load leaves behind is referred to by none of them). Only the
    global city and the ASN
    database are best-effort: when the Country and the Europe city
    database open, the load succeeds whatever the other two do, and
    each of the two is bound exactly when its own database opens. *)
Theorem mandatory_load_failure_changes_nothing h g :
  (countryOpenFails fs g →
   ∃ err h' g',
     loadDatabase fs h g = (Some err, h', g')
     ∧ h' = h ∧ g' = g
     ∧ GetDatabaseInfo h' g' = GetDatabaseInfo h g
     ∧ (∀ lib mode r next c,
          ServeHTTP lib h' (mkGeoIP2 mode (Some g')) r next c
          = ServeHTTP lib h (mkGeoIP2 mode (Some g)) r next c)
     ∧ performScheduledReload fs h g = (h, g)
     ∧ ∃ err', Start fs h g = (Some err', h, g))
  ∧ (wellFormed h g → openFails fs (CityDatabasePath g) →
     ∃ err h' g',
       loadDatabase fs h g = (Some err, h', g')
       ∧ g' = g
       ∧ GetDatabaseInfo h' g' = GetDatabaseInfo h g
       ∧ (∀ lib mode r next c,
            ServeHTTP lib h' (mkGeoIP2 mode (Some g')) r next c
            = ServeHTTP lib h (mkGeoIP2 mode (Some g)) r next c)
       ∧ performScheduledReload fs h g = (h', g)
       ∧ ∃ err', Start fs h g = (Some err', h', g))
  ∧ (loadable fs (CountryDatabasePath g) →
     loadable fs (CityDatabasePath g) →
     ∃ h' g',
       loadDatabase fs h g = (None, h', g')
       ∧ bound g' Country = true ∧ bound g' RegionCity = true
       ∧ (bound g' GlobalCity = true ↔
          ∃ rd, maxminddb_Open fs (GlobalCityDatabasePath g) = inr rd)
       ∧ (bound g' Network = true ↔
          ASNDatabasePath g ≠ ""
          ∧ validateDatabaseFile fs (ASNDatabasePath g) = None
          ∧ ∃ rd, maxminddb_Open fs (ASNDatabasePath g) = inr rd)).
Proof.
  split_and!.
  - intros Hfail.
    destruct (loadDatabase_country_fails fs h g Hfail) as [err Hload].
    exists err, h, g. split_and!; try done.
    + unfold performScheduledReload. by rewrite Hload.
    + unfold Start. rewrite Hload. by eexists.
  - intros Hwf Hfail.
    destruct (loadDatabase fs h g) as [[[err|] h'] g'] eqn:Hload.
    + destruct (loadDatabase_failed h g err h' g' Hload)
        as [-> [added ->]].
      exists err, (h ++ added)%list, g. split_and!; try done.
      * by apply GetDatabaseInfo_app.
      * intros lib mode r next c.
        by rewrite !ServeHTTP_next, served_app.
      * unfold performScheduledReload. by rewrite Hload.
      * unfold Start. rewrite Hload. by eexists.
    + exfalso. apply (openFails_not_loadable _ Hfail).
      assert (Hok : (loadDatabase fs h g).1.1 = None) by by rewrite Hload.
      by apply loadDatabase_ok_iff in Hok as [_ ?].
  - intros Hcountry Hcity.
    assert (Hok : (loadDatabase fs h g).1.1 = None)
      by by apply loadDatabase_ok_iff.
    destruct (loadDatabase fs h g) as [[err h'] g'] eqn:Hload.
    simpl in Hok. subst err.
    exists h', g'.
    destruct (loadDatabase_optional fs h g h' g' Hload) as [Hgl Hasn].
    apply loadDatabase_success in Hload as (? & ? & _ & _ & _ & ->).
    split_and!; done.
Qed.

End LoadFailures.

(** The country file has gone missing when the reload runs; in another
    reload the Europe city file is there but is not a database. *)
Lemma mandatory_load_failure_changes_nothing_witness :
  countryOpenFails Sample.fsCountryMissing Sample.full
  ∧ (∃ err,
       loadDatabase Sample.fsCountryMissing Sample.heap Sample.full
       = (Some err, Sample.heap, Sample.full))
  ∧ wellFormed Sample.heap Sample.full
  ∧ openFails Sample.fsCityCorrupt (CityDatabasePath Sample.full)
  ∧ ∃ err h',
      loadDatabase Sample.fsCityCorrupt Sample.heap Sample.full
      = (Some err, h', Sample.full)
      ∧ GetDatabaseInfo h' Sample.full
        = GetDatabaseInfo Sample.heap Sample.full.
Proof.
  assert (Hfail : countryOpenFails Sample.fsCountryMissing Sample.full).
  { left. vm_compute. discriminate. }
  assert (Hcity : openFails Sample.fsCityCorrupt
                    (CityDatabasePath Sample.full)).
  { right. eexists. vm_compute. reflexivity. }
  split; [exact Hfail|]. split.
  - destruct (proj1 (mandatory_load_failure_changes_nothing
                       Sample.fsCountryMissing Sample.heap Sample.full) Hfail)
      as (err & h' & g' & Hload & -> & -> & _).
    by exists err.
  - split; [apply wellFormed_sample|]. split; [exact Hcity|].
    destruct (proj1 (proj2 (mandatory_load_failure_changes_nothing
                              Sample.fsCityCorrupt Sample.heap Sample.full))
                wellFormed_sample Hcity)
      as (err & h' & g' & Hload & -> & Hinfo & _).
    by exists err, h'.
Defined.

(** C8, the counterexample. The Country file is in order and the state
    still runs on a country database whose lookups fail; the Europe city
    file, one of the optional slots of the claim, is not a database. The
    load is not best-effort for that slot: it returns an error and
    installs nothing, not even the Country database it had just opened. *)
Lemma europe_city_failure_is_fatal :
  loadable Sample.fsCityCorrupt (CountryDatabasePath Sample.full)
  ∧ openFails Sample.fsCityCorrupt (CityDatabasePath Sample.full)
  ∧ (loadDatabase Sample.fsCityCorrupt Sample.heapCountryBroken
       Sample.full).1.1
    = Some (errorString
              "failed to open city database /db/city-europe.mmdb: invalid MaxMind DB file")
  ∧ (loadDatabase Sample.fsCityCorrupt Sample.heapCountryBroken
       Sample.full).2
    = Sample.full
  ∧ countryOutcome
      (loadDatabase Sample.fsCityCorrupt Sample.heapCountryBroken
         Sample.full).1.2
      (loadDatabase Sample.fsCityCorrupt Sample.heapCountryBroken
         Sample.full).2 Sample.ipMunich
    = None
  ∧ ∃ country,
      maxminddb_Open Sample.fsCityCorrupt (CountryDatabasePath Sample.full)
      = inr country
      ∧ decodeCountry country Sample.ipMunich = inr Sample.germany.
Proof.
  split_and!.
  - split; [by vm_compute|]. eexists. vm_compute. reflexivity.
  - right. eexists. vm_compute. reflexivity.
  - vm_compute. reflexivity.
  - vm_compute. reflexivity.
  - vm_compute. reflexivity.
  - eexists. split; vm_compute; reflexivity.
Qed.

(** The messages of two errors: a file of 512 bytes, and an address
    error without an address. *)
Example small_file_refused :
  validateDatabaseFile
    (mkFileSystem (fun _ => StatInfo true 512) Sample.databaseAt)
    "/db/country.mmdb"
  = Some (errorString "database file appears too small: 512 bytes").
Proof. vm_compute. reflexivity. Qed.

Example address_error_messages :
  Error_msg (AddrError "missing port in address" "") = "missing port in address"
  ∧ Error_msg (AddrError "missing port in address" "10.0.0.1")
    = "address 10.0.0.1: missing port in address".
Proof. split; vm_compute; reflexivity. Qed.
